(** * A shallow embedding of the DDS texture decoder of libobs/graphics/dds-file.cpp

    Machine integers are modelled as [Z] with their wrap-around written
    out: [uint64_t] arithmetic goes through [u64], [size_t] arithmetic
    through [size_wrap] for the target platform.  Byte buffers are lists
    of [Z] values in [0, 256).  DXGI formats, flag sets and HRESULTs are
    the numeric values the C++ code uses.  The file also covers the
    texture creation built on the decoder and the game-capture helpers
    that follow it in the same source file. *)

From Stdlib Require Import ZArith List Lia Bool Btauto.
From Stdlib Require Strings.String Strings.Ascii.
Import (notations) String.
Import ListNotations.
Open Scope Z_scope.

(** ** Platform and machine arithmetic *)

(** The code is built for 32-bit ([_M_IX86], [_M_ARM]) and 64-bit Windows;
    it branches on the width of [size_t]. *)
Inductive platform := Win32 | Win64.

Definition size_bits (p : platform) : Z :=
  match p with Win32 => 32 | Win64 => 64 end.

Definition size_wrap (p : platform) (x : Z) : Z := x mod 2 ^ size_bits p.

(** [size_t(-1)], the out-of-range sentinel of [ComputeIndex]. *)
Definition size_t_neg1 (p : platform) : Z := 2 ^ size_bits p - 1.

Definition u64 (x : Z) : Z := x mod 2 ^ 64.
Definition add64 (a b : Z) : Z := u64 (a + b).
Definition mul64 (a b : Z) : Z := u64 (a * b).

Definition UINT32_MAX : Z := 4294967295.

Definition mem (x : Z) (l : list Z) : bool := existsb (Z.eqb x) l.

Definition has_flag (flags f : Z) : bool := negb (Z.land flags f =? 0).

(** HRESULT values, as signed 32-bit integers. *)
Definition S_OK : Z := 0.
Definition E_FAIL : Z := 0x80004005 - 2 ^ 32.
Definition E_INVALIDARG : Z := 0x80070057 - 2 ^ 32.
Definition E_OUTOFMEMORY : Z := 0x8007000E - 2 ^ 32.
(** [HRESULT_FROM_WIN32(ERROR_ARITHMETIC_OVERFLOW)]. *)
Definition HRESULT_E_ARITHMETIC_OVERFLOW : Z := 0x80070216 - 2 ^ 32.
Definition FAILED (hr : Z) : bool := hr <? 0.

(** ** DXGI formats *)

Definition DXGI_FORMAT_UNKNOWN := 0.
Definition DXGI_FORMAT_R32G32B32A32_TYPELESS := 1.
Definition DXGI_FORMAT_R32G32B32A32_FLOAT := 2.
Definition DXGI_FORMAT_R16G16B16A16_FLOAT := 10.
Definition DXGI_FORMAT_R16G16B16A16_UNORM := 11.
Definition DXGI_FORMAT_R16G16B16A16_SNORM := 13.
Definition DXGI_FORMAT_R32G32_FLOAT := 16.
Definition DXGI_FORMAT_R10G10B10A2_TYPELESS := 23.
Definition DXGI_FORMAT_R10G10B10A2_UNORM := 24.
Definition DXGI_FORMAT_R10G10B10A2_UINT := 25.
Definition DXGI_FORMAT_R8G8B8A8_TYPELESS := 27.
Definition DXGI_FORMAT_R8G8B8A8_UNORM := 28.
Definition DXGI_FORMAT_R8G8B8A8_UNORM_SRGB := 29.
Definition DXGI_FORMAT_R8G8B8A8_SNORM := 31.
Definition DXGI_FORMAT_R16G16_FLOAT := 34.
Definition DXGI_FORMAT_R16G16_UNORM := 35.
Definition DXGI_FORMAT_R16G16_SNORM := 37.
Definition DXGI_FORMAT_R32_FLOAT := 41.
Definition DXGI_FORMAT_R8G8_UNORM := 49.
Definition DXGI_FORMAT_R8G8_SNORM := 51.
Definition DXGI_FORMAT_R16_FLOAT := 54.
Definition DXGI_FORMAT_R16_UNORM := 56.
Definition DXGI_FORMAT_R8_UNORM := 61.
Definition DXGI_FORMAT_A8_UNORM := 65.
Definition DXGI_FORMAT_R1_UNORM := 66.
Definition DXGI_FORMAT_R8G8_B8G8_UNORM := 68.
Definition DXGI_FORMAT_G8R8_G8B8_UNORM := 69.
Definition DXGI_FORMAT_BC1_TYPELESS := 70.
Definition DXGI_FORMAT_BC1_UNORM := 71.
Definition DXGI_FORMAT_BC1_UNORM_SRGB := 72.
Definition DXGI_FORMAT_BC2_TYPELESS := 73.
Definition DXGI_FORMAT_BC2_UNORM := 74.
Definition DXGI_FORMAT_BC2_UNORM_SRGB := 75.
Definition DXGI_FORMAT_BC3_TYPELESS := 76.
Definition DXGI_FORMAT_BC3_UNORM := 77.
Definition DXGI_FORMAT_BC3_UNORM_SRGB := 78.
Definition DXGI_FORMAT_BC4_TYPELESS := 79.
Definition DXGI_FORMAT_BC4_UNORM := 80.
Definition DXGI_FORMAT_BC4_SNORM := 81.
Definition DXGI_FORMAT_BC5_TYPELESS := 82.
Definition DXGI_FORMAT_BC5_UNORM := 83.
Definition DXGI_FORMAT_BC5_SNORM := 84.
Definition DXGI_FORMAT_B5G6R5_UNORM := 85.
Definition DXGI_FORMAT_B5G5R5A1_UNORM := 86.
Definition DXGI_FORMAT_B8G8R8A8_UNORM := 87.
Definition DXGI_FORMAT_B8G8R8X8_UNORM := 88.
Definition DXGI_FORMAT_R10G10B10_XR_BIAS_A2_UNORM := 89.
Definition DXGI_FORMAT_B8G8R8A8_TYPELESS := 90.
Definition DXGI_FORMAT_B8G8R8A8_UNORM_SRGB := 91.
Definition DXGI_FORMAT_B8G8R8X8_TYPELESS := 92.
Definition DXGI_FORMAT_B8G8R8X8_UNORM_SRGB := 93.
Definition DXGI_FORMAT_BC6H_TYPELESS := 94.
Definition DXGI_FORMAT_BC6H_UF16 := 95.
Definition DXGI_FORMAT_BC6H_SF16 := 96.
Definition DXGI_FORMAT_BC7_TYPELESS := 97.
Definition DXGI_FORMAT_BC7_UNORM := 98.
Definition DXGI_FORMAT_BC7_UNORM_SRGB := 99.
Definition DXGI_FORMAT_AYUV := 100.
Definition DXGI_FORMAT_Y410 := 101.
Definition DXGI_FORMAT_Y416 := 102.
Definition DXGI_FORMAT_NV12 := 103.
Definition DXGI_FORMAT_P010 := 104.
Definition DXGI_FORMAT_P016 := 105.
Definition DXGI_FORMAT_420_OPAQUE := 106.
Definition DXGI_FORMAT_YUY2 := 107.
Definition DXGI_FORMAT_Y210 := 108.
Definition DXGI_FORMAT_Y216 := 109.
Definition DXGI_FORMAT_NV11 := 110.
Definition DXGI_FORMAT_AI44 := 111.
Definition DXGI_FORMAT_IA44 := 112.
Definition DXGI_FORMAT_P8 := 113.
Definition DXGI_FORMAT_A8P8 := 114.
Definition DXGI_FORMAT_B4G4R4A4_UNORM := 115.
Definition XBOX_DXGI_FORMAT_R10G10B10_7E3_A2_FLOAT := 116.
Definition XBOX_DXGI_FORMAT_R10G10B10_6E4_A2_FLOAT := 117.
Definition XBOX_DXGI_FORMAT_D16_UNORM_S8_UINT := 118.
Definition XBOX_DXGI_FORMAT_R16_UNORM_X8_TYPELESS := 119.
Definition XBOX_DXGI_FORMAT_X16_TYPELESS_G8_UINT := 120.
Definition WIN10_DXGI_FORMAT_P208 := 130.
Definition WIN10_DXGI_FORMAT_V208 := 131.
Definition WIN10_DXGI_FORMAT_V408 := 132.
Definition XBOX_DXGI_FORMAT_R10G10B10_SNORM_A2_UNORM := 189.
Definition XBOX_DXGI_FORMAT_R4G4_UNORM := 190.

Definition IsValid (fmt : Z) : bool := (1 <=? fmt) && (fmt <=? 190).

Definition IsPalettized (fmt : Z) : bool :=
  mem fmt [DXGI_FORMAT_AI44; DXGI_FORMAT_IA44; DXGI_FORMAT_P8; DXGI_FORMAT_A8P8].

Definition bc_8byte_formats : list Z :=
  [DXGI_FORMAT_BC1_TYPELESS; DXGI_FORMAT_BC1_UNORM; DXGI_FORMAT_BC1_UNORM_SRGB;
   DXGI_FORMAT_BC4_TYPELESS; DXGI_FORMAT_BC4_UNORM; DXGI_FORMAT_BC4_SNORM].

Definition bc_16byte_formats : list Z :=
  [DXGI_FORMAT_BC2_TYPELESS; DXGI_FORMAT_BC2_UNORM; DXGI_FORMAT_BC2_UNORM_SRGB;
   DXGI_FORMAT_BC3_TYPELESS; DXGI_FORMAT_BC3_UNORM; DXGI_FORMAT_BC3_UNORM_SRGB;
   DXGI_FORMAT_BC5_TYPELESS; DXGI_FORMAT_BC5_UNORM; DXGI_FORMAT_BC5_SNORM;
   DXGI_FORMAT_BC6H_TYPELESS; DXGI_FORMAT_BC6H_UF16; DXGI_FORMAT_BC6H_SF16;
   DXGI_FORMAT_BC7_TYPELESS; DXGI_FORMAT_BC7_UNORM; DXGI_FORMAT_BC7_UNORM_SRGB].

Definition IsCompressed (fmt : Z) : bool :=
  mem fmt bc_8byte_formats || mem fmt bc_16byte_formats.

Definition IsPlanar (fmt : Z) : bool :=
  mem fmt [DXGI_FORMAT_NV12; DXGI_FORMAT_P010; DXGI_FORMAT_P016;
           DXGI_FORMAT_420_OPAQUE; DXGI_FORMAT_NV11;
           WIN10_DXGI_FORMAT_P208; WIN10_DXGI_FORMAT_V208; WIN10_DXGI_FORMAT_V408;
           XBOX_DXGI_FORMAT_D16_UNORM_S8_UINT; XBOX_DXGI_FORMAT_R16_UNORM_X8_TYPELESS;
           XBOX_DXGI_FORMAT_X16_TYPELESS_G8_UINT].

(** [BitsPerPixel]: the switch of the source, case by case (formats
    are listed by their numeric DXGI value where the source names them). *)
Definition BitsPerPixel (fmt : Z) : Z :=
  if mem fmt [1; 2; 3; 4] then 128
  else if mem fmt [5; 6; 7; 8] then 96
  else if mem fmt [9; 10; 11; 12; 13; 14; 15; 16; 17; 18; 19; 20; 21; 22;
                   DXGI_FORMAT_Y416; DXGI_FORMAT_Y210; DXGI_FORMAT_Y216] then 64
  else if mem fmt [23; 24; 25; 26; 27; 28; 29; 30; 31; 32; 33; 34; 35; 36; 37; 38;
                   39; 40; 41; 42; 43; 44; 45; 46; 47; 67; 68; 69; 87; 88; 89;
                   90; 91; 92; 93; DXGI_FORMAT_AYUV; DXGI_FORMAT_Y410;
                   DXGI_FORMAT_YUY2; XBOX_DXGI_FORMAT_R10G10B10_7E3_A2_FLOAT;
                   XBOX_DXGI_FORMAT_R10G10B10_6E4_A2_FLOAT;
                   XBOX_DXGI_FORMAT_R10G10B10_SNORM_A2_UNORM] then 32
  else if mem fmt [DXGI_FORMAT_P010; DXGI_FORMAT_P016;
                   XBOX_DXGI_FORMAT_D16_UNORM_S8_UINT;
                   XBOX_DXGI_FORMAT_R16_UNORM_X8_TYPELESS;
                   XBOX_DXGI_FORMAT_X16_TYPELESS_G8_UINT;
                   WIN10_DXGI_FORMAT_V408] then 24
  else if mem fmt [48; 49; 50; 51; 52; 53; 54; 55; 56; 57; 58; 59;
                   DXGI_FORMAT_B5G6R5_UNORM; DXGI_FORMAT_B5G5R5A1_UNORM;
                   DXGI_FORMAT_A8P8; DXGI_FORMAT_B4G4R4A4_UNORM;
                   WIN10_DXGI_FORMAT_P208; WIN10_DXGI_FORMAT_V208] then 16
  else if mem fmt [DXGI_FORMAT_NV12; DXGI_FORMAT_420_OPAQUE; DXGI_FORMAT_NV11] then 12
  else if mem fmt ([60; 61; 62; 63; 64; 65] ++ bc_16byte_formats ++
                   [DXGI_FORMAT_AI44; DXGI_FORMAT_IA44; DXGI_FORMAT_P8;
                    XBOX_DXGI_FORMAT_R4G4_UNORM]) then 8
  else if fmt =? DXGI_FORMAT_R1_UNORM then 1
  else if mem fmt bc_8byte_formats then 4
  else 0.

(** ** Pitch computation *)

Definition CP_FLAGS_NONE := 0x0.
Definition CP_FLAGS_LEGACY_DWORD := 0x1.
Definition CP_FLAGS_PARAGRAPH := 0x2.
Definition CP_FLAGS_YMM := 0x4.
Definition CP_FLAGS_ZMM := 0x8.
Definition CP_FLAGS_PAGE4K := 0x200.
Definition CP_FLAGS_BAD_DXTN_TAILS := 0x1000.
Definition CP_FLAGS_24BPP := 0x10000.
Definition CP_FLAGS_16BPP := 0x20000.
Definition CP_FLAGS_8BPP := 0x40000.

(** The outcome of [ComputePitch]: [S_OK] with the two out-parameters,
    or a failing HRESULT. *)
Inductive pitch_result :=
| PitchOk (rowPitch slicePitch : Z)
| PitchErr (hr : Z).

(** The [uint64_t] values [pitch] and [slice] computed by the format
    switch of [ComputePitch], or [None] for its [return E_INVALIDARG]. *)
Definition pitch_of_format (fmt width height flags : Z) : option (Z * Z) :=
  let block nbytes :=
    if has_flag flags CP_FLAGS_BAD_DXTN_TAILS then
      let nbw := Z.shiftr width 2 in
      let nbh := Z.shiftr height 2 in
      let pitch := Z.max 1 (mul64 nbw nbytes) in
      let slice := Z.max 1 (mul64 pitch nbh) in
      Some (pitch, slice)
    else
      let nbw := Z.max 1 (add64 width 3 / 4) in
      let nbh := Z.max 1 (add64 height 3 / 4) in
      let pitch := mul64 nbw nbytes in
      Some (pitch, mul64 pitch nbh) in
  if mem fmt bc_8byte_formats then block 8
  else if mem fmt bc_16byte_formats then block 16
  else if mem fmt [DXGI_FORMAT_R8G8_B8G8_UNORM; DXGI_FORMAT_G8R8_G8B8_UNORM;
                   DXGI_FORMAT_YUY2] then
    let pitch := mul64 (Z.shiftr (add64 width 1) 1) 4 in
    Some (pitch, mul64 pitch height)
  else if mem fmt [DXGI_FORMAT_Y210; DXGI_FORMAT_Y216] then
    let pitch := mul64 (Z.shiftr (add64 width 1) 1) 8 in
    Some (pitch, mul64 pitch height)
  else if mem fmt [DXGI_FORMAT_NV12; DXGI_FORMAT_420_OPAQUE] then
    let pitch := mul64 (Z.shiftr (add64 width 1) 1) 2 in
    Some (pitch, mul64 pitch (add64 height (Z.shiftr (add64 height 1) 1)))
  else if mem fmt [DXGI_FORMAT_P010; DXGI_FORMAT_P016;
                   XBOX_DXGI_FORMAT_D16_UNORM_S8_UINT;
                   XBOX_DXGI_FORMAT_R16_UNORM_X8_TYPELESS;
                   XBOX_DXGI_FORMAT_X16_TYPELESS_G8_UINT] then
    let pitch := mul64 (Z.shiftr (add64 width 1) 1) 4 in
    Some (pitch, mul64 pitch (add64 height (Z.shiftr (add64 height 1) 1)))
  else if fmt =? DXGI_FORMAT_NV11 then
    let pitch := mul64 (Z.shiftr (add64 width 3) 2) 4 in
    Some (pitch, mul64 (mul64 pitch height) 2)
  else if fmt =? WIN10_DXGI_FORMAT_P208 then
    let pitch := mul64 (Z.shiftr (add64 width 1) 1) 2 in
    Some (pitch, mul64 (mul64 pitch height) 2)
  else if fmt =? WIN10_DXGI_FORMAT_V208 then
    let pitch := width in
    Some (pitch, mul64 pitch (add64 height (mul64 (Z.shiftr (add64 height 1) 1) 2)))
  else if fmt =? WIN10_DXGI_FORMAT_V408 then
    let pitch := width in
    Some (pitch, mul64 pitch (add64 height (mul64 (Z.shiftr height 1) 4)))
  else
    let bpp :=
      if has_flag flags CP_FLAGS_24BPP then 24
      else if has_flag flags CP_FLAGS_16BPP then 16
      else if has_flag flags CP_FLAGS_8BPP then 8
      else BitsPerPixel fmt in
    if bpp =? 0 then None
    else
      let wb := mul64 width bpp in
      let aligned add div unit :=
        let pitch := mul64 (add64 wb add / div) unit in
        Some (pitch, mul64 pitch height) in
      if has_flag flags (Z.lor CP_FLAGS_LEGACY_DWORD
                          (Z.lor CP_FLAGS_PARAGRAPH
                          (Z.lor CP_FLAGS_YMM
                          (Z.lor CP_FLAGS_ZMM CP_FLAGS_PAGE4K)))) then
        if has_flag flags CP_FLAGS_PAGE4K then aligned 32767 32768 4096
        else if has_flag flags CP_FLAGS_ZMM then aligned 511 512 64
        else if has_flag flags CP_FLAGS_YMM then aligned 255 256 32
        else if has_flag flags CP_FLAGS_PARAGRAPH then aligned 127 128 16
        else aligned 31 32 4
      else
        let pitch := add64 wb 7 / 8 in
        Some (pitch, mul64 pitch height).

(** [ComputePitch]: the format switch, then the overflow check that only
    the 32-bit build compiles. *)
Definition ComputePitch (p : platform) (fmt width height flags : Z) : pitch_result :=
  match pitch_of_format fmt width height flags with
  | None => PitchErr E_INVALIDARG
  | Some (pitch, slice) =>
      match p with
      | Win32 =>
          if (pitch >? UINT32_MAX) || (slice >? UINT32_MAX)
          then PitchErr HRESULT_E_ARITHMETIC_OVERFLOW
          else PitchOk pitch slice
      | Win64 => PitchOk pitch slice
      end
  end.

(** The pitches that the format switch of [ComputePitch] would compute
    in unbounded arithmetic: [pitch_of_format] with every [uint64_t]
    addition and multiplication taken without wrap-around. *)
Definition pitch_of_format_exact (fmt width height flags : Z) : option (Z * Z) :=
  let block nbytes :=
    if has_flag flags CP_FLAGS_BAD_DXTN_TAILS then
      let nbw := Z.shiftr width 2 in
      let nbh := Z.shiftr height 2 in
      let pitch := Z.max 1 (nbw * nbytes) in
      let slice := Z.max 1 (pitch * nbh) in
      Some (pitch, slice)
    else
      let nbw := Z.max 1 ((width + 3) / 4) in
      let nbh := Z.max 1 ((height + 3) / 4) in
      let pitch := nbw * nbytes in
      Some (pitch, pitch * nbh) in
  if mem fmt bc_8byte_formats then block 8
  else if mem fmt bc_16byte_formats then block 16
  else if mem fmt [DXGI_FORMAT_R8G8_B8G8_UNORM; DXGI_FORMAT_G8R8_G8B8_UNORM;
                   DXGI_FORMAT_YUY2] then
    let pitch := Z.shiftr (width + 1) 1 * 4 in
    Some (pitch, pitch * height)
  else if mem fmt [DXGI_FORMAT_Y210; DXGI_FORMAT_Y216] then
    let pitch := Z.shiftr (width + 1) 1 * 8 in
    Some (pitch, pitch * height)
  else if mem fmt [DXGI_FORMAT_NV12; DXGI_FORMAT_420_OPAQUE] then
    let pitch := Z.shiftr (width + 1) 1 * 2 in
    Some (pitch, pitch * (height + Z.shiftr (height + 1) 1))
  else if mem fmt [DXGI_FORMAT_P010; DXGI_FORMAT_P016;
                   XBOX_DXGI_FORMAT_D16_UNORM_S8_UINT;
                   XBOX_DXGI_FORMAT_R16_UNORM_X8_TYPELESS;
                   XBOX_DXGI_FORMAT_X16_TYPELESS_G8_UINT] then
    let pitch := Z.shiftr (width + 1) 1 * 4 in
    Some (pitch, pitch * (height + Z.shiftr (height + 1) 1))
  else if fmt =? DXGI_FORMAT_NV11 then
    let pitch := Z.shiftr (width + 3) 2 * 4 in
    Some (pitch, pitch * height * 2)
  else if fmt =? WIN10_DXGI_FORMAT_P208 then
    let pitch := Z.shiftr (width + 1) 1 * 2 in
    Some (pitch, pitch * height * 2)
  else if fmt =? WIN10_DXGI_FORMAT_V208 then
    let pitch := width in
    Some (pitch, pitch * (height + Z.shiftr (height + 1) 1 * 2))
  else if fmt =? WIN10_DXGI_FORMAT_V408 then
    let pitch := width in
    Some (pitch, pitch * (height + Z.shiftr height 1 * 4))
  else
    let bpp :=
      if has_flag flags CP_FLAGS_24BPP then 24
      else if has_flag flags CP_FLAGS_16BPP then 16
      else if has_flag flags CP_FLAGS_8BPP then 8
      else BitsPerPixel fmt in
    if bpp =? 0 then None
    else
      let wb := width * bpp in
      let aligned add div unit :=
        let pitch := (wb + add) / div * unit in
        Some (pitch, pitch * height) in
      if has_flag flags (Z.lor CP_FLAGS_LEGACY_DWORD
                          (Z.lor CP_FLAGS_PARAGRAPH
                          (Z.lor CP_FLAGS_YMM
                          (Z.lor CP_FLAGS_ZMM CP_FLAGS_PAGE4K)))) then
        if has_flag flags CP_FLAGS_PAGE4K then aligned 32767 32768 4096
        else if has_flag flags CP_FLAGS_ZMM then aligned 511 512 64
        else if has_flag flags CP_FLAGS_YMM then aligned 255 256 32
        else if has_flag flags CP_FLAGS_PARAGRAPH then aligned 127 128 16
        else aligned 31 32 4
      else
        let pitch := (wb + 7) / 8 in
        Some (pitch, pitch * height).

(** ** Mip counts *)

(** The [while] loop of [CountMips]; [fuel] bounds the iterations
    (each one decreases [width + height]). *)
Fixpoint count_mips_loop (fuel : nat) (width height mipLevels : Z) : Z :=
  match fuel with
  | O => mipLevels
  | S fuel' =>
      if (height >? 1) || (width >? 1) then
        let height' := if height >? 1 then Z.shiftr height 1 else height in
        let width' := if width >? 1 then Z.shiftr width 1 else width in
        count_mips_loop fuel' width' height' (mipLevels + 1)
      else mipLevels
  end.

Definition CountMips (width height : Z) : Z :=
  count_mips_loop (Z.to_nat (width + height)) width height 1.

(** ** Texture metadata and subresource indexing *)

Definition TEX_DIMENSION_TEXTURE1D := 2.
Definition TEX_DIMENSION_TEXTURE2D := 3.
Definition TEX_DIMENSION_TEXTURE3D := 4.

Definition TEX_ALPHA_MODE_PREMULTIPLIED := 2.
Definition TEX_ALPHA_MODE_OPAQUE := 3.
Definition TEX_MISC_TEXTURECUBE := 0x4.
Definition TEX_MISC2_ALPHA_MODE_MASK := 0x7.

Record TexMetadata := mkTexMetadata {
  width : Z;
  height : Z;
  depth : Z;
  arraySize : Z;
  mipLevels : Z;
  miscFlags : Z;
  miscFlags2 : Z;
  format : Z;
  dimension : Z
}.

(** The zero-filled metadata that [memset] leaves. *)
Definition TexMetadata_zero : TexMetadata := mkTexMetadata 0 0 0 0 0 0 0 0 0.

Definition IsCubemap (m : TexMetadata) : bool :=
  has_flag (miscFlags m) TEX_MISC_TEXTURECUBE.

Definition SetAlphaMode (m : TexMetadata) (mode : Z) : TexMetadata :=
  {| width := width m; height := height m; depth := depth m;
     arraySize := arraySize m; mipLevels := mipLevels m;
     miscFlags := miscFlags m;
     miscFlags2 := Z.lor (Z.land (miscFlags2 m)
                            (Z.lxor TEX_MISC2_ALPHA_MODE_MASK (2 ^ 32 - 1))) mode;
     format := format m; dimension := dimension m |}.

(** [if (d > 1) d >>= 1;], the mip shrink of one dimension. *)
Definition shrink (d : Z) : Z := if d >? 1 then Z.shiftr d 1 else d.

(** The [for (level = 0; level < mip; ++level)] loop of the volume case
    of [ComputeIndex]: returns [(index, d)]. *)
Fixpoint volume_index_loop (p : platform) (levels : nat) (index d : Z) : Z * Z :=
  match levels with
  | O => (index, d)
  | S l => volume_index_loop p l (size_wrap p (index + d)) (shrink d)
  end.

Definition ComputeIndex (p : platform) (m : TexMetadata) (mip item slice : Z) : Z :=
  if mip >=? mipLevels m then size_t_neg1 p
  else if (dimension m =? TEX_DIMENSION_TEXTURE1D) ||
          (dimension m =? TEX_DIMENSION_TEXTURE2D) then
    if slice >? 0 then size_t_neg1 p
    else if item >=? arraySize m then size_t_neg1 p
    else size_wrap p (item * mipLevels m + mip)
  else if dimension m =? TEX_DIMENSION_TEXTURE3D then
    if item >? 0 then size_t_neg1 p
    else
      let '(index, d) := volume_index_loop p (Z.to_nat mip) 0 (depth m) in
      if slice >=? d then size_t_neg1 p
      else size_wrap p (index + slice)
  else size_t_neg1 p.

(** ** Image layout: [DetermineImageArray] and [SetupImageArray] *)

Record Image := mkImage {
  img_width : Z;
  img_height : Z;
  img_format : Z;
  rowPitch : Z;
  slicePitch : Z;
  (** offset of [pixels] from the start of the owning buffer *)
  pixels : Z
}.

Section Layout.
Variable p : platform.
Variable fmt cpFlags : Z.

(** Inner [level] loop of the 1D/2D case of [DetermineImageArray]:
    threads [(totalPixelSize, nimages)]. *)
Fixpoint plan_levels (levels : nat) (w h total n : Z) : option (Z * Z) :=
  match levels with
  | O => Some (total, n)
  | S l =>
      match ComputePitch p fmt w h cpFlags with
      | PitchErr _ => None
      | PitchOk _ sp =>
          plan_levels l (shrink w) (shrink h) (add64 total sp) (size_wrap p (n + 1))
      end
  end.

(** Outer [item] loop of the 1D/2D case. *)
Fixpoint plan_items (items : nat) (w h : Z) (levels : nat) (total n : Z)
  : option (Z * Z) :=
  match items with
  | O => Some (total, n)
  | S i =>
      match plan_levels levels w h total n with
      | None => None
      | Some (total', n') => plan_items i w h levels total' n'
      end
  end.

(** [for (slice = 0; slice < d; ++slice)] of the 3D case. *)
Fixpoint plan_slices (slices : nat) (sp total n : Z) : Z * Z :=
  match slices with
  | O => (total, n)
  | S s => plan_slices s sp (add64 total sp) (size_wrap p (n + 1))
  end.

(** [level] loop of the 3D case. *)
Fixpoint plan_volume (levels : nat) (w h d total n : Z) : option (Z * Z) :=
  match levels with
  | O => Some (total, n)
  | S l =>
      match ComputePitch p fmt w h cpFlags with
      | PitchErr _ => None
      | PitchOk _ sp =>
          let '(total', n') := plan_slices (Z.to_nat d) sp total n in
          plan_volume l (shrink w) (shrink h) (shrink d) total' n'
      end
  end.

(** State of the [SetupImageArray] loops: [index], the [pixels] cursor
    (an offset into [pMemory]) and the images written so far. *)
Record cursor := mkCursor { c_index : Z; c_pixels : Z; c_images : list Image }.

Variable pixelSize nImages : Z.

(** One subresource of [SetupImageArray]: the [index >= nImages] check,
    the descriptor write, the cursor advance and the [pixels > pEndBits]
    check. *)
Definition setup_one (w h rp sp : Z) (c : cursor) : option cursor :=
  if c_index c >=? nImages then None
  else
    let img := mkImage w h fmt rp sp (c_pixels c) in
    let pix := c_pixels c + sp in
    if pix >? pixelSize then None
    else Some (mkCursor (c_index c + 1) pix (c_images c ++ [img])).

Fixpoint setup_levels (levels : nat) (w h : Z) (c : cursor) : option cursor :=
  match levels with
  | O => Some c
  | S l =>
      if c_index c >=? nImages then None
      else
        match ComputePitch p fmt w h cpFlags with
        | PitchErr _ => None
        | PitchOk rp sp =>
            match setup_one w h rp sp c with
            | None => None
            | Some c' => setup_levels l (shrink w) (shrink h) c'
            end
        end
  end.

Fixpoint setup_items (items : nat) (w h : Z) (levels : nat) (c : cursor)
  : option cursor :=
  match items with
  | O => Some c
  | S i =>
      match setup_levels levels w h c with
      | None => None
      | Some c' => setup_items i w h levels c'
      end
  end.

Fixpoint setup_slices (slices : nat) (w h rp sp : Z) (c : cursor) : option cursor :=
  match slices with
  | O => Some c
  | S s =>
      match setup_one w h rp sp c with
      | None => None
      | Some c' => setup_slices s w h rp sp c'
      end
  end.

Fixpoint setup_volume (levels : nat) (w h d : Z) (c : cursor) : option cursor :=
  match levels with
  | O => Some c
  | S l =>
      match ComputePitch p fmt w h cpFlags with
      | PitchErr _ => None
      | PitchOk rp sp =>
          match setup_slices (Z.to_nat d) w h rp sp c with
          | None => None
          | Some c' => setup_volume l (shrink w) (shrink h) (shrink d) c'
          end
      end
  end.
End Layout.

(** [DetermineImageArray]: [Some (nImages, pixelSize)] or [None] for
    [return false]. *)
Definition DetermineImageArray (p : platform) (m : TexMetadata) (cpFlags : Z)
  : option (Z * Z) :=
  let res :=
    if (dimension m =? TEX_DIMENSION_TEXTURE1D) ||
       (dimension m =? TEX_DIMENSION_TEXTURE2D) then
      plan_items p (format m) cpFlags (Z.to_nat (arraySize m)) (width m) (height m)
        (Z.to_nat (mipLevels m)) 0 0
    else if dimension m =? TEX_DIMENSION_TEXTURE3D then
      plan_volume p (format m) cpFlags (Z.to_nat (mipLevels m))
        (width m) (height m) (depth m) 0 0
    else None in
  match res with
  | None => None
  | Some (total, n) =>
      match p with
      | Win32 => if total >? UINT32_MAX then None else Some (n, total)
      | Win64 => Some (n, total)
      end
  end.

(** [SetupImageArray] over a buffer of [pixelSize] bytes and an [images]
    array of [nImages] entries: the descriptors written, or [None] for
    [return false]. *)
Definition SetupImageArray (p : platform) (pixelSize : Z) (m : TexMetadata)
  (cpFlags nImages : Z) : option (list Image) :=
  let c0 := mkCursor 0 0 [] in
  let fmt := format m in
  if (dimension m =? TEX_DIMENSION_TEXTURE1D) ||
     (dimension m =? TEX_DIMENSION_TEXTURE2D) then
    if (arraySize m =? 0) || (mipLevels m =? 0) then None
    else
      option_map c_images
        (setup_items p fmt cpFlags pixelSize nImages (Z.to_nat (arraySize m))
           (width m) (height m) (Z.to_nat (mipLevels m)) c0)
  else if dimension m =? TEX_DIMENSION_TEXTURE3D then
    if (mipLevels m =? 0) || (depth m =? 0) then None
    else
      option_map c_images
        (setup_volume p fmt cpFlags pixelSize nImages (Z.to_nat (mipLevels m))
           (width m) (height m) (depth m) c0)
  else None.

(** ** DDS header structures *)

(** The [uint8_t] at byte [i] of a buffer (reads are bounds-checked by
    the callers). *)
Definition byte_at (buf : list Z) (i : Z) : Z := nth (Z.to_nat i) buf 0 mod 256.

(** Little-endian [uint32_t] at byte offset [off]. *)
Definition le32 (buf : list Z) (off : Z) : Z :=
  byte_at buf off + 256 * byte_at buf (off + 1) +
  65536 * byte_at buf (off + 2) + 16777216 * byte_at buf (off + 3).

Definition MAKEFOURCC (a b c d : Z) : Z :=
  Z.lor a (Z.lor (Z.shiftl b 8) (Z.lor (Z.shiftl c 16) (Z.shiftl d 24))).

Record DDS_PIXELFORMAT := mkPF {
  pf_size : Z; pf_flags : Z; fourCC : Z; RGBBitCount : Z;
  RBitMask : Z; GBitMask : Z; BBitMask : Z; ABitMask : Z
}.

Record DDS_HEADER := mkHeader {
  hdr_size : Z; hdr_flags : Z; hdr_height : Z; hdr_width : Z;
  pitchOrLinearSize : Z; hdr_depth : Z; mipMapCount : Z;
  reserved1 : list Z; ddspf : DDS_PIXELFORMAT;
  caps : Z; caps2 : Z; caps3 : Z; caps4 : Z; reserved2 : Z
}.

Record DDS_HEADER_DXT10 := mkDXT10 {
  dxgiFormat : Z; resourceDimension : Z; miscFlag : Z;
  dx10_arraySize : Z; dx10_miscFlags2 : Z
}.

Definition sizeof_DDS_PIXELFORMAT := 32.
Definition sizeof_DDS_HEADER := 124.
Definition sizeof_DDS_HEADER_DXT10 := 20.
Definition MAX_HEADER_SIZE := 4 + sizeof_DDS_HEADER + sizeof_DDS_HEADER_DXT10.
Definition DDS_MAGIC := 0x20534444.

(** The [DDS_PIXELFORMAT] laid out at byte offset [off]. *)
Definition read_pixelformat (buf : list Z) (off : Z) : DDS_PIXELFORMAT :=
  mkPF (le32 buf off) (le32 buf (off + 4)) (le32 buf (off + 8)) (le32 buf (off + 12))
       (le32 buf (off + 16)) (le32 buf (off + 20)) (le32 buf (off + 24))
       (le32 buf (off + 28)).

(** The [DDS_HEADER] laid out at byte offset [off]. *)
Definition read_header (buf : list Z) (off : Z) : DDS_HEADER :=
  mkHeader (le32 buf off) (le32 buf (off + 4)) (le32 buf (off + 8))
    (le32 buf (off + 12)) (le32 buf (off + 16)) (le32 buf (off + 20))
    (le32 buf (off + 24))
    (map (fun i => le32 buf (off + 28 + 4 * Z.of_nat i)) (seq 0 11))
    (read_pixelformat buf (off + 72))
    (le32 buf (off + 104)) (le32 buf (off + 108)) (le32 buf (off + 112))
    (le32 buf (off + 116)) (le32 buf (off + 120)).

Definition read_dxt10 (buf : list Z) (off : Z) : DDS_HEADER_DXT10 :=
  mkDXT10 (le32 buf off) (le32 buf (off + 4)) (le32 buf (off + 8))
    (le32 buf (off + 12)) (le32 buf (off + 16)).

Definition DDS_FOURCC := 0x00000004.
Definition DDS_RGB := 0x00000040.
Definition DDS_RGBA := 0x00000041.
Definition DDS_LUMINANCE := 0x00020000.
Definition DDS_LUMINANCEA := 0x00020001.
Definition DDS_ALPHAPIXELS := 0x00000001.
Definition DDS_ALPHA := 0x00000002.
Definition DDS_PAL8 := 0x00000020.
Definition DDS_PAL8A := 0x00000021.
Definition DDS_BUMPDUDV := 0x00080000.
Definition DDS_HEIGHT := 0x00000002.
Definition DDS_HEADER_FLAGS_VOLUME := 0x00800000.
Definition DDS_CUBEMAP := 0x00000200.
Definition DDS_CUBEMAP_ALLFACES :=
  Z.lor 0x600 (Z.lor 0xa00 (Z.lor 0x1200 (Z.lor 0x2200 (Z.lor 0x4200 0x8200)))).
Definition DDS_RESOURCE_MISC_TEXTURECUBE := 0x4.
Definition DDS_DIMENSION_TEXTURE1D := 2.
Definition DDS_DIMENSION_TEXTURE2D := 3.
Definition DDS_DIMENSION_TEXTURE3D := 4.

Definition CONV_FLAGS_NONE := 0x0.
Definition CONV_FLAGS_EXPAND := 0x1.
Definition CONV_FLAGS_NOALPHA := 0x2.
Definition CONV_FLAGS_SWIZZLE := 0x4.
Definition CONV_FLAGS_PAL8 := 0x8.
Definition CONV_FLAGS_888 := 0x10.
Definition CONV_FLAGS_565 := 0x20.
Definition CONV_FLAGS_5551 := 0x40.
Definition CONV_FLAGS_4444 := 0x80.
Definition CONV_FLAGS_44 := 0x100.
Definition CONV_FLAGS_332 := 0x200.
Definition CONV_FLAGS_8332 := 0x400.
Definition CONV_FLAGS_A8P8 := 0x800.
Definition CONV_FLAGS_DX10 := 0x10000.
Definition CONV_FLAGS_PMALPHA := 0x20000.
Definition CONV_FLAGS_L8 := 0x40000.
Definition CONV_FLAGS_L16 := 0x80000.
Definition CONV_FLAGS_A8L8 := 0x100000.

(** ** The legacy format table [g_LegacyDDSMap] *)

Record LegacyDDS := mkLegacy { lg_format : Z; lg_convFlags : Z; lg_ddpf : DDS_PIXELFORMAT }.

Definition pf (flags cc bits r g b a : Z) : DDS_PIXELFORMAT :=
  mkPF sizeof_DDS_PIXELFORMAT flags cc bits r g b a.
Definition pf_cc (a b c d : Z) : DDS_PIXELFORMAT :=
  pf DDS_FOURCC (MAKEFOURCC a b c d) 0 0 0 0 0.
Definition pf_cc_num (n : Z) : DDS_PIXELFORMAT := pf DDS_FOURCC n 0 0 0 0 0.

(** Character codes used by the FourCC entries. *)
Definition cA := 65.
Definition cB := 66.
Definition cC := 67.
Definition cD := 68.
Definition cG := 71.
Definition cH := 72.
Definition cI := 73.
Definition cL := 76.
Definition cN := 78.
Definition cR := 82.
Definition cS := 83.
Definition cT := 84.
Definition cU := 85.
Definition cV := 86.
Definition cX := 88.
Definition cY := 89.
Definition c0 := 48.
Definition c1 := 49.
Definition c2 := 50.
Definition c3 := 51.
Definition c4 := 52.
Definition c5 := 53.
Definition c6 := 54.
Definition c7 := 55.

Definition DDSPF_DX10 := pf_cc cD cX c1 c0.

Definition g_LegacyDDSMap : list LegacyDDS :=
  [ mkLegacy DXGI_FORMAT_BC1_UNORM CONV_FLAGS_NONE (pf_cc cD cX cT c1);
    mkLegacy DXGI_FORMAT_BC2_UNORM CONV_FLAGS_NONE (pf_cc cD cX cT c3);
    mkLegacy DXGI_FORMAT_BC3_UNORM CONV_FLAGS_NONE (pf_cc cD cX cT c5);
    mkLegacy DXGI_FORMAT_BC2_UNORM CONV_FLAGS_PMALPHA (pf_cc cD cX cT c2);
    mkLegacy DXGI_FORMAT_BC3_UNORM CONV_FLAGS_PMALPHA (pf_cc cD cX cT c4);
    mkLegacy DXGI_FORMAT_BC4_UNORM CONV_FLAGS_NONE (pf_cc cB cC c4 cU);
    mkLegacy DXGI_FORMAT_BC4_SNORM CONV_FLAGS_NONE (pf_cc cB cC c4 cS);
    mkLegacy DXGI_FORMAT_BC5_UNORM CONV_FLAGS_NONE (pf_cc cB cC c5 cU);
    mkLegacy DXGI_FORMAT_BC5_SNORM CONV_FLAGS_NONE (pf_cc cB cC c5 cS);
    mkLegacy DXGI_FORMAT_BC4_UNORM CONV_FLAGS_NONE (pf_cc cA cT cI c1);
    mkLegacy DXGI_FORMAT_BC5_UNORM CONV_FLAGS_NONE (pf_cc cA cT cI c2);
    mkLegacy DXGI_FORMAT_BC6H_UF16 CONV_FLAGS_NONE (pf_cc cB cC c6 cH);
    mkLegacy DXGI_FORMAT_BC7_UNORM CONV_FLAGS_NONE (pf_cc cB cC c7 cL);
    mkLegacy DXGI_FORMAT_BC7_UNORM CONV_FLAGS_NONE (pf_cc cB cC c7 0);
    mkLegacy DXGI_FORMAT_R8G8_B8G8_UNORM CONV_FLAGS_NONE (pf_cc cR cG cB cG);
    mkLegacy DXGI_FORMAT_G8R8_G8B8_UNORM CONV_FLAGS_NONE (pf_cc cG cR cG cB);
    mkLegacy DXGI_FORMAT_B8G8R8A8_UNORM CONV_FLAGS_NONE
      (pf DDS_RGBA 0 32 0x00ff0000 0x0000ff00 0x000000ff 0xff000000);
    mkLegacy DXGI_FORMAT_B8G8R8X8_UNORM CONV_FLAGS_NONE
      (pf DDS_RGB 0 32 0x00ff0000 0x0000ff00 0x000000ff 0);
    mkLegacy DXGI_FORMAT_R8G8B8A8_UNORM CONV_FLAGS_NONE
      (pf DDS_RGBA 0 32 0x000000ff 0x0000ff00 0x00ff0000 0xff000000);
    mkLegacy DXGI_FORMAT_R8G8B8A8_UNORM CONV_FLAGS_NOALPHA
      (pf DDS_RGB 0 32 0x000000ff 0x0000ff00 0x00ff0000 0);
    mkLegacy DXGI_FORMAT_R16G16_UNORM CONV_FLAGS_NONE
      (pf DDS_RGB 0 32 0x0000ffff 0xffff0000 0 0);
    mkLegacy DXGI_FORMAT_R10G10B10A2_UNORM CONV_FLAGS_SWIZZLE
      (pf DDS_RGBA 0 32 0x000003ff 0x000ffc00 0x3ff00000 0xc0000000);
    mkLegacy DXGI_FORMAT_R10G10B10A2_UNORM CONV_FLAGS_NONE
      (pf DDS_RGBA 0 32 0x3ff00000 0x000ffc00 0x000003ff 0xc0000000);
    mkLegacy DXGI_FORMAT_R8G8B8A8_UNORM
      (Z.lor CONV_FLAGS_EXPAND (Z.lor CONV_FLAGS_NOALPHA CONV_FLAGS_888))
      (pf DDS_RGB 0 24 0xff0000 0x00ff00 0x0000ff 0);
    mkLegacy DXGI_FORMAT_B5G6R5_UNORM CONV_FLAGS_565
      (pf DDS_RGB 0 16 0xf800 0x07e0 0x001f 0);
    mkLegacy DXGI_FORMAT_B5G5R5A1_UNORM CONV_FLAGS_5551
      (pf DDS_RGBA 0 16 0x7c00 0x03e0 0x001f 0x8000);
    mkLegacy DXGI_FORMAT_B5G5R5A1_UNORM (Z.lor CONV_FLAGS_5551 CONV_FLAGS_NOALPHA)
      (pf DDS_RGB 0 16 0x7c00 0x03e0 0x001f 0);
    mkLegacy DXGI_FORMAT_R8G8B8A8_UNORM (Z.lor CONV_FLAGS_EXPAND CONV_FLAGS_8332)
      (pf DDS_RGBA 0 16 0x00e0 0x001c 0x0003 0xff00);
    mkLegacy DXGI_FORMAT_B5G6R5_UNORM (Z.lor CONV_FLAGS_EXPAND CONV_FLAGS_332)
      (pf DDS_RGB 0 8 0xe0 0x1c 0x03 0);
    mkLegacy DXGI_FORMAT_R8_UNORM CONV_FLAGS_NONE (pf DDS_LUMINANCE 0 8 0xff 0 0 0);
    mkLegacy DXGI_FORMAT_R16_UNORM CONV_FLAGS_NONE (pf DDS_LUMINANCE 0 16 0xffff 0 0 0);
    mkLegacy DXGI_FORMAT_R8G8_UNORM CONV_FLAGS_NONE
      (pf DDS_LUMINANCEA 0 16 0x00ff 0 0 0xff00);
    mkLegacy DXGI_FORMAT_R8G8_UNORM CONV_FLAGS_NONE
      (pf DDS_LUMINANCEA 0 8 0x00ff 0 0 0xff00);
    mkLegacy DXGI_FORMAT_R8_UNORM CONV_FLAGS_NONE (pf DDS_RGB 0 8 0xff 0 0 0);
    mkLegacy DXGI_FORMAT_R16_UNORM CONV_FLAGS_NONE (pf DDS_RGB 0 16 0xffff 0 0 0);
    mkLegacy DXGI_FORMAT_R8G8_UNORM CONV_FLAGS_NONE (pf DDS_RGBA 0 16 0x00ff 0 0 0xff00);
    mkLegacy DXGI_FORMAT_A8_UNORM CONV_FLAGS_NONE (pf DDS_ALPHA 0 8 0 0 0 0xff);
    mkLegacy DXGI_FORMAT_R16G16B16A16_UNORM CONV_FLAGS_NONE (pf_cc_num 36);
    mkLegacy DXGI_FORMAT_R16G16B16A16_SNORM CONV_FLAGS_NONE (pf_cc_num 110);
    mkLegacy DXGI_FORMAT_R16_FLOAT CONV_FLAGS_NONE (pf_cc_num 111);
    mkLegacy DXGI_FORMAT_R16G16_FLOAT CONV_FLAGS_NONE (pf_cc_num 112);
    mkLegacy DXGI_FORMAT_R16G16B16A16_FLOAT CONV_FLAGS_NONE (pf_cc_num 113);
    mkLegacy DXGI_FORMAT_R32_FLOAT CONV_FLAGS_NONE (pf_cc_num 114);
    mkLegacy DXGI_FORMAT_R32G32_FLOAT CONV_FLAGS_NONE (pf_cc_num 115);
    mkLegacy DXGI_FORMAT_R32G32B32A32_FLOAT CONV_FLAGS_NONE (pf_cc_num 116);
    mkLegacy DXGI_FORMAT_R32_FLOAT CONV_FLAGS_NONE (pf DDS_RGB 0 32 0xffffffff 0 0 0);
    mkLegacy DXGI_FORMAT_R8G8B8A8_UNORM
      (Z.lor CONV_FLAGS_EXPAND (Z.lor CONV_FLAGS_PAL8 CONV_FLAGS_A8P8))
      (pf DDS_PAL8A 0 16 0 0 0 0);
    mkLegacy DXGI_FORMAT_R8G8B8A8_UNORM (Z.lor CONV_FLAGS_EXPAND CONV_FLAGS_PAL8)
      (pf DDS_PAL8 0 8 0 0 0 0);
    mkLegacy DXGI_FORMAT_B4G4R4A4_UNORM CONV_FLAGS_4444
      (pf DDS_RGBA 0 16 0x0f00 0x00f0 0x000f 0xf000);
    mkLegacy DXGI_FORMAT_B4G4R4A4_UNORM (Z.lor CONV_FLAGS_NOALPHA CONV_FLAGS_4444)
      (pf DDS_RGB 0 16 0x0f00 0x00f0 0x000f 0);
    mkLegacy DXGI_FORMAT_B4G4R4A4_UNORM (Z.lor CONV_FLAGS_EXPAND CONV_FLAGS_44)
      (pf DDS_LUMINANCEA 0 8 0x0f 0 0 0xf0);
    mkLegacy DXGI_FORMAT_YUY2 CONV_FLAGS_NONE (pf_cc cY cU cY c2);
    mkLegacy DXGI_FORMAT_YUY2 CONV_FLAGS_SWIZZLE (pf_cc cU cY cV cY);
    mkLegacy DXGI_FORMAT_R8G8_SNORM CONV_FLAGS_NONE
      (pf DDS_BUMPDUDV 0 16 0x00ff 0xff00 0 0);
    mkLegacy DXGI_FORMAT_R8G8B8A8_SNORM CONV_FLAGS_NONE
      (pf DDS_BUMPDUDV 0 32 0x000000ff 0x0000ff00 0x00ff0000 0xff000000);
    mkLegacy DXGI_FORMAT_R16G16_SNORM CONV_FLAGS_NONE
      (pf DDS_BUMPDUDV 0 32 0x0000ffff 0xffff0000 0 0) ].

Definition MakeSRGB (fmt : Z) : Z :=
  if fmt =? DXGI_FORMAT_R8G8B8A8_UNORM then DXGI_FORMAT_R8G8B8A8_UNORM_SRGB
  else if fmt =? DXGI_FORMAT_BC1_UNORM then DXGI_FORMAT_BC1_UNORM_SRGB
  else if fmt =? DXGI_FORMAT_BC2_UNORM then DXGI_FORMAT_BC2_UNORM_SRGB
  else if fmt =? DXGI_FORMAT_BC3_UNORM then DXGI_FORMAT_BC3_UNORM_SRGB
  else if fmt =? DXGI_FORMAT_B8G8R8A8_UNORM then DXGI_FORMAT_B8G8R8A8_UNORM_SRGB
  else if fmt =? DXGI_FORMAT_B8G8R8X8_UNORM then DXGI_FORMAT_B8G8R8X8_UNORM_SRGB
  else if fmt =? DXGI_FORMAT_BC7_UNORM then DXGI_FORMAT_BC7_UNORM_SRGB
  else fmt.

(** The match test of one table entry in the loop of [GetDXGIFormat]. *)
Definition legacy_matches (ddpfFlags : Z) (ddpf : DDS_PIXELFORMAT) (e : LegacyDDS) : bool :=
  let ef := pf_flags (lg_ddpf e) in
  let ep := lg_ddpf e in
  if has_flag ddpfFlags DDS_FOURCC && has_flag ef DDS_FOURCC then
    fourCC ddpf =? fourCC ep
  else if ddpfFlags =? ef then
    if has_flag ef DDS_PAL8 then RGBBitCount ddpf =? RGBBitCount ep
    else if has_flag ef DDS_ALPHA then
      (RGBBitCount ddpf =? RGBBitCount ep) && (ABitMask ddpf =? ABitMask ep)
    else if has_flag ef DDS_LUMINANCE then
      if has_flag ef DDS_ALPHAPIXELS then
        (RGBBitCount ddpf =? RGBBitCount ep) && (RBitMask ddpf =? RBitMask ep) &&
        (ABitMask ddpf =? ABitMask ep)
      else (RGBBitCount ddpf =? RGBBitCount ep) && (RBitMask ddpf =? RBitMask ep)
    else if has_flag ef DDS_BUMPDUDV then
      (RGBBitCount ddpf =? RGBBitCount ep) && (RBitMask ddpf =? RBitMask ep) &&
      (GBitMask ddpf =? GBitMask ep) && (BBitMask ddpf =? BBitMask ep) &&
      (ABitMask ddpf =? ABitMask ep)
    else if RGBBitCount ddpf =? RGBBitCount ep then
      if has_flag ef DDS_ALPHAPIXELS then
        (RBitMask ddpf =? RBitMask ep) && (GBitMask ddpf =? GBitMask ep) &&
        (BBitMask ddpf =? BBitMask ep) && (ABitMask ddpf =? ABitMask ep)
      else
        (RBitMask ddpf =? RBitMask ep) && (GBitMask ddpf =? GBitMask ep) &&
        (BBitMask ddpf =? BBitMask ep)
    else false
  else false.

Definition NVTT_MARKER := MAKEFOURCC cN cV cT cT.

(** [GetDXGIFormat]: the resolved format and the updated [convFlags]
    (left unchanged when no entry matches). *)
Definition GetDXGIFormat (hdr : DDS_HEADER) (ddpf : DDS_PIXELFORMAT) (convFlags : Z)
  : Z * Z :=
  let nvtt := nth 9 (reserved1 hdr) 0 =? NVTT_MARKER in
  let ddpfFlags := if nvtt then Z.land (pf_flags ddpf) 0x3FFFFFFF else pf_flags ddpf in
  match find (legacy_matches ddpfFlags ddpf) g_LegacyDDSMap with
  | None => (DXGI_FORMAT_UNKNOWN, convFlags)
  | Some e =>
      let fmt := if nvtt && has_flag (pf_flags ddpf) 0x40000000
                 then MakeSRGB (lg_format e) else lg_format e in
      (fmt, lg_convFlags e)
  end.

(** ** [DecodeDDSHeader] *)

(** Reads [size] valid bytes of [buf]; returns the metadata and the updated
    [convFlags], or [None] for [return false]. *)
Definition DecodeDDSHeader (p : platform) (buf : list Z) (size convFlags : Z)
  : option (TexMetadata * Z) :=
  if size <? sizeof_DDS_HEADER + 4 then None
  else if negb (le32 buf 0 =? DDS_MAGIC) then None
  else
  let hdr := read_header buf 4 in
  if negb (hdr_size hdr =? sizeof_DDS_HEADER) ||
     negb (pf_size (ddspf hdr) =? sizeof_DDS_PIXELFORMAT) then None
  else
  let mips := if mipMapCount hdr =? 0 then 1 else mipMapCount hdr in
  let decoded : option (TexMetadata * Z) :=
    if has_flag (pf_flags (ddspf hdr)) DDS_FOURCC &&
       (fourCC DDSPF_DX10 =? fourCC (ddspf hdr)) then
      if size <? sizeof_DDS_HEADER + 4 + sizeof_DDS_HEADER_DXT10 then None
      else
      let ext := read_dxt10 buf (4 + sizeof_DDS_HEADER) in
      let convFlags' := Z.lor convFlags CONV_FLAGS_DX10 in
      let arr := dx10_arraySize ext in
      if arr =? 0 then None
      else
      let fmt := dxgiFormat ext in
      if negb (IsValid fmt) || IsPalettized fmt then None
      else
      let misc := Z.land (miscFlag ext) (Z.lxor TEX_MISC_TEXTURECUBE (2 ^ 32 - 1)) in
      let m2 := dx10_miscFlags2 ext in
      if resourceDimension ext =? DDS_DIMENSION_TEXTURE1D then
        if has_flag (hdr_flags hdr) DDS_HEIGHT && negb (hdr_height hdr =? 1) then None
        else Some (mkTexMetadata (hdr_width hdr) 1 1 arr mips misc m2 fmt
                     TEX_DIMENSION_TEXTURE1D, convFlags')
      else if resourceDimension ext =? DDS_DIMENSION_TEXTURE2D then
        let cube := has_flag (miscFlag ext) DDS_RESOURCE_MISC_TEXTURECUBE in
        let misc' := if cube then Z.lor misc TEX_MISC_TEXTURECUBE else misc in
        let arr' := if cube then size_wrap p (arr * 6) else arr in
        Some (mkTexMetadata (hdr_width hdr) (hdr_height hdr) 1 arr' mips misc' m2 fmt
                TEX_DIMENSION_TEXTURE2D, convFlags')
      else if resourceDimension ext =? DDS_DIMENSION_TEXTURE3D then
        if negb (has_flag (hdr_flags hdr) DDS_HEADER_FLAGS_VOLUME) then None
        else if arr >? 1 then None
        else Some (mkTexMetadata (hdr_width hdr) (hdr_height hdr) (hdr_depth hdr) arr
                     mips misc m2 fmt TEX_DIMENSION_TEXTURE3D, convFlags')
      else None
    else
      let shape : option (Z * Z * Z * Z * Z * Z) :=
        (* width, height, depth, arraySize, miscFlags, dimension *)
        if has_flag (hdr_flags hdr) DDS_HEADER_FLAGS_VOLUME then
          Some (hdr_width hdr, hdr_height hdr, hdr_depth hdr, 1, 0,
                TEX_DIMENSION_TEXTURE3D)
        else if has_flag (caps2 hdr) DDS_CUBEMAP then
          if negb (Z.land (caps2 hdr) DDS_CUBEMAP_ALLFACES =? DDS_CUBEMAP_ALLFACES)
          then None
          else Some (hdr_width hdr, hdr_height hdr, 1, 6, TEX_MISC_TEXTURECUBE,
                     TEX_DIMENSION_TEXTURE2D)
        else Some (hdr_width hdr, hdr_height hdr, 1, 1, 0, TEX_DIMENSION_TEXTURE2D) in
      match shape with
      | None => None
      | Some (w, h, d, arr, misc, dim) =>
          let '(fmt, convFlags') := GetDXGIFormat hdr (ddspf hdr) convFlags in
          if fmt =? DXGI_FORMAT_UNKNOWN then None
          else Some (mkTexMetadata w h d arr mips misc 0 fmt dim, convFlags')
      end in
  match decoded with
  | None => None
  | Some (m, cf) =>
      let m' :=
        if has_flag cf CONV_FLAGS_NOALPHA then SetAlphaMode m TEX_ALPHA_MODE_OPAQUE
        else if has_flag cf CONV_FLAGS_PMALPHA then SetAlphaMode m TEX_ALPHA_MODE_PREMULTIPLIED
        else m in
      if (width m' >? 16384) || (height m' >? 16384) || (mipLevels m' >? 15) then None
      else if (arraySize m' >? 2048) || (depth m' >? 2048) then None
      else Some (m', cf)
  end.

(** ** [ScratchImage::Initialize] *)

Fixpoint count_mips3d_loop (fuel : nat) (w h d mipLevels : Z) : Z :=
  match fuel with
  | O => mipLevels
  | S fuel' =>
      if (h >? 1) || (w >? 1) || (d >? 1) then
        count_mips3d_loop fuel' (shrink w) (shrink h) (shrink d) (mipLevels + 1)
      else mipLevels
  end.

Definition CountMips3D (w h d : Z) : Z :=
  count_mips3d_loop (Z.to_nat (w + h + d)) w h d 1.

(** [CalculateMipLevels]: the adjusted [mipLevels], or [None] for
    [return false]. *)
Definition CalculateMipLevels (w h mipLevels : Z) : option Z :=
  if mipLevels >? 1 then
    if mipLevels >? CountMips w h then None else Some mipLevels
  else if mipLevels =? 0 then Some (CountMips w h)
  else Some 1.

Definition CalculateMipLevels3D (w h d mipLevels : Z) : option Z :=
  if mipLevels >? 1 then
    if mipLevels >? CountMips3D w h d then None else Some mipLevels
  else if mipLevels =? 0 then Some (CountMips3D w h d)
  else Some 1.

Definition sizeof_Image (p : platform) : Z :=
  match p with Win32 => 24 | Win64 => 48 end.

(** The state a successful [Initialize] leaves in the [ScratchImage]:
    metadata, [m_size] and the image descriptors. *)
Record ScratchImage := mkScratch {
  m_metadata : TexMetadata;
  m_size : Z;
  m_image : list Image
}.

Section Allocation.
Variable p : platform.
(** Whether [new (std::nothrow)] / [_aligned_malloc] grants a request of
    the given number of bytes. *)
Variable alloc_ok : Z -> bool.

Definition Initialize (mdata : TexMetadata) (flags : Z) : Z * option ScratchImage :=
  if negb (IsValid (format mdata)) then (E_INVALIDARG, None)
  else if IsPalettized (format mdata) then (E_FAIL, None)
  else
  let mips : Z + Z (* inl hr = early return *) :=
    if dimension mdata =? TEX_DIMENSION_TEXTURE1D then
      if (width mdata =? 0) || negb (height mdata =? 1) || negb (depth mdata =? 1) ||
         (arraySize mdata =? 0) then inl E_INVALIDARG
      else match CalculateMipLevels (width mdata) 1 (mipLevels mdata) with
           | None => inl E_INVALIDARG | Some n => inr n end
    else if dimension mdata =? TEX_DIMENSION_TEXTURE2D then
      if (width mdata =? 0) || (height mdata =? 0) || negb (depth mdata =? 1) ||
         (arraySize mdata =? 0) then inl E_INVALIDARG
      else if IsCubemap mdata && negb (arraySize mdata mod 6 =? 0) then inl E_INVALIDARG
      else match CalculateMipLevels (width mdata) (height mdata) (mipLevels mdata) with
           | None => inl E_INVALIDARG | Some n => inr n end
    else if dimension mdata =? TEX_DIMENSION_TEXTURE3D then
      if (width mdata =? 0) || (height mdata =? 0) || (depth mdata =? 0) ||
         negb (arraySize mdata =? 1) then inl E_INVALIDARG
      else match CalculateMipLevels3D (width mdata) (height mdata) (depth mdata)
                   (mipLevels mdata) with
           | None => inl E_INVALIDARG | Some n => inr n end
    else inl E_FAIL in
  match mips with
  | inl hr => (hr, None)
  | inr n =>
      let md := {| width := width mdata; height := height mdata; depth := depth mdata;
                   arraySize := arraySize mdata; mipLevels := n;
                   miscFlags := miscFlags mdata; miscFlags2 := miscFlags2 mdata;
                   format := format mdata; dimension := dimension mdata |} in
      match DetermineImageArray p md flags with
      | None => (E_FAIL, None)
      | Some (nimages, pixelSize) =>
          if negb (alloc_ok (nimages * sizeof_Image p)) then (E_OUTOFMEMORY, None)
          else if negb (alloc_ok pixelSize) then (E_OUTOFMEMORY, None)
          else match SetupImageArray p pixelSize md flags nimages with
               | None => (E_FAIL, None)
               | Some imgs => (S_OK, Some (mkScratch md pixelSize imgs))
               end
      end
  end.

(** [CopyImage] (the expanding copy from the temporary buffer) is not
    modelled: its success is a parameter of the file loader.  Its
    arguments are the pixel bytes after the headers and palette, the
    decoded metadata and the conversion flags. *)
Variable CopyImage_ok : list Z -> TexMetadata -> Z -> bool.

(** [CopyImageInPlace]: its result (the scanline loop always runs to the
    end once the buffers are allocated) is [false] exactly for planar
    formats. *)
Definition CopyImageInPlace (img : ScratchImage) : bool :=
  negb (IsPlanar (format (m_metadata img))).

(** [LoadFromDDSFile] on a file whose contents are [file]: the [bool]
    it returns, and the metadata it writes to [*metadata] (if any). *)
Definition LoadFromDDSFile (file : list Z) : bool * option TexMetadata :=
  let len := Z.of_nat (length file) in
  if len <? sizeof_DDS_HEADER + 4 then (false, None)
  else
  let headerLen := Z.min len MAX_HEADER_SIZE in
  let header := firstn (Z.to_nat headerLen) file ++
                repeat 0 (Z.to_nat (MAX_HEADER_SIZE - headerLen)) in
  match DecodeDDSHeader p header headerLen 0 with
  | None => (false, None)
  | Some (mdata, convFlags) =>
      let offset0 := if has_flag convFlags CONV_FLAGS_DX10 then MAX_HEADER_SIZE
                     else 4 + sizeof_DDS_HEADER in
      let pal : option Z (* offset after the palette *) :=
        if has_flag convFlags CONV_FLAGS_PAL8 then
          if negb (alloc_ok (256 * 4)) then None
          else if len - offset0 <? 256 * 4 then None
          else Some (offset0 + 256 * 4)
        else Some offset0 in
      match pal with
      | None => (false, None)
      | Some offset =>
          let remaining := size_wrap p (len - offset) in
          if remaining =? 0 then (false, None)
          else
          let '(hr, scratch) := Initialize mdata CP_FLAGS_NONE in
          if FAILED hr then (negb (hr =? 0), None)   (* return hr; *)
          else match scratch with
          | None => (false, None)
          | Some img =>
              if has_flag convFlags CONV_FLAGS_EXPAND then
                if negb (alloc_ok remaining) then (false, None)
                else if negb (CopyImage_ok (skipn (Z.to_nat offset) file) mdata convFlags)
                then (false, None)
                else (true, Some mdata)
              else if remaining <? m_size img then (false, None)
              else if m_size img >? UINT32_MAX then (false, None)
              else if has_flag convFlags (Z.lor CONV_FLAGS_SWIZZLE CONV_FLAGS_NOALPHA) &&
                      negb (CopyImageInPlace img) then (false, None)
              else (true, Some mdata)
          end
      end
  end.
End Allocation.

(** ** Scanline transcoding *)

Definition TEXP_SCANLINE_NONE := 0.
Definition TEXP_SCANLINE_SETALPHA := 0x1.
Definition TEXP_SCANLINE_LEGACY := 0x2.

(** Replace byte [i] of a buffer. *)
Definition set_byte (buf : list Z) (i : Z) (v : Z) : list Z :=
  let n := Z.to_nat i in
  if (n <? length buf)%nat then firstn n buf ++ v :: skipn (S n) buf else buf.

(** Little-endian [uint32_t] store at byte offset [off]. *)
Definition store32 (buf : list Z) (off v : Z) : list Z :=
  let buf := set_byte buf off (Z.land v 255) in
  let buf := set_byte buf (off + 1) (Z.land (Z.shiftr v 8) 255) in
  let buf := set_byte buf (off + 2) (Z.land (Z.shiftr v 16) 255) in
  set_byte buf (off + 3) (Z.land (Z.shiftr v 24) 255).

Definition le16 (buf : list Z) (off : Z) : Z :=
  byte_at buf off + 256 * byte_at buf (off + 1).

(** [memcpy(dst, src, n)]. *)
Definition memcpy (dst src : list Z) (n : Z) : list Z :=
  firstn (Z.to_nat n) src ++ skipn (Z.to_nat n) dst.

(** The per-pixel bodies of the swizzle loops. *)
Definition swizzle_10_10_10_2 (tflags t : Z) : Z :=
  let t1 := Z.shiftr (Z.land t 0x3ff00000) 20 in
  let t2 := Z.shiftl (Z.land t 0x000003ff) 20 in
  let t3 := Z.land t 0x000ffc00 in
  let ta := if has_flag tflags TEXP_SCANLINE_SETALPHA then 0xC0000000
            else Z.land t 0xC0000000 in
  Z.lor t1 (Z.lor t2 (Z.lor t3 ta)).

Definition swizzle_8888 (tflags t : Z) : Z :=
  let t1 := Z.shiftr (Z.land t 0x00ff0000) 16 in
  let t2 := Z.shiftl (Z.land t 0x000000ff) 16 in
  let t3 := Z.land t 0x0000ff00 in
  let ta := if has_flag tflags TEXP_SCANLINE_SETALPHA then 0xff000000
            else Z.land t 0xFF000000 in
  Z.lor t1 (Z.lor t2 (Z.lor t3 ta)).

Definition swizzle_yuy2 (t : Z) : Z :=
  let t1 := Z.shiftl (Z.land t 0x000000ff) 8 in
  let t2 := Z.shiftr (Z.land t 0x0000ff00) 8 in
  let t3 := Z.shiftl (Z.land t 0x00ff0000) 8 in
  let t4 := Z.shiftr (Z.land t 0xff000000) 8 in
  Z.lor t1 (Z.lor t2 (Z.lor t3 t4)).

(** [for (count = 0; count < size - 3; count += 4)] over 32-bit pixels:
    each pixel is read from [src] (or, in place, from the destination
    itself, [src = None]) and [f] of it is stored at the same offset. *)
Fixpoint pixel_loop (f : Z -> Z) (fuel : nat) (size count : Z)
  (src : option (list Z)) (dst : list Z) : list Z :=
  match fuel with
  | O => dst
  | S k =>
      if count <? size - 3 then
        let t := le32 (match src with Some s => s | None => dst end) count in
        pixel_loop f k size (count + 4) src (store32 dst count (f t))
      else dst
  end.

(** The case labels of the two R/B swap cases of [SwizzleScanline]. *)
Definition swizzle_10_10_10_2_formats : list Z :=
  [DXGI_FORMAT_R10G10B10A2_TYPELESS; DXGI_FORMAT_R10G10B10A2_UNORM;
   DXGI_FORMAT_R10G10B10A2_UINT; DXGI_FORMAT_R10G10B10_XR_BIAS_A2_UNORM;
   XBOX_DXGI_FORMAT_R10G10B10_SNORM_A2_UNORM].

Definition swizzle_8888_formats : list Z :=
  [DXGI_FORMAT_R8G8B8A8_TYPELESS; DXGI_FORMAT_R8G8B8A8_UNORM;
   DXGI_FORMAT_R8G8B8A8_UNORM_SRGB; DXGI_FORMAT_B8G8R8A8_UNORM;
   DXGI_FORMAT_B8G8R8X8_UNORM; DXGI_FORMAT_B8G8R8A8_TYPELESS;
   DXGI_FORMAT_B8G8R8A8_UNORM_SRGB; DXGI_FORMAT_B8G8R8X8_TYPELESS;
   DXGI_FORMAT_B8G8R8X8_UNORM_SRGB].

(** [SwizzleScanline]: the destination buffer after the call.  The source
    is [Some src], or [None] when [pSource == pDestination]. *)
Definition SwizzleScanline (dst : list Z) (outSize : Z) (src : option (list Z))
  (inSize fmt tflags : Z) : list Z :=
  let size := match src with None => outSize | Some _ => Z.min outSize inSize end in
  let run f := pixel_loop f (Z.to_nat size) size 0 src dst in
  let big := (inSize >=? 4) && (outSize >=? 4) in
  let fallthrough :=
    match src with None => dst | Some s => memcpy dst s (Z.min outSize inSize) end in
  if mem fmt swizzle_10_10_10_2_formats then
    if big && has_flag tflags TEXP_SCANLINE_LEGACY then run (swizzle_10_10_10_2 tflags)
    else fallthrough
  else if mem fmt swizzle_8888_formats then
    if big then run (swizzle_8888 tflags) else fallthrough
  else if fmt =? DXGI_FORMAT_YUY2 then
    if big && has_flag tflags TEXP_SCANLINE_LEGACY then run swizzle_yuy2
    else fallthrough
  else fallthrough.

(** The per-pixel bodies of the [ExpandScanline] loops. *)
Definition expand_565 (t : Z) : Z :=
  let t1 := Z.lor (Z.shiftr (Z.land t 0xf800) 8) (Z.shiftr (Z.land t 0xe000) 13) in
  let t2 := Z.lor (Z.shiftl (Z.land t 0x07e0) 5) (Z.shiftr (Z.land t 0x0600) 5) in
  let t3 := Z.lor (Z.shiftl (Z.land t 0x001f) 19) (Z.shiftl (Z.land t 0x001c) 14) in
  Z.lor t1 (Z.lor t2 (Z.lor t3 0xff000000)).

Definition expand_5551 (tflags t : Z) : Z :=
  let t1 := Z.lor (Z.shiftr (Z.land t 0x7c00) 7) (Z.shiftr (Z.land t 0x7000) 12) in
  let t2 := Z.lor (Z.shiftl (Z.land t 0x03e0) 6) (Z.shiftl (Z.land t 0x0380) 1) in
  let t3 := Z.lor (Z.shiftl (Z.land t 0x001f) 19) (Z.shiftl (Z.land t 0x001c) 14) in
  let ta := if has_flag tflags TEXP_SCANLINE_SETALPHA then 0xff000000
            else if has_flag t 0x8000 then 0xff000000 else 0 in
  Z.lor t1 (Z.lor t2 (Z.lor t3 ta)).

Definition expand_4444 (tflags t : Z) : Z :=
  let t1 := Z.lor (Z.shiftr (Z.land t 0x0f00) 4) (Z.shiftr (Z.land t 0x0f00) 8) in
  let t2 := Z.lor (Z.shiftl (Z.land t 0x00f0) 8) (Z.shiftl (Z.land t 0x00f0) 4) in
  let t3 := Z.lor (Z.shiftl (Z.land t 0x000f) 20) (Z.shiftl (Z.land t 0x000f) 16) in
  let ta := if has_flag tflags TEXP_SCANLINE_SETALPHA then 0xff000000
            else Z.lor (Z.shiftl (Z.land t 0xf000) 16) (Z.shiftl (Z.land t 0xf000) 12) in
  Z.lor t1 (Z.lor t2 (Z.lor t3 ta)).

(** [for (ocount = 0, icount = 0; icount < inSize - 1 && ocount < outSize - 3;
    icount += 2, ocount += 4)]: 16-bit source pixels to 32-bit ones. *)
Fixpoint expand_loop (f : Z -> Z) (fuel : nat) (inSize outSize icount ocount : Z)
  (src dst : list Z) : list Z :=
  match fuel with
  | O => dst
  | S k =>
      if (icount <? inSize - 1) && (ocount <? outSize - 3) then
        expand_loop f k inSize outSize (icount + 2) (ocount + 4) src
          (store32 dst ocount (f (le16 src icount)))
      else dst
  end.

(** [ExpandScanline]: the returned [bool] and the destination buffer. *)
Definition ExpandScanline (dst : list Z) (outSize outFormat : Z) (src : list Z)
  (inSize inFormat tflags : Z) : bool * list Z :=
  let run f := expand_loop f (Z.to_nat inSize) inSize outSize 0 0 src dst in
  let case f :=
    if negb (outFormat =? DXGI_FORMAT_R8G8B8A8_UNORM) then (false, dst)
    else if (inSize >=? 2) && (outSize >=? 4) then (true, run f)
    else (false, dst) in
  if inFormat =? DXGI_FORMAT_B5G6R5_UNORM then case expand_565
  else if inFormat =? DXGI_FORMAT_B5G5R5A1_UNORM then case (expand_5551 tflags)
  else if inFormat =? DXGI_FORMAT_B4G4R4A4_UNORM then case (expand_4444 tflags)
  else (false, dst).

(** ** Building sample files *)

Definition le32_bytes (v : Z) : list Z :=
  [v mod 256; (v / 256) mod 256; (v / 65536) mod 256; (v / 16777216) mod 256].

(** A file with the magic, a legacy [DDS_HEADER] with the given fields
    (everything else zero) and [payload] bytes of pixel data. *)
Definition dds_legacy_file (hflags h w d mips pfflags cc caps2v : Z) (payload : nat)
  : list Z :=
  le32_bytes DDS_MAGIC ++ le32_bytes sizeof_DDS_HEADER ++ le32_bytes hflags ++
  le32_bytes h ++ le32_bytes w ++ le32_bytes 0 ++ le32_bytes d ++ le32_bytes mips ++
  repeat 0 44 ++
  le32_bytes sizeof_DDS_PIXELFORMAT ++ le32_bytes pfflags ++ le32_bytes cc ++
  repeat 0 20 ++
  le32_bytes 0 ++ le32_bytes caps2v ++ repeat 0 12 ++
  repeat 0 payload.

(** A legacy DXT1 file whose header has width 0 (height 4, 8 bytes of
    pixel data). *)
Definition dxt1_zero_width_file : list Z :=
  dds_legacy_file 0 4 0 0 0 DDS_FOURCC (MAKEFOURCC cD cX cT c1) 0 8.

(** A file with the magic, a [DDS_HEADER] announcing the DX10 extension,
    a [DDS_HEADER_DXT10] with the given fields and [payload] bytes. *)
Definition dds_dx10_file (h w mips fmt resdim misc arr : Z) (payload : nat)
  : list Z :=
  le32_bytes DDS_MAGIC ++ le32_bytes sizeof_DDS_HEADER ++ le32_bytes 0 ++
  le32_bytes h ++ le32_bytes w ++ le32_bytes 0 ++ le32_bytes 0 ++ le32_bytes mips ++
  repeat 0 44 ++
  le32_bytes sizeof_DDS_PIXELFORMAT ++ le32_bytes DDS_FOURCC ++
  le32_bytes (fourCC DDSPF_DX10) ++ repeat 0 20 ++
  le32_bytes 0 ++ le32_bytes 0 ++ repeat 0 12 ++
  le32_bytes fmt ++ le32_bytes resdim ++ le32_bytes misc ++ le32_bytes arr ++
  le32_bytes 0 ++
  repeat 0 payload.

(** A 4x4 RGBA8 cube map file whose DX10 header has [arraySize = 2^31]. *)
Definition dx10_cube_2pow31_file : list Z :=
  dds_dx10_file 4 4 1 DXGI_FORMAT_R8G8B8A8_UNORM DDS_DIMENSION_TEXTURE2D
                DDS_RESOURCE_MISC_TEXTURECUBE (2 ^ 31) 0.

(** A 4x4 RGBA8 cube map file whose DX10 header has [arraySize = 2]. *)
Definition cube_file : list Z :=
  dds_dx10_file 4 4 1 DXGI_FORMAT_R8G8B8A8_UNORM DDS_DIMENSION_TEXTURE2D
                DDS_RESOURCE_MISC_TEXTURECUBE 2 0.

(** ** Readings of the spec used in the statements *)

(** Bits [off, off + w) of a pixel value. *)
Definition field (t off w : Z) : Z := Z.land (Z.shiftr t off) (Z.ones w).

(** One mip halving of a dimension as the spec words it: floor, minimum 1. *)
Definition halve_dim (d : Z) : Z := Z.max 1 (d / 2).

(** The pair of dimensions after [k] halvings. *)
Fixpoint halvings (k : nat) (w h : Z) : Z * Z :=
  match k with
  | O => (w, h)
  | S k' => halvings k' (halve_dim w) (halve_dim h)
  end.

(** The depth of a volume at mip level [l], and the number of depth slices
    of all levels before [l]. *)
Fixpoint mip_depth (l : nat) (d : Z) : Z :=
  match l with O => d | S l' => mip_depth l' (halve_dim d) end.

Fixpoint slices_before (l : nat) (d : Z) : Z :=
  match l with O => 0 | S l' => d + slices_before l' (halve_dim d) end.

(** Bytes per 4x4 block: 8 for BC1/BC4, 16 for BC2/BC3/BC5/BC6H/BC7. *)
Definition block_bytes (fmt : Z) : Z := if mem fmt bc_8byte_formats then 8 else 16.

(** The R and B channels of a 32-bit pixel with [w]-bit R, G, B fields
    at bits [0], [w], [2w] and the alpha field above them: [px'] is [px]
    with R and B exchanged, G kept, and alpha kept or all ones. *)
Definition rb_swapped (w : Z) (alpha_set : bool) (px px' : Z) : Prop :=
  field px' 0 w = field px (2 * w) w /\
  field px' w w = field px w w /\
  field px' (2 * w) w = field px 0 w /\
  field px' (3 * w) (32 - 3 * w) =
    (if alpha_set then Z.ones (32 - 3 * w) else field px (3 * w) (32 - 3 * w)).

(** Bytes [(b0, b1, b2, b3)] of a pixel become [(b1, b0, b3, b2)]. *)
Definition yuy2_reordered (px px' : Z) : Prop :=
  field px' 0 8 = field px 8 8 /\ field px' 8 8 = field px 0 8 /\
  field px' 16 8 = field px 24 8 /\ field px' 24 8 = field px 16 8.

(** Whether one of the pixel loops of [SwizzleScanline] runs. *)
Definition swizzle_applies (fmt inSize outSize tflags : Z) : bool :=
  (4 <=? inSize) && (4 <=? outSize) &&
  (mem fmt swizzle_8888_formats ||
   has_flag tflags TEXP_SCANLINE_LEGACY &&
   (mem fmt swizzle_10_10_10_2_formats || (fmt =? DXGI_FORMAT_YUY2))).

(** The image descriptors [imgs] cover the byte range [[start, stop)]
    of the pixel buffer back to back: each starts where the previous one
    ended, and the last ends at [stop]. *)
Fixpoint tiles (imgs : list Image) (start stop : Z) : Prop :=
  match imgs with
  | [] => start = stop
  | img :: rest => pixels img = start /\ tiles rest (start + slicePitch img) stop
  end.

(** Metadata within the limits that [DecodeDDSHeader] enforces and with
    the nonzero sizes that [ScratchImage::Initialize] requires. *)
Definition valid_metadata (m : TexMetadata) : Prop :=
  1 <= width m <= 16384 /\ 1 <= height m <= 16384 /\ 1 <= depth m <= 2048 /\
  1 <= arraySize m <= 2048 /\ 1 <= mipLevels m <= 15.

(** A 2D array of two 5x3 RGBA8 images with three mip levels. *)
Definition rgba_array_metadata : TexMetadata :=
  mkTexMetadata 5 3 1 2 3 0 0 DXGI_FORMAT_R8G8B8A8_UNORM TEX_DIMENSION_TEXTURE2D.

(** ** [ComputeScanlines] and [CopyScanline] *)

(** [ComputeScanlines]: the number of scanlines of a slice, in [size_t]
    arithmetic. *)
Definition ComputeScanlines (p : platform) (fmt height : Z) : Z :=
  if mem fmt [DXGI_FORMAT_BC1_TYPELESS; DXGI_FORMAT_BC1_UNORM; DXGI_FORMAT_BC1_UNORM_SRGB;
              DXGI_FORMAT_BC2_TYPELESS; DXGI_FORMAT_BC2_UNORM; DXGI_FORMAT_BC2_UNORM_SRGB;
              DXGI_FORMAT_BC3_TYPELESS; DXGI_FORMAT_BC3_UNORM; DXGI_FORMAT_BC3_UNORM_SRGB;
              DXGI_FORMAT_BC4_TYPELESS; DXGI_FORMAT_BC4_UNORM; DXGI_FORMAT_BC4_SNORM;
              DXGI_FORMAT_BC5_TYPELESS; DXGI_FORMAT_BC5_UNORM; DXGI_FORMAT_BC5_SNORM;
              DXGI_FORMAT_BC6H_TYPELESS; DXGI_FORMAT_BC6H_UF16; DXGI_FORMAT_BC6H_SF16;
              DXGI_FORMAT_BC7_TYPELESS; DXGI_FORMAT_BC7_UNORM; DXGI_FORMAT_BC7_UNORM_SRGB]
  then Z.max 1 (size_wrap p (height + 3) / 4)
  else if mem fmt [DXGI_FORMAT_NV11; WIN10_DXGI_FORMAT_P208] then
    size_wrap p (height * 2)
  else if fmt =? WIN10_DXGI_FORMAT_V208 then
    size_wrap p (height + size_wrap p (Z.shiftr (size_wrap p (height + 1)) 1 * 2))
  else if fmt =? WIN10_DXGI_FORMAT_V408 then
    size_wrap p (height + size_wrap p (Z.shiftr height 1 * 4))
  else if mem fmt [DXGI_FORMAT_NV12; DXGI_FORMAT_P010; DXGI_FORMAT_P016;
                   DXGI_FORMAT_420_OPAQUE; XBOX_DXGI_FORMAT_D16_UNORM_S8_UINT;
                   XBOX_DXGI_FORMAT_R16_UNORM_X8_TYPELESS;
                   XBOX_DXGI_FORMAT_X16_TYPELESS_G8_UINT] then
    size_wrap p (height + Z.shiftr (size_wrap p (height + 1)) 1)
  else height.


Definition DXGI_FORMAT_R32G32B32A32_UINT := 3.
Definition DXGI_FORMAT_R32G32B32A32_SINT := 4.
Definition DXGI_FORMAT_R16G16B16A16_TYPELESS := 9.
Definition DXGI_FORMAT_R16G16B16A16_UINT := 12.
Definition DXGI_FORMAT_R16G16B16A16_SINT := 14.
Definition DXGI_FORMAT_R8G8B8A8_UINT := 30.
Definition DXGI_FORMAT_R8G8B8A8_SINT := 32.

(** Little-endian [uint16_t] store at byte offset [off]. *)
Definition store16 (buf : list Z) (off v : Z) : list Z :=
  let buf := set_byte buf off (Z.land v 255) in
  set_byte buf (off + 1) (Z.land (Z.shiftr v 8) 255).

(** [memset(dst, c, n)]. *)
Definition memset (dst : list Z) (c n : Z) : list Z :=
  repeat c (Z.to_nat n) ++ skipn (Z.to_nat n) dst.

(** [for (count = 0; count < size - 1; count += 2)] over 16-bit pixels,
    read from [src] (or from the destination itself, [src = None]). *)
Fixpoint pixel16_loop (f : Z -> Z) (fuel : nat) (size count : Z)
  (src : option (list Z)) (dst : list Z) : list Z :=
  match fuel with
  | O => dst
  | S k =>
      if count <? size - 1 then
        let t := le16 (match src with Some s => s | None => dst end) count in
        pixel16_loop f k size (count + 2) src (store16 dst count (f t))
      else dst
  end.

(** The loops of the four-channel cases: [for (count = 0; count < size -
    (4 * w - 1); count += 4 * w)] over pixels of four [w]-byte channels;
    when copying, the first three channels come from [src]; in place they
    are skipped; the fourth is set to [alpha]. *)
Fixpoint alpha_loop (w : Z) (store : list Z -> Z -> Z -> list Z) (load : list Z -> Z -> Z)
  (alpha : Z) (fuel : nat) (size count : Z) (src : option (list Z)) (dst : list Z)
  : list Z :=
  match fuel with
  | O => dst
  | S k =>
      if count <? size - (4 * w - 1) then
        let d := match src with
                 | None => dst
                 | Some s =>
                     let d := store dst count (load s count) in
                     let d := store d (count + w) (load s (count + w)) in
                     store d (count + 2 * w) (load s (count + 2 * w))
                 end in
        alpha_loop w store load alpha k size (count + 4 * w) src
          (store d (count + 3 * w) alpha)
      else dst
  end.

Definition copy_r32g32b32a32_formats : list Z :=
  [DXGI_FORMAT_R32G32B32A32_TYPELESS; DXGI_FORMAT_R32G32B32A32_FLOAT;
   DXGI_FORMAT_R32G32B32A32_UINT; DXGI_FORMAT_R32G32B32A32_SINT].

Definition copy_r16g16b16a16_formats : list Z :=
  [DXGI_FORMAT_R16G16B16A16_TYPELESS; DXGI_FORMAT_R16G16B16A16_FLOAT;
   DXGI_FORMAT_R16G16B16A16_UNORM; DXGI_FORMAT_R16G16B16A16_UINT;
   DXGI_FORMAT_R16G16B16A16_SNORM; DXGI_FORMAT_R16G16B16A16_SINT; DXGI_FORMAT_Y416].

Definition copy_10_10_10_2_formats : list Z :=
  [DXGI_FORMAT_R10G10B10A2_TYPELESS; DXGI_FORMAT_R10G10B10A2_UNORM;
   DXGI_FORMAT_R10G10B10A2_UINT; DXGI_FORMAT_R10G10B10_XR_BIAS_A2_UNORM;
   DXGI_FORMAT_Y410; XBOX_DXGI_FORMAT_R10G10B10_7E3_A2_FLOAT;
   XBOX_DXGI_FORMAT_R10G10B10_6E4_A2_FLOAT; XBOX_DXGI_FORMAT_R10G10B10_SNORM_A2_UNORM].

Definition copy_8888_formats : list Z :=
  [DXGI_FORMAT_R8G8B8A8_TYPELESS; DXGI_FORMAT_R8G8B8A8_UNORM;
   DXGI_FORMAT_R8G8B8A8_UNORM_SRGB; DXGI_FORMAT_R8G8B8A8_UINT;
   DXGI_FORMAT_R8G8B8A8_SNORM; DXGI_FORMAT_R8G8B8A8_SINT;
   DXGI_FORMAT_B8G8R8A8_UNORM; DXGI_FORMAT_B8G8R8A8_TYPELESS;
   DXGI_FORMAT_B8G8R8A8_UNORM_SRGB; DXGI_FORMAT_AYUV].

(** [CopyScanline]: the destination buffer after the call.  The source
    is [Some src], or [None] when [pSource == pDestination]. *)
Definition CopyScanline (dst : list Z) (outSize : Z) (src : option (list Z))
  (inSize fmt tflags : Z) : list Z :=
  let size := match src with None => outSize | Some _ => Z.min outSize inSize end in
  let fits n := (inSize >=? n) && (outSize >=? n) in
  let fallthrough :=
    match src with None => dst | Some s => memcpy dst s (Z.min outSize inSize) end in
  if has_flag tflags TEXP_SCANLINE_SETALPHA then
    if mem fmt copy_r32g32b32a32_formats then
      if fits 16 then
        let alpha := if fmt =? DXGI_FORMAT_R32G32B32A32_FLOAT then 0x3f800000
                     else if fmt =? DXGI_FORMAT_R32G32B32A32_SINT then 0x7fffffff
                     else 0xffffffff in
        alpha_loop 4 store32 le32 alpha (Z.to_nat size) size 0 src dst
      else dst
    else if mem fmt copy_r16g16b16a16_formats then
      if fits 8 then
        let alpha := if fmt =? DXGI_FORMAT_R16G16B16A16_FLOAT then 0x3c00
                     else if (fmt =? DXGI_FORMAT_R16G16B16A16_SNORM) ||
                             (fmt =? DXGI_FORMAT_R16G16B16A16_SINT) then 0x7fff
                     else 0xffff in
        alpha_loop 2 store16 le16 alpha (Z.to_nat size) size 0 src dst
      else dst
    else if mem fmt copy_10_10_10_2_formats then
      if fits 4 then
        pixel_loop (fun t => Z.lor t 0xC0000000) (Z.to_nat size) size 0 src dst
      else dst
    else if mem fmt copy_8888_formats then
      if fits 4 then
        let alpha := if (fmt =? DXGI_FORMAT_R8G8B8A8_SNORM) ||
                        (fmt =? DXGI_FORMAT_R8G8B8A8_SINT) then 0x7f000000
                     else 0xff000000 in
        pixel_loop (fun t => Z.lor (Z.land t 0xFFFFFF) alpha) (Z.to_nat size) size 0 src dst
      else dst
    else if fmt =? DXGI_FORMAT_B5G5R5A1_UNORM then
      if fits 2 then
        pixel16_loop (fun t => Z.land (Z.lor t 0x8000) 0xFFFF) (Z.to_nat size) size 0 src dst
      else dst
    else if fmt =? DXGI_FORMAT_A8_UNORM then memset dst 0xff outSize
    else if fmt =? DXGI_FORMAT_B4G4R4A4_UNORM then
      if fits 2 then
        pixel16_loop (fun t => Z.land (Z.lor t 0xF000) 0xFFFF) (Z.to_nat size) size 0 src dst
      else dst
    else fallthrough
  else fallthrough.

(** ** Texture creation *)

Definition UINT16_MAX : Z := 65535.

(** The members of [enum gs_color_format] that [ConvertDXGITextureFormat]
    returns. *)
Inductive gs_color_format :=
| GS_UNKNOWN | GS_A8 | GS_R8 | GS_RGBA | GS_BGRX | GS_BGRA | GS_R10G10B10A2
| GS_RGBA16 | GS_R16 | GS_RGBA16F | GS_RGBA32F | GS_RG16F | GS_RG32F | GS_R16F
| GS_R32F | GS_DXT1 | GS_DXT3 | GS_DXT5 | GS_R8G8 | GS_RGBA_UNORM | GS_BGRX_UNORM
| GS_BGRA_UNORM | GS_RG16.

Definition ConvertDXGITextureFormat (format : Z) : gs_color_format :=
  if format =? DXGI_FORMAT_A8_UNORM then GS_A8
  else if format =? DXGI_FORMAT_R8_UNORM then GS_R8
  else if format =? DXGI_FORMAT_R8G8_UNORM then GS_R8G8
  else if format =? DXGI_FORMAT_R8G8B8A8_TYPELESS then GS_RGBA
  else if format =? DXGI_FORMAT_B8G8R8X8_TYPELESS then GS_BGRX
  else if format =? DXGI_FORMAT_B8G8R8A8_TYPELESS then GS_BGRA
  else if format =? DXGI_FORMAT_R10G10B10A2_UNORM then GS_R10G10B10A2
  else if format =? DXGI_FORMAT_R16G16B16A16_UNORM then GS_RGBA16
  else if format =? DXGI_FORMAT_R16_UNORM then GS_R16
  else if format =? DXGI_FORMAT_R16G16B16A16_FLOAT then GS_RGBA16F
  else if format =? DXGI_FORMAT_R32G32B32A32_FLOAT then GS_RGBA32F
  else if format =? DXGI_FORMAT_R16G16_FLOAT then GS_RG16F
  else if format =? DXGI_FORMAT_R32G32_FLOAT then GS_RG32F
  else if format =? DXGI_FORMAT_R16_FLOAT then GS_R16F
  else if format =? DXGI_FORMAT_R32_FLOAT then GS_R32F
  else if format =? DXGI_FORMAT_BC1_UNORM then GS_DXT1
  else if format =? DXGI_FORMAT_BC2_UNORM then GS_DXT3
  else if format =? DXGI_FORMAT_BC3_UNORM then GS_DXT5
  else if format =? DXGI_FORMAT_R8G8B8A8_UNORM then GS_RGBA_UNORM
  else if format =? DXGI_FORMAT_B8G8R8X8_UNORM then GS_BGRX_UNORM
  else if format =? DXGI_FORMAT_B8G8R8A8_UNORM then GS_BGRA_UNORM
  else if format =? DXGI_FORMAT_R16G16_UNORM then GS_RG16
  else GS_UNKNOWN.

(** The texture creation call that [CreateTextureEx] ends in, with its
    arguments; the texture returned is that call's result.  [data] is the
    [initData] array of pixel addresses. *)
Inductive texture_call :=
| gs_texture_create (width height : Z) (color_format : gs_color_format)
    (levels : Z) (data : list Z) (flags : Z)
| gs_cubetexture_create (size : Z) (color_format : gs_color_format)
    (levels : Z) (data : list Z) (flags : Z)
| gs_voltexture_create (width height depth : Z) (color_format : gs_color_format)
    (levels : Z) (data : list Z) (flags : Z).

Section Create.
Variable p : platform.
(** Whether [new (std::nothrow)] grants a request of the given number of
    bytes. *)
Variable alloc_ok : Z -> bool.
(** The address of the buffer the [pixels] offsets of the images refer
    to. *)
Variable base : Z.

Definition sizeof_ptr : Z := match p with Win32 => 4 | Win64 => 8 end.

Section Loops.
Variable m : TexMetadata.
(** [srcImages], holding [nimages] entries. *)
Variable images : list Image.
Variable nimages : Z.

Definition image_at (index : Z) : Image := nth (Z.to_nat index) images (mkImage 0 0 0 0 0 0).

(** The pointer [img.pixels]. *)
Definition addr (img : Image) : Z := base + pixels img.

(** [for (slice = 1; slice < depth; ++slice)] of the volume case, with
    [pSlice] the expected address of the next slice. *)
Fixpoint create_slices (slices : nat) (level slice : Z) (img : Image) (pSlice : Z) : bool :=
  match slices with
  | O => true
  | S s =>
      let tindex := ComputeIndex p m level 0 slice in
      if tindex >=? nimages then false
      else
        let timg := image_at tindex in
        if addr timg =? 0 then false
        else if negb (addr timg =? pSlice) || negb (img_format timg =? format m) ||
                negb (rowPitch timg =? rowPitch img) ||
                negb (slicePitch timg =? slicePitch img) then false
        else create_slices s level (slice + 1) img (addr timg + slicePitch img)
  end.

(** [for (level = 0; level < mipLevels; ++level)] of the volume case:
    the [initData] filled so far, or [None] for [return NULL]. *)
Fixpoint create_volume (levels : nat) (level depth : Z) (initData : list Z)
  : option (list Z) :=
  match levels with
  | O => Some initData
  | S l =>
      let index := ComputeIndex p m level 0 0 in
      if index >=? nimages then None
      else
        let img := image_at index in
        if negb (img_format img =? format m) then None
        else if addr img =? 0 then None
        else if negb (create_slices (Z.to_nat (depth - 1)) level 1 img
                        (addr img + slicePitch img)) then None
        else create_volume l (level + 1) (shrink depth) (initData ++ [addr img])
  end.

(** Inner [level] loop of the 1D/2D case. *)
Fixpoint create_levels (levels : nat) (item level : Z) (initData : list Z)
  : option (list Z) :=
  match levels with
  | O => Some initData
  | S l =>
      let index := ComputeIndex p m level item 0 in
      if index >=? nimages then None
      else
        let img := image_at index in
        if negb (img_format img =? format m) then None
        else if addr img =? 0 then None
        else create_levels l item (level + 1) (initData ++ [addr img])
  end.

(** Outer [item] loop of the 1D/2D case. *)
Fixpoint create_items (items : nat) (item : Z) (initData : list Z) : option (list Z) :=
  match items with
  | O => Some initData
  | S i =>
      match create_levels (Z.to_nat (mipLevels m)) item 0 initData with
      | None => None
      | Some d => create_items i (item + 1) d
      end
  end.
End Loops.

(** [CreateTextureEx]: the creation call it makes, or [None] for
    [return NULL]; [srcImages] is [None] for [NULL]. *)
Definition CreateTextureEx (srcImages : option (list Image)) (nimages : Z)
  (m : TexMetadata) : option texture_call :=
  match srcImages with
  | None => None
  | Some images =>
  if nimages =? 0 then None
  else if (mipLevels m =? 0) || (arraySize m =? 0) then None
  else if (width m >? UINT32_MAX) || (height m >? UINT32_MAX) ||
          (mipLevels m >? UINT16_MAX) || (arraySize m >? UINT16_MAX) then None
  else if negb (alloc_ok (mipLevels m * arraySize m * sizeof_ptr)) then None
  else
  let initData :=
    if dimension m =? TEX_DIMENSION_TEXTURE3D then
      if depth m =? 0 then None
      else if depth m >? UINT16_MAX then None
      else if arraySize m >? 1 then None
      else create_volume m images nimages (Z.to_nat (mipLevels m)) 0 (depth m) []
    else create_items m images nimages (Z.to_nat (arraySize m)) 0 [] in
  match initData with
  | None => None
  | Some data =>
      match ConvertDXGITextureFormat (format m) with
      | GS_UNKNOWN => None
      | tformat =>
          if dimension m =? TEX_DIMENSION_TEXTURE1D then None
          else if dimension m =? TEX_DIMENSION_TEXTURE2D then
            if IsCubemap m then
              Some (gs_cubetexture_create (width m mod 2 ^ 32) tformat
                      (mipLevels m mod 2 ^ 32) data 0)
            else
              Some (gs_texture_create (width m mod 2 ^ 32) (height m mod 2 ^ 32) tformat
                      (mipLevels m mod 2 ^ 32) data 0)
          else if dimension m =? TEX_DIMENSION_TEXTURE3D then
            Some (gs_voltexture_create (width m mod 2 ^ 32) (height m mod 2 ^ 32)
                    (depth m mod 2 ^ 32) tformat (mipLevels m mod 2 ^ 32) data 0)
          else None
      end
  end
  end.

(** [mdata.miscFlags &= ~TEX_MISC_TEXTURECUBE]. *)
Definition clear_cube (m : TexMetadata) : TexMetadata :=
  {| width := width m; height := height m; depth := depth m;
     arraySize := arraySize m; mipLevels := mipLevels m;
     miscFlags := Z.land (miscFlags m) (Z.lxor TEX_MISC_TEXTURECUBE (2 ^ 32 - 1));
     miscFlags2 := miscFlags2 m; format := format m; dimension := dimension m |}.

Variable CopyImage_ok : list Z -> TexMetadata -> Z -> bool.

(** [gs_create_texture_from_dds_file] on a file whose contents are
    [file]; [mdata0] is what the uninitialised local [mdata] holds when
    [LoadFromDDSFile] does not write it.  [LoadFromDDSFile] writes the
    metadata only after [image.Initialize(mdata)] succeeded, and its later
    steps change only pixel bytes (or release the image and fail); on its
    other [true] path [Initialize] failed and left the image released
    ([GetImages() == nullptr], [GetImageCount() == 0]).  [m_nimages] is
    the count [DetermineImageArray] gave [Initialize]. *)
Definition gs_create_texture_from_dds_file (file : list Z) (mdata0 : TexMetadata)
  : option texture_call :=
  match LoadFromDDSFile p alloc_ok CopyImage_ok file with
  | (false, _) => None
  | (true, written) =>
      let mdata := match written with Some m => m | None => mdata0 end in
      let image := match written with
                   | Some m => snd (Initialize p alloc_ok m CP_FLAGS_NONE)
                   | None => None
                   end in
      let nimages := match image with
                     | Some img =>
                         match DetermineImageArray p (m_metadata img) CP_FLAGS_NONE with
                         | Some (n, _) => n
                         | None => 0
                         end
                     | None => 0
                     end in
      CreateTextureEx (option_map m_image image) nimages (clear_cube mdata)
  end.
End Create.


(** ** Game capture helpers *)

(** A NUL-terminated [char] string as its bytes before the terminator
    ([unsigned char] values); a [const char *] is [option] of it, [None]
    for [NULL]. *)
Definition cstr (s : String.string) : list Z :=
  map (fun c => Z.of_N (Ascii.N_of_ascii c)) (String.list_ascii_of_string s).

(** [strcmp]: the difference of the first differing bytes, the
    terminator counting as 0.  The callers only test the result against
    0. *)
Fixpoint strcmp (a b : list Z) : Z :=
  match a, b with
  | [], [] => 0
  | [], y :: _ => 0 - y
  | x :: _, [] => x
  | x :: a', y :: b' => if x =? y then strcmp a' b' else x - y
  end.

(** [tolower] in the C locale. *)
Definition tolower (c : Z) : Z := if (65 <=? c) && (c <=? 90) then c + 32 else c.

(** [strcmpi] ([_stricmp]): [strcmp] of the lowercased strings. *)
Definition strcmpi (a b : list Z) : Z := strcmp (map tolower a) (map tolower b).

Definition s_cmp (str1 str2 : option (list Z)) : Z :=
  match str1, str2 with
  | Some s1, Some s2 => strcmp s1 s2
  | _, _ => -1
  end.

Definition CAPTURE_MODE_ANY := 0.
Definition CAPTURE_MODE_WINDOW := 1.
Definition CAPTURE_MODE_HOTKEY := 2.

(** The fields of [struct safe_d3d_capture_config] that
    [capture_needs_reset] reads. *)
Record capture_config := mkCaptureConfig {
  cfg_title : option (list Z);
  cfg_class : option (list Z);
  cfg_executable : option (list Z);
  cfg_priority : Z;
  cfg_mode : Z
}.

Definition capture_needs_reset (cfg1 cfg2 : capture_config) : bool :=
  if negb (cfg_mode cfg1 =? cfg_mode cfg2) then true
  else if (cfg_mode cfg1 =? CAPTURE_MODE_WINDOW) &&
          (negb (s_cmp (cfg_class cfg1) (cfg_class cfg2) =? 0) ||
           negb (s_cmp (cfg_title cfg1) (cfg_title cfg2) =? 0) ||
           negb (s_cmp (cfg_executable cfg1) (cfg_executable cfg2) =? 0) ||
           negb (cfg_priority cfg1 =? cfg_priority cfg2)) then true
  else false.

Definition blacklisted_exes : list (list Z) :=
  map cstr
    ["explorer"; "steam"; "battle.net"; "galaxyclient"; "skype"; "uplay";
     "origin"; "devenv"; "taskmgr"; "chrome"; "discord"; "firefox";
     "systemsettings"; "applicationframehost"; "cmd"; "shellexperiencehost";
     "winstore.app"; "searchui"; "lockapp";
     "windowsinternal.composableshell.experiences.textinput.inputapp"]%string.

(** [is_blacklisted_exe]: [cur_exe] is the entry with [".exe"] appended
    ([strcpy] then [strcat]; every entry fits in [MAX_PATH]). *)
Definition is_blacklisted_exe (exe : option (list Z)) : bool :=
  match exe with
  | None => false
  | Some e => existsb (fun v => strcmpi (v ++ cstr ".exe") e =? 0) blacklisted_exes
  end.

Definition window_not_blacklisted (title class exe : option (list Z)) : bool :=
  negb (is_blacklisted_exe exe).

(** The bytes of a C string: none is the terminator. *)
Definition cstring_ok (s : list Z) : Prop := Forall (fun c => 1 <= c <= 255) s.

Definition opt_cstring_ok (s : option (list Z)) : Prop :=
  match s with None => True | Some s => cstring_ok s end.

Definition window_cfg (cls : option (list Z)) : capture_config :=
  mkCaptureConfig (Some (cstr "Game")) cls (Some (cstr "game.exe")) 0 CAPTURE_MODE_WINDOW.


(** ** Shapes used by the texture creation lemmas *)

(** An image of the given DXGI format whose pixels lie inside the buffer. *)
Definition image_ok (fmt : Z) (i : Image) : Prop := img_format i = fmt /\ 0 <= pixels i.

(** The default [Image] of [image_at]. *)
Definition image0 : Image := mkImage 0 0 0 0 0 0.


Definition cube_payload_file : list Z :=
  dds_dx10_file 4 4 1 DXGI_FORMAT_R8G8B8A8_UNORM DDS_DIMENSION_TEXTURE2D
                DDS_RESOURCE_MISC_TEXTURECUBE 1 384.

Definition rgba_array_images : list Image :=
  map (fun k => mkImage 5 3 DXGI_FORMAT_R8G8B8A8_UNORM 20 60 (k * 64)) [0;1;2;3;4;5].


(** * Properties *)

(** C1: [LoadFromDDSFile] on a file whose header decodes but whose
    [ScratchImage::Initialize] fails.  The file with a zero width decodes,
    [Initialize] returns a failing HRESULT, and [LoadFromDDSFile] executes
    [return hr;], which converts the nonzero HRESULT to [true]: the
    loader reports success (without writing the metadata). *)
Theorem LoadFromDDSFile_true_after_Initialize_failure :
  forall (p : platform) (alloc_ok : Z -> bool)
         (copy_ok : list Z -> TexMetadata -> Z -> bool),
    (exists md cf,
        DecodeDDSHeader p (dxt1_zero_width_file ++ repeat 0 12) 136 0 = Some (md, cf) /\
        FAILED (fst (Initialize p alloc_ok md CP_FLAGS_NONE)) = true) /\
    LoadFromDDSFile p alloc_ok copy_ok dxt1_zero_width_file = (true, None).
Proof.
  intros p alloc_ok copy_ok.
  destruct p; split; try reflexivity; do 2 eexists; split; reflexivity.
Qed.

(** C2 (counterexample): a buffer on which [DecodeDDSHeader] succeeds
    with a metadata width of 0. *)
Lemma DecodeDDSHeader_accepts_zero_width :
  exists m cf,
    DecodeDDSHeader Win64 (dxt1_zero_width_file ++ repeat 0 12) 136 0 = Some (m, cf) /\
    width m = 0.
Proof. do 2 eexists; split; reflexivity. Qed.

(** C3 (counterexample): on a 64-bit build, a row of [2^61] pixels of
    128 bits needs [2^64] bytes, more than [size_t] can hold, yet
    [ComputePitch] succeeds with the wrapped pitch 0. *)
Lemma ComputePitch_wraps_on_64bit :
  ComputePitch Win64 DXGI_FORMAT_R32G32B32A32_FLOAT (2 ^ 61) 1 CP_FLAGS_NONE
    = PitchOk 0 0 /\
  2 ^ 61 * BitsPerPixel DXGI_FORMAT_R32G32B32A32_FLOAT / 8 > size_t_neg1 Win64.
Proof. split; reflexivity. Qed.

(** On a 32-bit build the check compares values already computed modulo
    [2^64]: for NV11 the slice [pitch * height * 2] can wrap below
    [UINT32_MAX] and pass. *)
Lemma ComputePitch_nv11_slice_wraps_on_32bit :
  ComputePitch Win32 DXGI_FORMAT_NV11 (2 ^ 31 + 1) (2 ^ 32 - 7) CP_FLAGS_NONE
    = PitchOk 2147483652 4294967240 /\
  2147483652 * (2 ^ 32 - 7) * 2 > UINT32_MAX.
Proof. split; reflexivity. Qed.

(** Arithmetic below [2^64] does not wrap. *)
Lemma u64_small : forall x, 0 <= x < 2 ^ 64 -> u64 x = x.
Proof. intros x Hx. unfold u64. apply Z.mod_small. exact Hx. Qed.

Lemma u64_range : forall x, 0 <= u64 x < 2 ^ 64.
Proof. intros x. unfold u64. apply Z.mod_pos_bound. lia. Qed.

(** C4 (counterexample): for BC1 with height 0 the slice pitch is the row
    pitch (8 bytes), not [rowPitch * ceil(0/4) = 0]. *)
Lemma ComputePitch_bc1_zero_height :
  ComputePitch Win64 DXGI_FORMAT_BC1_UNORM 4 0 CP_FLAGS_NONE = PitchOk 8 8 /\
  8 * ((0 + 3) / 4) = 0.
Proof. split; reflexivity. Qed.

(** C4: for a block-compressed format under the default policy, a
    successful [ComputePitch] on dimensions below [2^31] returns
    [rowPitch = max 1 (ceil (width/4)) * bytes-per-block] and
    [slicePitch = rowPitch * max 1 (ceil (height/4))]: the block counts
    have a floor of 1, so a height of 0 gives one block row.  The row
    pitch is a multiple of the bytes per block. *)
Theorem ComputePitch_bc_default :
  forall p fmt w h rp sp,
    IsCompressed fmt = true ->
    0 <= w < 2 ^ 31 -> 0 <= h < 2 ^ 31 ->
    ComputePitch p fmt w h CP_FLAGS_NONE = PitchOk rp sp ->
    rp = Z.max 1 ((w + 3) / 4) * block_bytes fmt /\
    sp = rp * Z.max 1 ((h + 3) / 4) /\
    rp mod block_bytes fmt = 0.
Proof.
  intros p fmt w h rp sp Hc Hw Hh Hcp.
  assert (Hpf : pitch_of_format fmt w h CP_FLAGS_NONE = Some (rp, sp)).
  { unfold ComputePitch in Hcp.
    destruct (pitch_of_format fmt w h CP_FLAGS_NONE) as [[pi sl]|]; [|discriminate].
    destruct p; [destruct (_ || _)|]; congruence. }
  clear Hcp. change (2 ^ 31) with 2147483648 in Hw, Hh.
  assert (Hnw : 1 <= Z.max 1 ((w + 3) / 4) <= 536870913).
  { split; [lia|]. apply Z.max_lub; [lia|]. apply Z.div_le_upper_bound; lia. }
  assert (Hnh : 1 <= Z.max 1 ((h + 3) / 4) <= 536870913).
  { split; [lia|]. apply Z.max_lub; [lia|]. apply Z.div_le_upper_bound; lia. }
  unfold pitch_of_format, block_bytes in *.
  unfold IsCompressed in Hc.
  replace (has_flag CP_FLAGS_NONE CP_FLAGS_BAD_DXTN_TAILS) with false in Hpf
    by reflexivity.
  unfold add64 in Hpf.
  rewrite (u64_small (w + 3)), (u64_small (h + 3)) in Hpf
    by (change (2 ^ 64) with 18446744073709551616; lia).
  destruct (mem fmt bc_8byte_formats); cbn [orb] in Hc;
    [| rewrite Hc in Hpf]; injection Hpf as <- <-; unfold mul64;
    set (nw := Z.max 1 ((w + 3) / 4)) in *; set (nh := Z.max 1 ((h + 3) / 4)) in *;
    change (2 ^ 64) with 18446744073709551616 in *;
    [rewrite (u64_small (nw * 8)) by nia | rewrite (u64_small (nw * 16)) by nia];
    rewrite u64_small by nia;
    (split; [reflexivity | split; [reflexivity |]]);
    rewrite Z.mod_mul by lia; reflexivity.
Qed.

Lemma ComputePitch_bc_default_witness :
  8 = Z.max 1 ((4 + 3) / 4) * block_bytes DXGI_FORMAT_BC1_UNORM /\
  8 = 8 * Z.max 1 ((0 + 3) / 4) /\
  8 mod block_bytes DXGI_FORMAT_BC1_UNORM = 0.
Proof.
  apply (ComputePitch_bc_default Win64 DXGI_FORMAT_BC1_UNORM 4 0 8 8);
    [reflexivity | lia | lia | reflexivity].
Defined.

(** C9: expanding the one-pixel 5:6:5 row [0xF800] into RGBA8 gives red
    0xFF, green and blue 0x00 and alpha 0xFF, whatever the destination
    held before and whatever the flags. *)
Theorem ExpandScanline_565_red :
  forall d0 d1 d2 d3 tflags,
    let r := ExpandScanline [d0; d1; d2; d3] 4 DXGI_FORMAT_R8G8B8A8_UNORM
                            [0x00; 0xF8] 2 DXGI_FORMAT_B5G6R5_UNORM tflags in
    fst r = true /\
    snd r = [0xFF; 0x00; 0x00; 0xFF] /\
    field (le32 (snd r) 0) 0 8 = 0xFF /\
    field (le32 (snd r) 0) 8 8 = 0x00 /\
    field (le32 (snd r) 0) 16 8 = 0x00 /\
    field (le32 (snd r) 0) 24 8 = 0xFF.
Proof. intros. repeat split; reflexivity. Qed.

(** The halving step of the loops is the spec's halving on positive
    dimensions, and it keeps them positive. *)
Lemma shrink_halve : forall d, 1 <= d -> shrink d = halve_dim d /\ 1 <= halve_dim d.
Proof.
  intros d Hd. unfold shrink, halve_dim.
  destruct (d >? 1) eqn:E.
  - apply Z.gtb_lt in E. rewrite Z.shiftr_div_pow2 by lia.
    change (2 ^ 1) with 2.
    assert (1 <= d / 2) by (apply Z.div_le_lower_bound; lia). lia.
  - rewrite Z.gtb_ltb, Z.ltb_ge in E. assert (d = 1) by lia. subst. split; reflexivity.
Qed.

Lemma halve_dim_lt : forall d, 1 < d -> halve_dim d < d.
Proof.
  intros d Hd. unfold halve_dim.
  assert (d / 2 < d) by (apply Z.div_lt; lia). lia.
Qed.

Lemma halve_dim_le : forall d, 1 <= d -> halve_dim d <= d.
Proof.
  intros d Hd. unfold halve_dim.
  assert (d / 2 <= d) by (apply Z.div_le_upper_bound; lia). lia.
Qed.

Lemma halvings_one : forall k, halvings k 1 1 = (1, 1).
Proof. induction k as [|k IH]; [reflexivity | exact IH]. Qed.

Lemma count_mips_loop_spec :
  forall fuel w h n,
    1 <= w -> 1 <= h -> w + h <= Z.of_nat fuel + 2 ->
    exists k,
      count_mips_loop fuel w h n = n + Z.of_nat k /\
      halvings k w h = (1, 1) /\
      (forall j, (j < k)%nat -> halvings j w h <> (1, 1)).
Proof.
  induction fuel as [|fuel IH]; intros w h n Hw Hh Hf.
  - exists O. assert (w = 1 /\ h = 1) as [-> ->] by lia.
    split; [simpl; lia | split; [reflexivity | intros j Hj; lia]].
  - simpl.
    destruct ((h >? 1) || (w >? 1)) eqn:E.
    + fold (shrink h) (shrink w).
      destruct (shrink_halve w Hw) as [Ew Hw'].
      destruct (shrink_halve h Hh) as [Eh Hh'].
      rewrite Ew, Eh.
      assert (Hlt : halve_dim w + halve_dim h < w + h).
      { apply orb_true_iff in E.
        destruct E as [E | E]; apply Z.gtb_lt in E;
          pose proof (halve_dim_lt _ E); pose proof (halve_dim_le w Hw);
          pose proof (halve_dim_le h Hh); lia. }
      destruct (IH (halve_dim w) (halve_dim h) (n + 1) Hw' Hh') as [k [Hc [Hk Hj]]];
        [lia|].
      exists (S k). split; [rewrite Hc; lia | split; [exact Hk |]].
      intros [|j] Hjk; simpl.
      * apply orb_true_iff in E. intros Heq. injection Heq as -> ->.
        destruct E as [E | E]; discriminate E.
      * apply Hj. lia.
    + exists O. apply orb_false_iff in E as [E1 E2].
      rewrite Z.gtb_ltb, Z.ltb_ge in E1, E2.
      assert (w = 1 /\ h = 1) as [-> ->] by lia.
      split; [lia | split; [reflexivity | intros j Hj; lia]].
Qed.

(** C8: for positive dimensions, [CountMips] returns [v >= 1] such that
    [v - 1] halvings (floor, minimum 1) of both dimensions reach (1, 1),
    and no smaller number of halvings does. *)
Theorem CountMips_halvings :
  forall w h, 1 <= w -> 1 <= h ->
    1 <= CountMips w h /\
    halvings (Z.to_nat (CountMips w h - 1)) w h = (1, 1) /\
    (forall j, (j < Z.to_nat (CountMips w h - 1))%nat -> halvings j w h <> (1, 1)).
Proof.
  intros w h Hw Hh. unfold CountMips.
  destruct (count_mips_loop_spec (Z.to_nat (w + h)) w h 1 Hw Hh) as [k [Hc [Hk Hj]]];
    [lia|].
  rewrite Hc. replace (1 + Z.of_nat k - 1) with (Z.of_nat k) by lia.
  rewrite Nat2Z.id. split; [lia | split; assumption].
Qed.

Lemma CountMips_halvings_witness :
  1 <= CountMips 5 3 /\
  halvings (Z.to_nat (CountMips 5 3 - 1)) 5 3 = (1, 1) /\
  (forall j, (j < Z.to_nat (CountMips 5 3 - 1))%nat -> halvings j 5 3 <> (1, 1)).
Proof. apply (CountMips_halvings 5 3); lia. Defined.

(** Settles [(a >=? b) = false] and the like by arithmetic. *)
Ltac zbool :=
  try rewrite Z.geb_leb; try rewrite Z.gtb_ltb;
  first [ apply Z.leb_gt | apply Z.leb_le | apply Z.ltb_lt | apply Z.ltb_ge ]; lia.

Lemma size_pow_pos : forall p, 0 < 2 ^ size_bits p.
Proof. intros p. apply Z.pow_pos_nonneg; [lia | destruct p; simpl; lia]. Qed.

Lemma size_wrap_small : forall p x, 0 <= x < 2 ^ size_bits p -> size_wrap p x = x.
Proof. intros p x Hx. unfold size_wrap. apply Z.mod_small. exact Hx. Qed.

(** The 1D/2D case of [ComputeIndex] on indices in range. *)
Lemma ComputeIndex_array_in_range :
  forall p m item mip,
    (dimension m = TEX_DIMENSION_TEXTURE1D \/ dimension m = TEX_DIMENSION_TEXTURE2D) ->
    arraySize m * mipLevels m <= 2 ^ size_bits p ->
    0 <= item < arraySize m -> 0 <= mip < mipLevels m ->
    ComputeIndex p m mip item 0 = item * mipLevels m + mip.
Proof.
  intros p m item mip Hd Hb Hi Hl. unfold ComputeIndex.
  replace (mip >=? mipLevels m) with false by (symmetry; zbool).
  replace ((dimension m =? TEX_DIMENSION_TEXTURE1D) ||
           (dimension m =? TEX_DIMENSION_TEXTURE2D)) with true
    by (destruct Hd as [-> | ->]; reflexivity).
  replace (item >=? arraySize m) with false by (symmetry; zbool).
  simpl. apply size_wrap_small. nia.
Qed.

(** C7: for a 1D or 2D texture with [N = arraySize >= 1] and
    [M = mipLevels >= 1] (and [N * M] representable in [size_t]),
    [(item, mip) |-> ComputeIndex mip item 0] is [item * M + mip], is
    injective on [{0..N-1} x {0..M-1}], and its image is [{0..N*M-1}]. *)
Theorem ComputeIndex_array_bijection :
  forall p m,
    (dimension m = TEX_DIMENSION_TEXTURE1D \/ dimension m = TEX_DIMENSION_TEXTURE2D) ->
    1 <= arraySize m -> 1 <= mipLevels m ->
    arraySize m * mipLevels m <= 2 ^ size_bits p ->
    (forall item mip, 0 <= item < arraySize m -> 0 <= mip < mipLevels m ->
       ComputeIndex p m mip item 0 = item * mipLevels m + mip) /\
    (forall i1 l1 i2 l2,
       0 <= i1 < arraySize m -> 0 <= l1 < mipLevels m ->
       0 <= i2 < arraySize m -> 0 <= l2 < mipLevels m ->
       ComputeIndex p m l1 i1 0 = ComputeIndex p m l2 i2 0 -> i1 = i2 /\ l1 = l2) /\
    (forall k,
       (exists item mip, 0 <= item < arraySize m /\ 0 <= mip < mipLevels m /\
                         ComputeIndex p m mip item 0 = k) <->
       0 <= k < arraySize m * mipLevels m).
Proof.
  intros p m Hd HN HM Hb.
  split; [| split].
  - intros item mip Hi Hl. apply ComputeIndex_array_in_range; assumption.
  - intros i1 l1 i2 l2 Hi1 Hl1 Hi2 Hl2 Heq.
    rewrite !ComputeIndex_array_in_range in Heq by assumption.
    assert (i1 = i2) by nia. subst. split; [reflexivity | lia].
  - intros k. split.
    + intros [item [mip [Hi [Hl Hk]]]].
      rewrite ComputeIndex_array_in_range in Hk by assumption. subst k. nia.
    + intros Hk. exists (k / mipLevels m), (k mod mipLevels m).
      assert (0 <= k mod mipLevels m < mipLevels m) by (apply Z.mod_pos_bound; lia).
      assert (0 <= k / mipLevels m < arraySize m).
      { split; [apply Z.div_pos; lia | apply Z.div_lt_upper_bound; lia]. }
      split; [assumption | split; [assumption |]].
      rewrite ComputeIndex_array_in_range by assumption.
      rewrite Z.mul_comm. symmetry. apply Z.div_mod. lia.
Qed.

Lemma ComputeIndex_array_bijection_witness :
  let m := mkTexMetadata 5 3 1 2 3 0 0 DXGI_FORMAT_R8G8B8A8_UNORM
                         TEX_DIMENSION_TEXTURE2D in
  (forall item mip, 0 <= item < 2 -> 0 <= mip < 3 ->
     ComputeIndex Win64 m mip item 0 = item * 3 + mip) /\
  (forall i1 l1 i2 l2, 0 <= i1 < 2 -> 0 <= l1 < 3 -> 0 <= i2 < 2 -> 0 <= l2 < 3 ->
     ComputeIndex Win64 m l1 i1 0 = ComputeIndex Win64 m l2 i2 0 -> i1 = i2 /\ l1 = l2) /\
  (forall k, (exists item mip, 0 <= item < 2 /\ 0 <= mip < 3 /\
                               ComputeIndex Win64 m mip item 0 = k) <-> 0 <= k < 2 * 3).
Proof.
  intros m.
  apply (ComputeIndex_array_bijection Win64 m); [right; reflexivity | simpl; lia ..].
Defined.

Lemma halve_dim_pos : forall d, 1 <= halve_dim d.
Proof. intros d. unfold halve_dim. lia. Qed.

Lemma halve_dim_double : forall d, 1 <= d -> 2 * halve_dim d <= d + 1.
Proof.
  intros d Hd. unfold halve_dim.
  pose proof (Z.mul_div_le d 2). lia.
Qed.

Lemma mip_depth_pos : forall n d, 1 <= d -> 1 <= mip_depth n d.
Proof.
  induction n as [|n IH]; intros d Hd; [exact Hd | apply IH, halve_dim_pos].
Qed.

(** All the levels of a volume before level [n], and twice level [n],
    fit in [2 * depth + n] slices. *)
Lemma slices_before_bound :
  forall n d, 1 <= d -> 0 <= slices_before n d /\
    slices_before n d + 2 * mip_depth n d <= 2 * d + Z.of_nat n.
Proof.
  induction n as [|n IH]; intros d Hd; cbn [slices_before mip_depth].
  - lia.
  - rewrite Nat2Z.inj_succ.
    destruct (IH (halve_dim d) (halve_dim_pos d)) as [H0 H1].
    pose proof (halve_dim_double d Hd). lia.
Qed.

(** The depth loop of [ComputeIndex] computes the spec's sums when they
    fit in [size_t]. *)
Lemma volume_index_loop_spec :
  forall p n idx d, 1 <= d -> 0 <= idx ->
    idx + slices_before n d < 2 ^ size_bits p ->
    volume_index_loop p n idx d = (idx + slices_before n d, mip_depth n d).
Proof.
  induction n as [|n IH]; intros idx d Hd Hi Hb; simpl in *.
  - f_equal; lia.
  - destruct (slices_before_bound n (halve_dim d) (halve_dim_pos d)) as [H0 _].
    rewrite size_wrap_small by lia.
    destruct (shrink_halve d Hd) as [-> _].
    rewrite IH; [f_equal; lia | apply halve_dim_pos | lia | lia].
Qed.

(** C10: for a 3D texture (depth >= 1, and [2 * depth + mipLevels]
    representable in [size_t]), [ComputeIndex] returns [size_t(-1)] when
    [mip >= mipLevels], when [item > 0], and when [slice] is at least the
    depth of level [mip] (halved per level, floor, minimum 1); for every
    smaller slice it returns the slices of the earlier levels plus
    [slice], a value below [size_t(-1)]. *)
Theorem ComputeIndex_volume :
  forall p m mip item slice,
    dimension m = TEX_DIMENSION_TEXTURE3D -> 1 <= depth m ->
    0 <= mip -> 0 <= item -> 0 <= slice ->
    2 * depth m + mipLevels m < 2 ^ size_bits p ->
    (mipLevels m <= mip -> ComputeIndex p m mip item slice = size_t_neg1 p) /\
    (0 < item -> ComputeIndex p m mip item slice = size_t_neg1 p) /\
    (mip < mipLevels m -> item = 0 ->
       (mip_depth (Z.to_nat mip) (depth m) <= slice ->
          ComputeIndex p m mip item slice = size_t_neg1 p) /\
       (slice < mip_depth (Z.to_nat mip) (depth m) ->
          ComputeIndex p m mip item slice
            = slices_before (Z.to_nat mip) (depth m) + slice /\
          ComputeIndex p m mip item slice < size_t_neg1 p)).
Proof.
  intros p m mip item slice Hd Hdep Hmip Hitem Hslice Hb.
  assert (Hdim : (dimension m =? TEX_DIMENSION_TEXTURE1D) ||
                 (dimension m =? TEX_DIMENSION_TEXTURE2D) = false)
    by (rewrite Hd; reflexivity).
  assert (H3 : (dimension m =? TEX_DIMENSION_TEXTURE3D) = true)
    by (rewrite Hd; reflexivity).
  unfold ComputeIndex. split; [| split].
  - intros Hge. replace (mip >=? mipLevels m) with true by (symmetry; zbool).
    reflexivity.
  - intros Hpos. destruct (mip >=? mipLevels m); [reflexivity |].
    rewrite Hdim, H3.
    replace (item >? 0) with true by (symmetry; zbool). reflexivity.
  - intros Hlt ->.
    replace (mip >=? mipLevels m) with false by (symmetry; zbool).
    rewrite Hdim, H3. change (0 >? 0) with false. cbv iota.
    pose proof (slices_before_bound (Z.to_nat mip) (depth m) Hdep) as [H0 H1].
    pose proof (mip_depth_pos (Z.to_nat mip) (depth m) Hdep) as Hmd.
    rewrite Z2Nat.id in H1 by lia.
    rewrite volume_index_loop_spec by lia.
    rewrite Z.add_0_l. unfold size_t_neg1. split.
    + intros Hge. replace (slice >=? _) with true by (symmetry; zbool).
      reflexivity.
    + intros Hs. replace (slice >=? _) with false by (symmetry; zbool).
      rewrite size_wrap_small by lia. split; [reflexivity | lia].
Qed.

Lemma ComputeIndex_volume_witness :
  let m := mkTexMetadata 4 4 4 1 3 0 0 DXGI_FORMAT_R8G8B8A8_UNORM
                         TEX_DIMENSION_TEXTURE3D in
  (mipLevels m <= 2 -> ComputeIndex Win64 m 2 0 0 = size_t_neg1 Win64) /\
  (0 < 0 -> ComputeIndex Win64 m 2 0 0 = size_t_neg1 Win64) /\
  (2 < mipLevels m -> 0 = 0 ->
     (mip_depth (Z.to_nat 2) (depth m) <= 0 -> ComputeIndex Win64 m 2 0 0 = size_t_neg1 Win64) /\
     (0 < mip_depth (Z.to_nat 2) (depth m) ->
        ComputeIndex Win64 m 2 0 0 = slices_before (Z.to_nat 2) (depth m) + 0 /\
        ComputeIndex Win64 m 2 0 0 < size_t_neg1 Win64)).
Proof.
  intros m.
  apply (ComputeIndex_volume Win64 m 2 0 0); [reflexivity | simpl; lia .. ].
Defined.

Lemma byte_at_range : forall buf i, 0 <= byte_at buf i < 256.
Proof. intros buf i. unfold byte_at. apply Z.mod_pos_bound. lia. Qed.

Lemma le32_range : forall buf off, 0 <= le32 buf off < 2 ^ 32.
Proof.
  intros buf off. unfold le32.
  pose proof (byte_at_range buf off). pose proof (byte_at_range buf (off + 1)).
  pose proof (byte_at_range buf (off + 2)). pose proof (byte_at_range buf (off + 3)).
  change (2 ^ 32) with 4294967296. lia.
Qed.

(** On a 32-bit build, [metadata.arraySize *= 6] wraps for a DX10 cube
    map with [arraySize = 2^31], and the header decodes with an array size
    of 0. *)
Lemma DecodeDDSHeader_cube_array_wraps_on_32bit :
  exists m cf,
    DecodeDDSHeader Win32 dx10_cube_2pow31_file 148 0 = Some (m, cf) /\
    arraySize m = 0 /\ IsCubemap m = true.
Proof. do 2 eexists; split; [reflexivity | split; reflexivity]. Qed.

(** C2: when [DecodeDDSHeader] succeeds, [1 <= mipLevels <= 15], the
    width and height are at most 16384, the depth and array size at most
    2048, and on a 64-bit build the array size is at least 1.  Width,
    height and depth are only bounded above: they can be 0. *)
Theorem DecodeDDSHeader_bounds :
  forall p buf size cf m cf',
    DecodeDDSHeader p buf size cf = Some (m, cf') ->
    1 <= mipLevels m <= 15 /\
    0 <= width m <= 16384 /\ 0 <= height m <= 16384 /\
    0 <= depth m <= 2048 /\ 0 <= arraySize m <= 2048 /\
    (p = Win64 -> 1 <= arraySize m).
Proof.
  intros p buf size cf m cf' H.
  unfold DecodeDDSHeader in H.
  set (hdr := read_header buf 4) in H.
  set (ext := read_dxt10 buf (4 + sizeof_DDS_HEADER)) in H.
  assert (Hw : 0 <= hdr_width hdr < 2 ^ 32) by apply le32_range.
  assert (Hh : 0 <= hdr_height hdr < 2 ^ 32) by apply le32_range.
  assert (Hd : 0 <= hdr_depth hdr < 2 ^ 32) by apply le32_range.
  assert (Hm : 0 <= mipMapCount hdr < 2 ^ 32) by apply le32_range.
  assert (Ha : 0 <= dx10_arraySize ext < 2 ^ 32) by apply le32_range.
  clearbody hdr ext.
  destruct (GetDXGIFormat hdr (ddspf hdr) cf) as [gf gcf].
  repeat match type of H with
  | context [if ?c then _ else _] => let E := fresh "E" in destruct c eqn:E
  end.
  all: try discriminate H.
  all: injection H as <- <-;
       cbn [width height depth arraySize mipLevels SetAlphaMode] in *.
  all: repeat match goal with
    | E : (_ || _) = false |- _ => apply orb_false_iff in E as [? ?]
    | E : (_ >? _) = false |- _ => rewrite Z.gtb_ltb, Z.ltb_ge in E
    | E : (_ =? _) = true |- _ => apply Z.eqb_eq in E
    | E : (_ =? _) = false |- _ => apply Z.eqb_neq in E
    end.
  all: try (match goal with |- context [size_wrap ?q ?x] =>
              pose proof (size_pow_pos q); unfold size_wrap in *;
              pose proof (Z.mod_pos_bound x (2 ^ size_bits q) ltac:(lia)) end).
  all: do 5 (split; [lia |]).
  all: intros ->; try lia.
  all: rewrite Z.mod_small; simpl; lia.
Qed.

Lemma DecodeDDSHeader_bounds_witness :
  exists m cf,
    DecodeDDSHeader Win64 (dxt1_zero_width_file ++ repeat 0 12) 136 0 = Some (m, cf) /\
    1 <= mipLevels m <= 15 /\
    0 <= width m <= 16384 /\ 0 <= height m <= 16384 /\
    0 <= depth m <= 2048 /\ 0 <= arraySize m <= 2048 /\
    (Win64 = Win64 -> 1 <= arraySize m).
Proof.
  do 2 eexists. split; [reflexivity |].
  eapply (DecodeDDSHeader_bounds Win64 (dxt1_zero_width_file ++ repeat 0 12) 136 0).
  reflexivity.
Defined.

Lemma nth_set_byte : forall b i v n, 0 <= i ->
  nth n (set_byte b i v) 0 =
  if Nat.eqb n (Z.to_nat i) && (Z.to_nat i <? length b)%nat then v else nth n b 0.
Proof.
  intros b i v n Hi. unfold set_byte.
  set (k := Z.to_nat i).
  destruct (Nat.ltb_spec k (length b)) as [Hk | Hk].
  - assert (Hf : length (firstn k b) = k) by (apply firstn_length_le; lia).
    destruct (Nat.lt_trichotomy n k) as [Hn | [Hn | Hn]].
    + rewrite app_nth1 by lia. rewrite nth_firstn.
      replace (n <? k)%nat with true by (symmetry; apply Nat.ltb_lt; lia).
      replace (Nat.eqb n k) with false by (symmetry; apply Nat.eqb_neq; lia).
      reflexivity.
    + subst n. rewrite app_nth2 by lia. rewrite Hf, Nat.sub_diag, Nat.eqb_refl.
      reflexivity.
    + rewrite app_nth2 by lia. rewrite Hf.
      replace (Nat.eqb n k) with false by (symmetry; apply Nat.eqb_neq; lia).
      replace (n - k)%nat with (S (n - k - 1)) by lia. cbn [nth].
      rewrite nth_skipn. cbn [andb]. f_equal. lia.
  - rewrite andb_false_r. reflexivity.
Qed.

Lemma length_set_byte : forall b i v, length (set_byte b i v) = length b.
Proof.
  intros b i v. unfold set_byte.
  destruct (Nat.ltb_spec (Z.to_nat i) (length b)); [| reflexivity].
  rewrite length_app. cbn [length]. rewrite length_firstn, length_skipn. lia.
Qed.

Lemma length_store32 : forall b off v, length (store32 b off v) = length b.
Proof. intros. unfold store32. rewrite !length_set_byte. reflexivity. Qed.

(** Bytes of [store32]: the four stored bytes, and the rest unchanged. *)
Lemma nth_store32 : forall b off v n, 0 <= off -> off + 4 <= Z.of_nat (length b) ->
  nth n (store32 b off v) 0 =
  if (Z.of_nat n <? off) || (off + 4 <=? Z.of_nat n) then nth n b 0
  else Z.land (Z.shiftr v (8 * (Z.of_nat n - off))) 255.
Proof.
  intros b off v n Ho Hl. unfold store32.
  rewrite !nth_set_byte by lia. rewrite !length_set_byte.
  destruct (Z.ltb_spec (Z.of_nat n) off); destruct (Z.leb_spec (off + 4) (Z.of_nat n));
    simpl orb; cbv zeta.
  all: repeat match goal with
       | |- context [Nat.eqb ?m ?k] =>
           let E := fresh in destruct (Nat.eqb_spec m k) as [E | E]; cbn [andb]
       end.
  all: repeat match goal with
       | |- context [(?a <? ?b)%nat] =>
           replace (a <? b)%nat with true by (symmetry; apply Nat.ltb_lt; lia)
       end; cbn [andb].
  all: try lia; try reflexivity.
  all: try (f_equal; lia).
  all: try (replace (8 * (Z.of_nat n - off)) with 0 by lia; rewrite Z.shiftr_0_r; reflexivity).
  all: try (f_equal; f_equal; lia).
Qed.

Lemma le32_bytes_mod : forall v,
  Z.land v 255 + 256 * Z.land (Z.shiftr v 8) 255 +
  65536 * Z.land (Z.shiftr v 16) 255 + 16777216 * Z.land (Z.shiftr v 24) 255
  = v mod 2 ^ 32.
Proof.
  intros v.
  change 255 with (Z.ones 8).
  rewrite !Z.land_ones, !Z.shiftr_div_pow2 by lia.
  change (2 ^ 8) with 256. change (2 ^ 16) with 65536. change (2 ^ 24) with 16777216.
  change (2 ^ 32) with (256 * (256 * (256 * 256))).
  rewrite Z.rem_mul_r by lia. rewrite Z.rem_mul_r by lia. rewrite Z.rem_mul_r by lia.
  rewrite !Z.div_div by lia.
  change (256 * 256 * 256) with 16777216. change (256 * 256) with 65536. lia.
Qed.

Lemma le32_ext : forall a b off,
  (forall i, 0 <= i < 4 -> nth (Z.to_nat (off + i)) a 0 = nth (Z.to_nat (off + i)) b 0) ->
  le32 a off = le32 b off.
Proof.
  intros a b off H. unfold le32, byte_at.
  pose proof (H 0 ltac:(lia)) as H0. rewrite Z.add_0_r in H0.
  rewrite H0, (H 1), (H 2), (H 3) by lia. reflexivity.
Qed.

Lemma le32_store32_same : forall b off v, 0 <= off -> off + 4 <= Z.of_nat (length b) ->
  le32 (store32 b off v) off = v mod 2 ^ 32.
Proof.
  intros b off v Ho Hl. rewrite <- le32_bytes_mod. unfold le32, byte_at.
  replace (Z.to_nat off) with (Z.to_nat (off + 0)) by (f_equal; lia).
  rewrite !nth_store32 by lia.
  rewrite !Z2Nat.id by lia.
  replace (off + 0 <? off) with false by (symmetry; apply Z.ltb_ge; lia).
  replace (off + 1 <? off) with false by (symmetry; apply Z.ltb_ge; lia).
  replace (off + 2 <? off) with false by (symmetry; apply Z.ltb_ge; lia).
  replace (off + 3 <? off) with false by (symmetry; apply Z.ltb_ge; lia).
  replace (off + 4 <=? off + 0) with false by (symmetry; apply Z.leb_gt; lia).
  replace (off + 4 <=? off + 1) with false by (symmetry; apply Z.leb_gt; lia).
  replace (off + 4 <=? off + 2) with false by (symmetry; apply Z.leb_gt; lia).
  replace (off + 4 <=? off + 3) with false by (symmetry; apply Z.leb_gt; lia).
  cbn [orb].
  replace (off + 0 - off) with 0 by lia. replace (off + 1 - off) with 1 by lia.
  replace (off + 2 - off) with 2 by lia. replace (off + 3 - off) with 3 by lia.
  cbn [Z.mul]. rewrite Z.shiftr_0_r.
  change 255 with (Z.ones 8). rewrite !Z.land_ones by lia.
  change (2 ^ 8) with 256. rewrite !Z.mod_mod by lia. reflexivity.
Qed.

(** Bytes outside [off, off + 4) are unchanged by [store32]. *)
Lemma nth_store32_other : forall b off v n, 0 <= off -> off + 4 <= Z.of_nat (length b) ->
  (Z.of_nat n < off \/ off + 4 <= Z.of_nat n) ->
  nth n (store32 b off v) 0 = nth n b 0.
Proof.
  intros b off v n Ho Hl Hn. rewrite nth_store32 by lia.
  replace ((Z.of_nat n <? off) || (off + 4 <=? Z.of_nat n)) with true; [reflexivity |].
  destruct Hn as [Hn | Hn]; symmetry; apply orb_true_iff;
    [left; apply Z.ltb_lt | right; apply Z.leb_le]; lia.
Qed.

Lemma pixel_loop_spec : forall f size src fuel j d,
  0 <= j -> size / 4 - j <= Z.of_nat fuel -> size <= Z.of_nat (length d) ->
  (forall s, src = Some s -> size <= Z.of_nat (length s)) ->
  let r := pixel_loop f fuel size (4 * j) src d in
  let s0 := match src with Some s => s | None => d end in
  length r = length d /\
  (forall k, j <= k -> 4 * k + 3 < size ->
     le32 r (4 * k) = f (le32 s0 (4 * k)) mod 2 ^ 32) /\
  (forall n, (Z.of_nat n < 4 * j \/ 4 * (size / 4) <= Z.of_nat n) -> nth n r 0 = nth n d 0).
Proof.
  intros f size src fuel. induction fuel as [|fuel IH]; intros j d Hj Hf Hd Hs r s0.
  - subst r. cbn [pixel_loop]. split; [reflexivity | split; [| reflexivity]].
    intros k Hk Hks. exfalso.
    assert (k + 1 <= size / 4) by (apply Z.div_le_lower_bound; lia). lia.
  - subst r. cbn [pixel_loop].
    destruct (Z.ltb_spec (4 * j) (size - 3)) as [Hlt | Hge].
    + set (t := le32 (match src with Some s => s | None => d end) (4 * j)).
      set (d' := store32 d (4 * j) (f t)).
      assert (Hlen' : length d' = length d) by apply length_store32.
      assert (Hq : j + 1 <= size / 4) by (apply Z.div_le_lower_bound; lia).
      replace (4 * j + 4) with (4 * (j + 1)) by lia.
      destruct (IH (j + 1) d') as [IHl [IHp IHf]]; [lia | lia | rewrite Hlen'; lia | exact Hs |].
      set (r := pixel_loop f fuel size (4 * (j + 1)) src d') in *.
      assert (Hout : forall n, (Z.of_nat n < 4 * j \/ 4 * (j + 1) <= Z.of_nat n) ->
                               nth n d' 0 = nth n d 0).
      { intros n Hn. apply nth_store32_other; lia. }
      split; [congruence | split].
      * intros k Hk Hks.
        destruct (Z.eq_dec k j) as [-> | Hne].
        -- transitivity (le32 d' (4 * j)).
           ++ apply le32_ext. intros i Hi. apply IHf. rewrite Z2Nat.id; lia.
           ++ apply le32_store32_same; lia.
        -- rewrite IHp by lia. do 2 f_equal.
           subst s0. destruct src as [s|]; [reflexivity |].
           apply le32_ext. intros i Hi. apply Hout. rewrite Z2Nat.id; lia.
      * intros n Hn. rewrite IHf by lia. apply Hout. lia.
    + split; [reflexivity | split; [| reflexivity]].
      intros k Hk Hks. lia.
Qed.

Lemma field_bits : forall a b oa ob w, 0 <= oa -> 0 <= ob -> 0 <= w ->
  (forall n, 0 <= n < w -> Z.testbit a (n + oa) = Z.testbit b (n + ob)) ->
  field a oa w = field b ob w.
Proof.
  intros a b oa ob w Hoa Hob Hw H. unfold field.
  apply Z.bits_inj'. intros n Hn.
  rewrite !Z.land_spec, !Z.shiftr_spec, !Z.testbit_ones by lia.
  destruct (Z.ltb_spec n w); [rewrite H by lia; reflexivity | rewrite !andb_false_r; reflexivity].
Qed.

Lemma field_all_ones : forall a o w, 0 <= o -> 0 <= w ->
  (forall n, 0 <= n < w -> Z.testbit a (n + o) = true) ->
  field a o w = Z.ones w.
Proof.
  intros a o w Ho Hw H. unfold field.
  apply Z.bits_inj'. intros n Hn.
  rewrite !Z.land_spec, !Z.shiftr_spec, !Z.testbit_ones by lia.
  destruct (Z.ltb_spec n w); [rewrite H by lia; reflexivity | rewrite !andb_false_r; reflexivity].
Qed.

Ltac bit_eval t :=
  repeat first [ rewrite Z.lor_spec | rewrite Z.land_spec
               | rewrite Z.shiftr_spec by lia | rewrite Z.shiftl_spec by lia
               | rewrite Z.mod_pow2_bits_low by lia ];
  repeat match goal with
    | |- context [Z.testbit t ?k] =>
        let k' := eval vm_compute in k in
        progress change (Z.testbit t k) with (Z.testbit t k')
    | |- context [Z.testbit (Z.pos ?c) ?k] =>
        let b := eval vm_compute in (Z.testbit (Z.pos c) k) in
        change (Z.testbit (Z.pos c) k) with b
    end;
  rewrite ?Z.testbit_neg_r by lia; cbn [andb orb];
  rewrite ?andb_false_r, ?andb_true_r, ?orb_false_r, ?orb_false_l;
  reflexivity.

(** Bit index [n], known to lie in a small range from [k] on, taken
    one value at a time. *)
Ltac bit_cases n k tac :=
  destruct (Z.eq_dec n k) as [-> | ?];
  [ tac
  | first [ lia | let k' := eval vm_compute in (k + 1) in bit_cases n k' tac ] ].

Lemma swizzle_8888_swaps : forall tflags t,
  rb_swapped 8 (has_flag tflags TEXP_SCANLINE_SETALPHA) t (swizzle_8888 tflags t mod 2 ^ 32).
Proof.
  intros tflags t. unfold rb_swapped, swizzle_8888. cbn [Z.mul Z.sub].
  destruct (has_flag tflags TEXP_SCANLINE_SETALPHA);
    repeat split; first [apply field_all_ones | apply field_bits]; try lia;
    intros n Hn;
    bit_cases n 0 ltac:(bit_eval t).
Qed.

Lemma swizzle_10_10_10_2_swaps : forall tflags t,
  rb_swapped 10 (has_flag tflags TEXP_SCANLINE_SETALPHA) t
             (swizzle_10_10_10_2 tflags t mod 2 ^ 32).
Proof.
  intros tflags t. unfold rb_swapped, swizzle_10_10_10_2. cbn [Z.mul Z.sub].
  destruct (has_flag tflags TEXP_SCANLINE_SETALPHA);
    repeat split; first [apply field_all_ones | apply field_bits]; try lia;
    intros n Hn;
    bit_cases n 0 ltac:(first [lia | bit_eval t]).
Qed.

Lemma swizzle_yuy2_reorders : forall t,
  yuy2_reordered t (swizzle_yuy2 t mod 2 ^ 32).
Proof.
  intros t. unfold yuy2_reordered, swizzle_yuy2.
  repeat split; apply field_bits; try lia;
    intros n Hn;
    bit_cases n 0 ltac:(bit_eval t).
Qed.

Lemma pixel_run_spec : forall f size src dst,
  0 <= size <= Z.of_nat (length dst) ->
  (forall s, src = Some s -> size <= Z.of_nat (length s)) ->
  let r := pixel_loop f (Z.to_nat size) size 0 src dst in
  let s0 := match src with Some s => s | None => dst end in
  length r = length dst /\
  (forall k, 0 <= k -> 4 * k + 3 < size ->
     le32 r (4 * k) = f (le32 s0 (4 * k)) mod 2 ^ 32) /\
  (forall n, 4 * (size / 4) <= Z.of_nat n -> nth n r 0 = nth n dst 0).
Proof.
  intros f size src dst Hd Hs r s0.
  destruct (pixel_loop_spec f size src (Z.to_nat size) 0 dst) as [H1 [H2 H3]];
    [lia | | lia | exact Hs |].
  { rewrite Z2Nat.id by lia. assert (size / 4 <= size) by (apply Z.div_le_upper_bound; lia).
    lia. }
  split; [exact H1 | split].
  - intros k Hk Hks. apply H2; lia.
  - intros n Hn. apply H3. lia.
Qed.


Lemma mem_In : forall x l, mem x l = true -> In x l.
Proof.
  intros x l H. unfold mem in H. apply existsb_exists in H as [y [Hy Hxy]].
  apply Z.eqb_eq in Hxy. subst. exact Hy.
Qed.

Lemma swizzle_families_disjoint : forall fmt,
  mem fmt swizzle_8888_formats = true ->
  mem fmt swizzle_10_10_10_2_formats = false /\ (fmt =? DXGI_FORMAT_YUY2) = false.
Proof.
  intros fmt H. apply mem_In in H.
  repeat (destruct H as [<- | H]; [split; reflexivity |]). destruct H.
Qed.

Lemma swizzle_1010_not_yuy2 : forall fmt,
  mem fmt swizzle_10_10_10_2_formats = true -> (fmt =? DXGI_FORMAT_YUY2) = false.
Proof.
  intros fmt H. apply mem_In in H.
  repeat (destruct H as [<- | H]; [reflexivity |]). destruct H.
Qed.

Lemma length_memcpy : forall dst s n, 0 <= n -> n <= Z.of_nat (length dst) ->
  n <= Z.of_nat (length s) -> length (memcpy dst s n) = length dst.
Proof.
  intros dst s n H0 H1 H2. unfold memcpy.
  rewrite length_app, length_firstn, length_skipn. lia.
Qed.

(** C5 (amended). [SwizzleScanline] keeps the length of [dst]. Over the
    [size] bytes it handles ([outSize] in place, [min outSize inSize] when
    copying) and for scanlines of at least 4 bytes: the RGBA8/BGRA8 family
    has R and B exchanged in every whole pixel; the R10G10B10A2 family does
    so only under [TEXP_SCANLINE_LEGACY], which also reorders YUY2 bytes;
    with [TEXP_SCANLINE_SETALPHA] the alpha field is set to all ones; the
    bytes after the last whole pixel are those of [dst]. When no pixel loop
    applies, the result is [dst] in place (a no-op) and a copy of
    [min outSize inSize] bytes of [src] otherwise. In place, the BGRA8 pixel
    [0x11223344] becomes [0x11443322]. *)
Theorem SwizzleScanline_spec :
  forall dst outSize src inSize fmt tflags,
    0 <= outSize <= Z.of_nat (length dst) ->
    (forall s, src = Some s -> 0 <= inSize <= Z.of_nat (length s)) ->
    let r := SwizzleScanline dst outSize src inSize fmt tflags in
    let s0 := match src with Some s => s | None => dst end in
    let size := match src with None => outSize | Some _ => Z.min outSize inSize end in
    let alpha := has_flag tflags TEXP_SCANLINE_SETALPHA in
    le32 (SwizzleScanline (le32_bytes 0x11223344) 4 None 4
            DXGI_FORMAT_B8G8R8A8_UNORM 0) 0 = 0x11443322 /\
    length r = length dst /\
    (mem fmt swizzle_8888_formats = true -> 4 <= inSize -> 4 <= outSize ->
       forall k, 0 <= k -> 4 * k + 3 < size ->
         rb_swapped 8 alpha (le32 s0 (4 * k)) (le32 r (4 * k))) /\
    (mem fmt swizzle_10_10_10_2_formats = true -> 4 <= inSize -> 4 <= outSize ->
       has_flag tflags TEXP_SCANLINE_LEGACY = true ->
       forall k, 0 <= k -> 4 * k + 3 < size ->
         rb_swapped 10 alpha (le32 s0 (4 * k)) (le32 r (4 * k))) /\
    (fmt = DXGI_FORMAT_YUY2 -> 4 <= inSize -> 4 <= outSize ->
       has_flag tflags TEXP_SCANLINE_LEGACY = true ->
       forall k, 0 <= k -> 4 * k + 3 < size ->
         yuy2_reordered (le32 s0 (4 * k)) (le32 r (4 * k))) /\
    (swizzle_applies fmt inSize outSize tflags = true ->
       forall n, 4 * (size / 4) <= Z.of_nat n -> nth n r 0 = nth n dst 0) /\
    (swizzle_applies fmt inSize outSize tflags = false ->
       r = match src with None => dst | Some s => memcpy dst s (Z.min outSize inSize) end).
Proof.
  intros dst outSize src inSize fmt tflags Hout Hin r s0 size alpha.
  split; [vm_compute; reflexivity |].
  assert (Hsize : 0 <= size <= Z.of_nat (length dst))
    by (subst size; destruct src as [s|]; [specialize (Hin s eq_refl) |]; lia).
  assert (Hss : forall s, src = Some s -> size <= Z.of_nat (length s))
    by (intros s ->; specialize (Hin s eq_refl); subst size; lia).
  assert (Hfall : length (match src with None => dst | Some s => memcpy dst s (Z.min outSize inSize) end)
                  = length dst)
    by (destruct src as [s|]; [specialize (Hin s eq_refl); apply length_memcpy; lia | reflexivity]).
  pose proof (pixel_run_spec (swizzle_8888 tflags) size src dst Hsize Hss) as R8.
  pose proof (pixel_run_spec (swizzle_10_10_10_2 tflags) size src dst Hsize Hss) as R10.
  pose proof (pixel_run_spec swizzle_yuy2 size src dst Hsize Hss) as RY.
  cbv zeta in R8, R10, RY.
  fold s0 in R8, R10, RY.
  subst r. unfold SwizzleScanline. cbv zeta. fold size.
  pose proof (swizzle_families_disjoint fmt) as D8.
  pose proof (swizzle_1010_not_yuy2 fmt) as D10.
  unfold swizzle_applies.
  rewrite <- (Z.geb_leb inSize 4), <- (Z.geb_leb outSize 4).
  destruct (inSize >=? 4) eqn:Ei; destruct (outSize >=? 4) eqn:Eo;
    rewrite Z.geb_leb in Ei, Eo;
    [apply Z.leb_le in Ei, Eo | apply Z.leb_le in Ei; apply Z.leb_gt in Eo
    | apply Z.leb_gt in Ei; apply Z.leb_le in Eo | apply Z.leb_gt in Ei, Eo].
  all: destruct (mem fmt swizzle_10_10_10_2_formats) eqn:E10;
       destruct (mem fmt swizzle_8888_formats) eqn:E8;
       destruct (has_flag tflags TEXP_SCANLINE_LEGACY) eqn:EL;
       destruct (fmt =? DXGI_FORMAT_YUY2) eqn:EY; cbn [andb orb].
  all: split; [| split; [| split; [| split; [| split]]]]; intros.
  all: try discriminate; try reflexivity; try lia.
  all: try (destruct (D8 E8); congruence).
  all: try (pose proof (D10 E10); congruence).
  all: try (subst fmt; rewrite Z.eqb_refl in EY; discriminate).
  all: try (subst fmt; discriminate E10).
  all: try (subst fmt; discriminate E8).
  all: first [ exact (proj1 R8) | exact (proj1 R10) | exact (proj1 RY) | exact Hfall
             | rewrite (proj1 (proj2 R8)) by lia; apply swizzle_8888_swaps
             | rewrite (proj1 (proj2 R10)) by lia; apply swizzle_10_10_10_2_swaps
             | rewrite (proj1 (proj2 RY)) by lia; apply swizzle_yuy2_reorders
             | apply (proj2 (proj2 R8)); assumption
             | apply (proj2 (proj2 R10)); assumption
             | apply (proj2 (proj2 RY)); assumption ].
Qed.

(** C5: the spec's reading fails. In place and without
    [TEXP_SCANLINE_LEGACY], an R10G10B10A2 pixel with R = [0x3ff] and B = 0
    is left as it is, not R/B-swapped; and a YUY2 pixel under
    [TEXP_SCANLINE_LEGACY] is reordered, not passed through. *)
Lemma SwizzleScanline_1010102_kept_without_legacy :
  SwizzleScanline [0xff; 0x03; 0; 0] 4 None 4 DXGI_FORMAT_R10G10B10A2_UNORM 0
    = [0xff; 0x03; 0; 0] /\
  field (le32 [0xff; 0x03; 0; 0] 0) 0 10 = 0x3ff /\
  field (le32 [0xff; 0x03; 0; 0] 0) 20 10 = 0 /\
  SwizzleScanline [1; 2; 3; 4] 4 None 4 DXGI_FORMAT_YUY2 TEXP_SCANLINE_LEGACY
    = [2; 1; 4; 3].
Proof.
  split; [vm_compute; reflexivity |].
  split; [vm_compute; reflexivity |].
  split; vm_compute; reflexivity.
Qed.

Lemma SwizzleScanline_spec_witness :
  (0 <= 4 <= Z.of_nat (length (le32_bytes 0x11223344)) /\
   forall s : list Z, (None : option (list Z)) = Some s -> 0 <= 4 <= Z.of_nat (length s)) /\
  rb_swapped 8 false (le32 (le32_bytes 0x11223344) 0)
    (le32 (SwizzleScanline (le32_bytes 0x11223344) 4 None 4
             DXGI_FORMAT_B8G8R8A8_UNORM 0) 0).
Proof.
  assert (H1 : 0 <= 4 <= Z.of_nat (length (le32_bytes 0x11223344)))
    by (cbn [le32_bytes length]; lia).
  assert (H2 : forall s : list Z, (None : option (list Z)) = Some s ->
               0 <= 4 <= Z.of_nat (length s))
    by (intros s Hs; discriminate Hs).
  split; [exact (conj H1 H2) |].
  pose proof (SwizzleScanline_spec (le32_bytes 0x11223344) 4 None 4
                DXGI_FORMAT_B8G8R8A8_UNORM 0 H1 H2) as T.
  cbv zeta in T. destruct T as (_ & _ & T8 & _).
  exact (T8 eq_refl ltac:(lia) ltac:(lia) 0 ltac:(lia) ltac:(lia)).
Defined.

Lemma BitsPerPixel_range : forall fmt, 0 <= BitsPerPixel fmt <= 128.
Proof.
  intros fmt. unfold BitsPerPixel.
  repeat match goal with |- context [if ?c then _ else _] => destruct c end; lia.
Qed.

Lemma u64_small_lit : forall x, 0 <= x < 18446744073709551616 -> u64 x = x.
Proof. intros x Hx. unfold u64. apply Z.mod_small. exact Hx. Qed.

Ltac no_wrap :=
  repeat match goal with
  | |- context [u64 ?x] =>
      lazymatch x with
      | context [u64 _] => fail
      | _ => rewrite (u64_small_lit x) by (Z.div_mod_to_equations; nia)
      end
  end.

Lemma pitch_of_format_bound : forall fmt w h flags pitch slice,
  0 <= w <= 16384 -> 0 <= h <= 16384 ->
  pitch_of_format fmt w h flags = Some (pitch, slice) ->
  0 <= slice <= 2 ^ 40.
Proof.
  intros fmt w h flags pitch slice Hw Hh H.
  pose proof (BitsPerPixel_range fmt) as Hb.
  unfold pitch_of_format in H. cbv zeta in H.
  unfold add64, mul64 in H.
  rewrite ?Z.shiftr_div_pow2 in H by lia.
  change (2 ^ 1) with 2 in H. change (2 ^ 2) with 4 in H.
  change (2 ^ 40) with 1099511627776.
  repeat match type of H with context [if ?c then _ else _] => destruct c end;
    try discriminate H; injection H as <- <-; no_wrap; try (Z.div_mod_to_equations; nia).
  all: match goal with
       | |- context [u64 (?a * ?b)] =>
           assert (0 <= a <= 1048576) by (Z.div_mod_to_equations; lia);
           assert (0 <= b <= 1048576) by (Z.div_mod_to_equations; lia);
           rewrite (u64_small_lit (a * b)) by nia; nia
       end.
Qed.

Lemma ComputePitch_slice_bound : forall p fmt w h f rp sp,
  0 <= w <= 16384 -> 0 <= h <= 16384 ->
  ComputePitch p fmt w h f = PitchOk rp sp -> 0 <= sp <= 1099511627776.
Proof.
  intros p fmt w h f rp sp Hw Hh H. unfold ComputePitch in H.
  destruct (pitch_of_format fmt w h f) as [[pitch slice]|] eqn:E; [|discriminate H].
  assert (Hs : 0 <= slice <= 1099511627776)
    by (change 1099511627776 with (2 ^ 40); exact (pitch_of_format_bound _ _ _ _ _ _ Hw Hh E)).
  destruct p; [destruct ((pitch >? UINT32_MAX) || (slice >? UINT32_MAX)) |];
    try discriminate H; injection H as <- <-; exact Hs.
Qed.

Lemma shrink_range : forall d M, 1 <= d <= M -> 1 <= shrink d <= M.
Proof.
  intros d M Hd. unfold shrink. destruct (d >? 1) eqn:E; [|lia].
  apply Z.gtb_lt in E. rewrite Z.shiftr_div_pow2 by lia. change (2 ^ 1) with 2.
  Z.div_mod_to_equations. lia.
Qed.

Lemma tiles_app : forall a b s m e, tiles a s m -> tiles b m e -> tiles (a ++ b) s e.
Proof.
  induction a as [|i a IH]; intros b s m e Ha Hb; cbn [tiles app] in *.
  - subst. exact Hb.
  - destruct Ha as [Hp Ha]. split; [exact Hp | exact (IH _ _ _ _ Ha Hb)].
Qed.

Lemma size_wrap_succ : forall p n, 0 <= n -> n + 1 < 2 ^ size_bits p ->
  size_wrap p (n + 1) = n + 1.
Proof. intros p n H0 H1. unfold size_wrap. apply Z.mod_small. lia. Qed.


Section PlanSetup.
Variable p : platform.
Variable fmt cpFlags pixelSize nImages : Z.

Lemma levels_ok : forall levels w h total n t' n' c,
  1 <= w <= 16384 -> 1 <= h <= 16384 -> 0 <= total -> 0 <= n ->
  total + Z.of_nat levels * 1099511627776 < 18446744073709551616 ->
  n + Z.of_nat levels < 2 ^ size_bits p ->
  plan_levels p fmt cpFlags levels w h total n = Some (t', n') ->
  n' = n + Z.of_nat levels /\
  total <= t' <= total + Z.of_nat levels * 1099511627776 /\
  (c_index c = n -> c_pixels c = total -> t' <= pixelSize -> n' <= nImages ->
   exists imgs,
     setup_levels p fmt cpFlags pixelSize nImages levels w h c
       = Some (mkCursor n' t' (c_images c ++ imgs)) /\
     tiles imgs total t' /\ length imgs = levels).
Proof.
  induction levels as [|l IH]; intros w h total n t' n' c Hw Hh Ht Hn Htb Hnb Hp.
  - cbn [plan_levels] in Hp. injection Hp as <- <-.
    split; [lia | split; [lia |]]. intros Hi Hx _ _.
    exists []. destruct c as [ci cx cl]; cbn in Hi, Hx |- *. subst.
    rewrite app_nil_r. split; [reflexivity | split; reflexivity].
  - rewrite Nat2Z.inj_succ in Htb, Hnb.
    cbn [plan_levels] in Hp.
    destruct (ComputePitch p fmt w h cpFlags) as [rp sp|hr] eqn:Ecp; [|discriminate Hp].
    assert (Hsp : 0 <= sp <= 1099511627776)
      by (apply (ComputePitch_slice_bound p fmt w h cpFlags rp sp); [lia | lia | exact Ecp]).
    unfold add64 in Hp. rewrite u64_small_lit in Hp by lia.
    rewrite size_wrap_succ in Hp by lia.
    destruct (IH (shrink w) (shrink h) (total + sp) (n + 1) t' n'
                 ((mkCursor (n + 1) (total + sp) (c_images c ++ [mkImage w h fmt rp sp total]))))
      as (Hn' & Ht' & Hs); try apply shrink_range; try lia; try exact Hp.
    split; [lia | split; [lia |]].
    intros Hi Hx Hle Hni.
    destruct (Hs eq_refl eq_refl Hle Hni) as (imgs & Hset & Htl & Hlen).
    exists (mkImage w h fmt rp sp total :: imgs).
    cbn [setup_levels]. rewrite Hi.
    replace (n >=? nImages) with false by (symmetry; rewrite Z.geb_leb; apply Z.leb_gt; lia).
    rewrite Ecp. unfold setup_one. rewrite Hi, Hx.
    replace (n >=? nImages) with false by (symmetry; rewrite Z.geb_leb; apply Z.leb_gt; lia).
    replace (total + sp >? pixelSize) with false by (symmetry; rewrite Z.gtb_ltb; apply Z.ltb_ge; lia).
    rewrite Hset. cbn [c_images]. rewrite <- app_assoc. cbn [app].
    split; [reflexivity | split; [split; [reflexivity | exact Htl] | cbn [length]; lia]].
Qed.

Lemma items_ok : forall items w h levels total n t' n',
  1 <= w <= 16384 -> 1 <= h <= 16384 -> 0 <= total -> 0 <= n ->
  total + Z.of_nat items * (Z.of_nat levels * 1099511627776) < 18446744073709551616 ->
  n + Z.of_nat items * Z.of_nat levels < 2 ^ size_bits p ->
  plan_items p fmt cpFlags items w h levels total n = Some (t', n') ->
  n' = n + Z.of_nat items * Z.of_nat levels /\ total <= t' /\
  (forall c, c_index c = n -> c_pixels c = total -> t' <= pixelSize -> n' <= nImages ->
   exists imgs,
     setup_items p fmt cpFlags pixelSize nImages items w h levels c
       = Some (mkCursor n' t' (c_images c ++ imgs)) /\
     tiles imgs total t' /\
     Z.of_nat (length imgs) = Z.of_nat items * Z.of_nat levels).
Proof.
  induction items as [|i IH]; intros w h levels total n t' n' Hw Hh Ht Hn Htb Hnb Hp.
  - cbn [plan_items] in Hp. injection Hp as <- <-.
    split; [lia | split; [lia |]]. intros c Hi Hx _ _.
    exists []. destruct c as [ci cx cl]; cbn in Hi, Hx |- *. subst.
    rewrite app_nil_r. split; [reflexivity | split; reflexivity].
  - rewrite Nat2Z.inj_succ in Htb, Hnb.
    assert (0 <= Z.of_nat i * (Z.of_nat levels * 1099511627776)) by nia.
    assert (0 <= Z.of_nat i * Z.of_nat levels) by nia.
    cbn [plan_items] in Hp.
    destruct (plan_levels p fmt cpFlags levels w h total n) as [[t1 n1]|] eqn:El;
      [|discriminate Hp].
    assert (Hl := fun c => levels_ok levels w h total n t1 n1 c Hw Hh Ht Hn
                             ltac:(nia) ltac:(nia) El).
    destruct (Hl (mkCursor 0 0 [])) as (Hn1 & Ht1 & _).
    destruct (IH w h levels t1 n1 t' n' Hw Hh ltac:(lia) ltac:(lia)
                ltac:(nia) ltac:(nia) Hp) as (Hn' & Ht' & Hs).
    split; [nia | split; [lia |]].
    intros c Hi Hx Hle Hni.
    destruct (Hl c) as (_ & _ & Hs1).
    destruct (Hs1 Hi Hx ltac:(lia) ltac:(nia)) as (imgs1 & Hset1 & Htl1 & Hlen1).
    destruct (Hs (mkCursor n1 t1 (c_images c ++ imgs1)) eq_refl eq_refl Hle Hni)
      as (imgs2 & Hset2 & Htl2 & Hlen2).
    exists (imgs1 ++ imgs2).
    cbn [setup_items]. rewrite Hset1, Hset2. cbn [c_images]. rewrite app_assoc.
    split; [reflexivity | split; [exact (tiles_app _ _ _ _ _ Htl1 Htl2) |]].
    rewrite length_app, Nat2Z.inj_add, Hlen1, Hlen2. lia.
Qed.

Lemma slices_ok : forall s w h rp sp total n,
  0 <= sp -> 0 <= total -> 0 <= n ->
  total + Z.of_nat s * sp < 18446744073709551616 ->
  n + Z.of_nat s < 2 ^ size_bits p ->
  plan_slices p s sp total n = (total + Z.of_nat s * sp, n + Z.of_nat s) /\
  (forall c, c_index c = n -> c_pixels c = total ->
   total + Z.of_nat s * sp <= pixelSize -> n + Z.of_nat s <= nImages ->
   exists imgs,
     setup_slices fmt pixelSize nImages s w h rp sp c
       = Some (mkCursor (n + Z.of_nat s) (total + Z.of_nat s * sp) (c_images c ++ imgs)) /\
     tiles imgs total (total + Z.of_nat s * sp) /\ length imgs = s).
Proof.
  induction s as [|k IH]; intros w h rp sp total n Hsp Ht Hn Htb Hnb.
  - cbn [plan_slices Z.of_nat]. rewrite Z.mul_0_l, !Z.add_0_r.
    split; [reflexivity |]. intros c Hi Hx _ _.
    exists []. destruct c as [ci cx cl]; cbn in Hi, Hx |- *. subst.
    rewrite app_nil_r. split; [reflexivity | split; reflexivity].
  - rewrite Nat2Z.inj_succ in *.
    assert (0 <= Z.of_nat k * sp) by nia.
    replace (total + Z.succ (Z.of_nat k) * sp) with (total + sp + Z.of_nat k * sp) in * by nia.
    replace (n + Z.succ (Z.of_nat k)) with (n + 1 + Z.of_nat k) in * by lia.
    destruct (IH w h rp sp (total + sp) (n + 1) Hsp ltac:(lia) ltac:(lia) Htb Hnb)
      as (Hp & Hs).
    cbn [plan_slices]. unfold add64. rewrite u64_small_lit by lia.
    rewrite size_wrap_succ by lia.
    split; [exact Hp |].
    intros c Hi Hx Hle Hni.
    destruct (Hs (mkCursor (n + 1) (total + sp)
                   (c_images c ++ [mkImage w h fmt rp sp total])) eq_refl eq_refl Hle Hni)
      as (imgs & Hset & Htl & Hlen).
    exists (mkImage w h fmt rp sp total :: imgs).
    cbn [setup_slices]. unfold setup_one. rewrite Hi, Hx.
    replace (n >=? nImages) with false by (symmetry; rewrite Z.geb_leb; apply Z.leb_gt; lia).
    replace (total + sp >? pixelSize) with false by (symmetry; rewrite Z.gtb_ltb; apply Z.ltb_ge; lia).
    rewrite Hset. cbn [c_images]. rewrite <- app_assoc. cbn [app].
    split; [reflexivity | split; [split; [reflexivity | exact Htl] | cbn [length]; lia]].
Qed.

Lemma volume_ok : forall levels w h d total n t' n',
  1 <= w <= 16384 -> 1 <= h <= 16384 -> 1 <= d <= 2048 -> 0 <= total -> 0 <= n ->
  total + Z.of_nat levels * 2251799813685248 < 18446744073709551616 ->
  n + Z.of_nat levels * 2048 < 2 ^ size_bits p ->
  plan_volume p fmt cpFlags levels w h d total n = Some (t', n') ->
  n <= n' /\ total <= t' /\
  (forall c, c_index c = n -> c_pixels c = total -> t' <= pixelSize -> n' <= nImages ->
   exists imgs,
     setup_volume p fmt cpFlags pixelSize nImages levels w h d c
       = Some (mkCursor n' t' (c_images c ++ imgs)) /\
     tiles imgs total t' /\ Z.of_nat (length imgs) = n' - n).
Proof.
  induction levels as [|l IH]; intros w h d total n t' n' Hw Hh Hd Ht Hn Htb Hnb Hp.
  - cbn [plan_volume] in Hp. injection Hp as <- <-.
    split; [lia | split; [lia |]]. intros c Hi Hx _ _.
    exists []. destruct c as [ci cx cl]; cbn in Hi, Hx |- *. subst.
    rewrite app_nil_r. split; [reflexivity | split; [reflexivity | lia]].
  - rewrite Nat2Z.inj_succ in Htb, Hnb.
    cbn [plan_volume] in Hp.
    destruct (ComputePitch p fmt w h cpFlags) as [rp sp|hr] eqn:Ecp; [|discriminate Hp].
    assert (Hsp : 0 <= sp <= 1099511627776)
      by (apply (ComputePitch_slice_bound p fmt w h cpFlags rp sp); [lia | lia | exact Ecp]).
    assert (Hds : 0 <= d * sp <= 2251799813685248) by nia.
    assert (HD : Z.of_nat (Z.to_nat d) = d) by (apply Z2Nat.id; lia).
    destruct (slices_ok (Z.to_nat d) w h rp sp total n ltac:(lia) Ht Hn
                ltac:(rewrite HD; lia) ltac:(rewrite HD; lia)) as (Hps & Hss).
    rewrite HD in Hps, Hss. rewrite Hps in Hp. cbv beta iota in Hp.
    destruct (IH (shrink w) (shrink h) (shrink d) (total + d * sp) (n + d) t' n')
      as (Hn' & Ht' & Hs);
      try apply shrink_range; try lia; try exact Hp.
    split; [lia | split; [lia |]].
    intros c Hi Hx Hle Hni.
    destruct (Hss c Hi Hx ltac:(lia) ltac:(lia)) as (imgs1 & Hset1 & Htl1 & Hlen1).
    destruct (Hs (mkCursor (n + d) (total + d * sp) (c_images c ++ imgs1))
                eq_refl eq_refl Hle Hni) as (imgs2 & Hset2 & Htl2 & Hlen2).
    exists (imgs1 ++ imgs2).
    cbn [setup_volume]. rewrite Ecp, Hset1, Hset2. cbn [c_images]. rewrite app_assoc.
    split; [reflexivity | split; [exact (tiles_app _ _ _ _ _ Htl1 Htl2) |]].
    rewrite length_app, Nat2Z.inj_add, Hlen1, Hlen2. lia.
Qed.
End PlanSetup.

Lemma size_pow_ge32 : forall p, 4294967296 <= 2 ^ size_bits p.
Proof. intros []; cbn; lia. Qed.

(** C6. For valid metadata, whenever [DetermineImageArray] plans
    [nImages] subresources over [pixelSize] bytes, [SetupImageArray] on a
    buffer of exactly [pixelSize] bytes with [nImages] descriptors succeeds,
    writes [nImages] descriptors, and their byte ranges tile
    [[0, pixelSize)]: the last one ends exactly at [pixelSize]. Both
    functions are pure functions of their arguments here, so repeated calls
    agree. *)
Theorem DetermineImageArray_SetupImageArray_exact :
  forall p m cpFlags nImages pixelSize,
    valid_metadata m ->
    DetermineImageArray p m cpFlags = Some (nImages, pixelSize) ->
    exists imgs,
      SetupImageArray p pixelSize m cpFlags nImages = Some imgs /\
      Z.of_nat (length imgs) = nImages /\ tiles imgs 0 pixelSize.
Proof.
  intros p m cpFlags nImages pixelSize Hv H.
  destruct Hv as (Hw & Hh & Hd & Ha & Hm).
  pose proof (size_pow_ge32 p) as Hsb.
  assert (HA : Z.of_nat (Z.to_nat (arraySize m)) = arraySize m) by (apply Z2Nat.id; lia).
  assert (HM : Z.of_nat (Z.to_nat (mipLevels m)) = mipLevels m) by (apply Z2Nat.id; lia).
  assert (Hfin : forall (r : option (Z * Z)) t n,
             r = Some (t, n) ->
             match r with
             | None => None
             | Some (total, n) =>
                 match p with
                 | Win32 => if total >? UINT32_MAX then None else Some (n, total)
                 | Win64 => Some (n, total)
                 end
             end = Some (nImages, pixelSize) -> n = nImages /\ t = pixelSize).
  { intros r t n -> Hr. destruct p; [destruct (t >? UINT32_MAX) |];
      try discriminate Hr; injection Hr as <- <-; split; reflexivity. }
  unfold DetermineImageArray in H. unfold SetupImageArray.
  destruct ((dimension m =? TEX_DIMENSION_TEXTURE1D) ||
            (dimension m =? TEX_DIMENSION_TEXTURE2D)) eqn:E12.
  - destruct (plan_items p (format m) cpFlags (Z.to_nat (arraySize m)) (width m) (height m)
                (Z.to_nat (mipLevels m)) 0 0) as [[t n]|] eqn:Ep; [|discriminate H].
    destruct (Hfin _ t n eq_refl H) as [<- <-].
    destruct (items_ok p (format m) cpFlags t n (Z.to_nat (arraySize m)) (width m) (height m)
                (Z.to_nat (mipLevels m)) 0 0 t n Hw Hh
                ltac:(lia) ltac:(lia) ltac:(rewrite HA, HM; nia)
                ltac:(rewrite HA, HM; nia) Ep) as (Hn & _ & Hs).
    destruct (Hs (mkCursor 0 0 []) eq_refl eq_refl ltac:(lia) ltac:(lia))
      as (imgs & Hset & Htl & Hlen).
    replace ((arraySize m =? 0) || (mipLevels m =? 0)) with false
      by (symmetry; apply orb_false_iff; split; apply Z.eqb_neq; lia).
    rewrite Hset. exists imgs. cbn [option_map c_images app].
    split; [reflexivity | split; [lia | exact Htl]].
  - destruct (dimension m =? TEX_DIMENSION_TEXTURE3D) eqn:E3; [|discriminate H].
    destruct (plan_volume p (format m) cpFlags (Z.to_nat (mipLevels m))
                (width m) (height m) (depth m) 0 0) as [[t n]|] eqn:Ep; [|discriminate H].
    destruct (Hfin _ t n eq_refl H) as [<- <-].
    destruct (volume_ok p (format m) cpFlags t n (Z.to_nat (mipLevels m)) (width m) (height m)
                (depth m) 0 0 t n Hw Hh Hd
                ltac:(lia) ltac:(lia) ltac:(rewrite HM; nia)
                ltac:(rewrite HM; nia) Ep) as (Hn & _ & Hs).
    destruct (Hs (mkCursor 0 0 []) eq_refl eq_refl ltac:(lia) ltac:(lia))
      as (imgs & Hset & Htl & Hlen).
    replace ((mipLevels m =? 0) || (depth m =? 0)) with false
      by (symmetry; apply orb_false_iff; split; apply Z.eqb_neq; lia).
    rewrite Hset. exists imgs. cbn [option_map c_images app].
    split; [reflexivity | split; [lia | exact Htl]].
Qed.

Lemma DetermineImageArray_SetupImageArray_exact_witness :
  valid_metadata rgba_array_metadata /\
  DetermineImageArray Win64 rgba_array_metadata CP_FLAGS_NONE = Some (6, 144) /\
  exists imgs,
    SetupImageArray Win64 144 rgba_array_metadata CP_FLAGS_NONE 6 = Some imgs /\
    Z.of_nat (length imgs) = 6 /\ tiles imgs 0 144.
Proof.
  assert (Hv : valid_metadata rgba_array_metadata)
    by (unfold valid_metadata, rgba_array_metadata; cbn; lia).
  assert (Hd : DetermineImageArray Win64 rgba_array_metadata CP_FLAGS_NONE = Some (6, 144))
    by (vm_compute; reflexivity).
  split; [exact Hv | split; [exact Hd |]].
  exact (DetermineImageArray_SetupImageArray_exact Win64 rgba_array_metadata
           CP_FLAGS_NONE 6 144 Hv Hd).
Defined.

(** * Further properties of the decoder *)

Lemma MakeSRGB_cases : forall fmt,
  MakeSRGB fmt = fmt \/
  (fmt, MakeSRGB fmt) = (28, 29) \/ (fmt, MakeSRGB fmt) = (71, 72) \/
  (fmt, MakeSRGB fmt) = (74, 75) \/ (fmt, MakeSRGB fmt) = (77, 78) \/
  (fmt, MakeSRGB fmt) = (87, 91) \/ (fmt, MakeSRGB fmt) = (88, 93) \/
  (fmt, MakeSRGB fmt) = (98, 99).
Proof.
  intro fmt. unfold MakeSRGB.
  repeat match goal with
  | |- context [if ?a =? ?b then _ else _] => destruct (Z.eqb_spec a b) as [->|?]
  end; cbv; tauto.
Qed.

Lemma MakeSRGB_props : forall fmt,
  IsValid (MakeSRGB fmt) = IsValid fmt /\
  IsPalettized (MakeSRGB fmt) = IsPalettized fmt /\
  IsCompressed (MakeSRGB fmt) = IsCompressed fmt /\
  BitsPerPixel (MakeSRGB fmt) = BitsPerPixel fmt /\
  MakeSRGB (MakeSRGB fmt) = MakeSRGB fmt.
Proof.
  intro fmt. destruct (MakeSRGB_cases fmt) as [E|[E|[E|[E|[E|[E|[E|E]]]]]]];
    [rewrite !E; tauto|..]; injection E as -> E; rewrite E; vm_compute; tauto.
Qed.

(** [MakeSRGB] only moves a format to its sRGB twin: validity,
    palettization, block compression and bits per pixel are unchanged,
    and a second application does nothing. *)
Theorem MakeSRGB_preserves : forall fmt,
  IsValid (MakeSRGB fmt) = IsValid fmt /\
  IsPalettized (MakeSRGB fmt) = IsPalettized fmt /\
  IsCompressed (MakeSRGB fmt) = IsCompressed fmt /\
  BitsPerPixel (MakeSRGB fmt) = BitsPerPixel fmt /\
  MakeSRGB (MakeSRGB fmt) = MakeSRGB fmt.
Proof. exact MakeSRGB_props. Qed.

Lemma legacy_table_ok :
  forallb (fun e => IsValid (lg_format e) && negb (IsPalettized (lg_format e)) &&
                    negb (has_flag (lg_convFlags e) CONV_FLAGS_DX10)) g_LegacyDDSMap = true.
Proof. vm_compute. reflexivity. Qed.

Lemma GetDXGIFormat_result : forall hdr ddpf cf fmt cf',
  GetDXGIFormat hdr ddpf cf = (fmt, cf') ->
  (fmt = DXGI_FORMAT_UNKNOWN /\ cf' = cf) \/
  (IsValid fmt = true /\ IsPalettized fmt = false /\
   has_flag cf' CONV_FLAGS_DX10 = false).
Proof.
  intros hdr ddpf cf fmt cf' H. unfold GetDXGIFormat in H.
  destruct (find _ g_LegacyDDSMap) as [e|] eqn:F.
  - right. apply find_some in F as [Hin _].
    pose proof legacy_table_ok as T. rewrite forallb_forall in T.
    specialize (T e Hin). apply andb_true_iff in T as [T T3].
    apply andb_true_iff in T as [T1 T2]. apply negb_true_iff in T2, T3.
    injection H as <- <-. split; [|split]; [..|exact T3];
    destruct (_ && _);
      try (pose proof (MakeSRGB_props (lg_format e)) as [P1 [P2 _]];
           rewrite ?P1, ?P2); assumption.
  - left. injection H as <- <-. split; reflexivity.
Qed.

Lemma has_flag_lor_same : forall x f, f <> 0 -> has_flag (Z.lor x f) f = true.
Proof.
  intros x f Hf. unfold has_flag.
  replace (Z.land (Z.lor x f) f) with f.
  - apply negb_true_iff, Z.eqb_neq. exact Hf.
  - apply Z.bits_inj'. intros n _. rewrite Z.land_spec, Z.lor_spec. btauto.
Qed.

Lemma has_flag_cleared_cube : forall x,
  has_flag (Z.land x (Z.lxor TEX_MISC_TEXTURECUBE (2 ^ 32 - 1))) TEX_MISC_TEXTURECUBE = false.
Proof.
  intro x. unfold has_flag. rewrite <- Z.land_assoc.
  change (Z.land (Z.lxor TEX_MISC_TEXTURECUBE (2 ^ 32 - 1)) TEX_MISC_TEXTURECUBE) with 0.
  rewrite Z.land_0_r. reflexivity.
Qed.

Ltac decode_cases H :=
  repeat match type of H with
  | context [if ?c then _ else _] => let E := fresh "E" in destruct c eqn:E
  end;
  try discriminate H.

(** Whatever [DecodeDDSHeader] accepts has a valid, non-palettized
    format and a shape consistent with its dimension: a 1D texture has
    height and depth 1, a 2D texture depth 1, a 3D texture array size 1. *)
Theorem DecodeDDSHeader_shape :
  forall p buf size cf m cf',
    DecodeDDSHeader p buf size cf = Some (m, cf') ->
    IsValid (format m) = true /\ IsPalettized (format m) = false /\
    ((dimension m = TEX_DIMENSION_TEXTURE1D /\ height m = 1 /\ depth m = 1) \/
     (dimension m = TEX_DIMENSION_TEXTURE2D /\ depth m = 1) \/
     (dimension m = TEX_DIMENSION_TEXTURE3D /\ arraySize m = 1)).
Proof.
  intros p buf size cf m cf' H.
  unfold DecodeDDSHeader in H.
  set (hdr := read_header buf 4) in H.
  set (ext := read_dxt10 buf (4 + sizeof_DDS_HEADER)) in H.
  assert (Ha : 0 <= dx10_arraySize ext < 2 ^ 32) by apply le32_range.
  clearbody hdr ext.
  destruct (GetDXGIFormat hdr (ddspf hdr) cf) as [gf gcf] eqn:G.
  apply GetDXGIFormat_result in G.
  decode_cases H.
  all: injection H as <- <-;
       cbn [format dimension height depth arraySize SetAlphaMode] in *.
  all: repeat match goal with
    | E : (_ || _) = false |- _ => apply orb_false_iff in E as [? ?]
    | E : negb _ = false |- _ => apply negb_false_iff in E
    | E : (_ >? _) = false |- _ => rewrite Z.gtb_ltb, Z.ltb_ge in E
    | E : (_ =? _) = true |- _ => apply Z.eqb_eq in E
    | E : (_ =? _) = false |- _ => apply Z.eqb_neq in E
    end.
  all: try (destruct G as [[? _] | [G1 [G2 _]]]; [contradiction | rewrite G1, G2]).
  all: try (split; [assumption | split; [assumption |]]).
  all: try (split; [reflexivity | split; [reflexivity |]]).
  all: try (left; repeat split; reflexivity).
  all: try (right; left; repeat split; reflexivity).
  all: right; right; split; [reflexivity | lia].
Qed.

(** On a 64-bit build, metadata that [DecodeDDSHeader] marks as a cube
    map is 2D and its array size is a positive multiple of 6. *)
Theorem DecodeDDSHeader_cube :
  forall buf size cf m cf',
    DecodeDDSHeader Win64 buf size cf = Some (m, cf') ->
    IsCubemap m = true ->
    dimension m = TEX_DIMENSION_TEXTURE2D /\ 6 <= arraySize m /\ arraySize m mod 6 = 0.
Proof.
  intros buf size cf m cf' H C.
  unfold DecodeDDSHeader in H.
  set (hdr := read_header buf 4) in H.
  set (ext := read_dxt10 buf (4 + sizeof_DDS_HEADER)) in H.
  assert (Ha : 0 <= dx10_arraySize ext < 2 ^ 32) by apply le32_range.
  clearbody hdr ext.
  destruct (GetDXGIFormat hdr (ddspf hdr) cf) as [gf gcf].
  decode_cases H.
  all: injection H as <- <-;
       unfold IsCubemap in C;
       cbn [miscFlags dimension arraySize SetAlphaMode] in *.
  all: try (rewrite has_flag_cleared_cube in C; discriminate C).
  all: try (match type of C with has_flag 0 _ = _ => vm_compute in C; discriminate C end).
  all: repeat match goal with
    | E : (_ =? _) = false |- _ => apply Z.eqb_neq in E
    end.
  all: split; [reflexivity |].
  all: try (split; [lia | reflexivity]).
  all: unfold size_wrap, size_bits; rewrite Z.mod_small by lia.
  all: rewrite Z.mod_mul by lia; lia.
Qed.

(** The [convFlags] that [DecodeDDSHeader] returns carry [CONV_FLAGS_DX10]
    exactly when the pixel format announces the DX10 extension header,
    whatever flags were passed in. *)
Theorem DecodeDDSHeader_dx10_flag :
  forall p buf size cf m cf',
    DecodeDDSHeader p buf size cf = Some (m, cf') ->
    has_flag cf' CONV_FLAGS_DX10 =
    has_flag (pf_flags (ddspf (read_header buf 4))) DDS_FOURCC &&
    (fourCC DDSPF_DX10 =? fourCC (ddspf (read_header buf 4))).
Proof.
  intros p buf size cf m cf' H.
  unfold DecodeDDSHeader in H.
  set (hdr := read_header buf 4) in *.
  set (ext := read_dxt10 buf (4 + sizeof_DDS_HEADER)) in H.
  clearbody hdr ext.
  destruct (GetDXGIFormat hdr (ddspf hdr) cf) as [gf gcf] eqn:G.
  apply GetDXGIFormat_result in G.
  decode_cases H.
  all: injection H as _ <-.
  all: try match goal with
       | E : has_flag _ DDS_FOURCC && _ = ?b |- _ => rewrite E
       end.
  all: try (apply has_flag_lor_same; discriminate).
  all: repeat match goal with E : (_ =? _) = false |- _ => apply Z.eqb_neq in E end.
  all: destruct G as [[? _] | [_ [_ G3]]]; [contradiction | exact G3].
Qed.

Lemma DecodeDDSHeader_shape_witness :
  exists m cf,
    DecodeDDSHeader Win64 cube_file 148 0 = Some (m, cf) /\
    IsValid (format m) = true /\ IsPalettized (format m) = false /\
    ((dimension m = TEX_DIMENSION_TEXTURE1D /\ height m = 1 /\ depth m = 1) \/
     (dimension m = TEX_DIMENSION_TEXTURE2D /\ depth m = 1) \/
     (dimension m = TEX_DIMENSION_TEXTURE3D /\ arraySize m = 1)).
Proof.
  do 2 eexists. split; [vm_compute; reflexivity |].
  eapply (DecodeDDSHeader_shape Win64 cube_file 148 0).
  vm_compute. reflexivity.
Defined.

Lemma DecodeDDSHeader_cube_witness :
  exists m cf,
    DecodeDDSHeader Win64 cube_file 148 0 = Some (m, cf) /\ IsCubemap m = true /\
    dimension m = TEX_DIMENSION_TEXTURE2D /\ 6 <= arraySize m /\ arraySize m mod 6 = 0.
Proof.
  do 2 eexists. split; [vm_compute; reflexivity |].
  split; [vm_compute; reflexivity |].
  eapply (DecodeDDSHeader_cube cube_file 148 0); vm_compute; reflexivity.
Defined.

Lemma DecodeDDSHeader_dx10_flag_witness :
  exists m cf,
    DecodeDDSHeader Win64 cube_file 148 0 = Some (m, cf) /\
    has_flag cf CONV_FLAGS_DX10 =
    has_flag (pf_flags (ddspf (read_header cube_file 4))) DDS_FOURCC &&
    (fourCC DDSPF_DX10 =? fourCC (ddspf (read_header cube_file 4))).
Proof.
  do 2 eexists. split; [vm_compute; reflexivity |].
  eapply (DecodeDDSHeader_dx10_flag Win64 cube_file 148 0).
  vm_compute. reflexivity.
Defined.

Lemma count_mips_loop_ge : forall fuel w h n, n <= count_mips_loop fuel w h n.
Proof.
  induction fuel as [|fuel IH]; intros w h n; simpl; [lia|].
  destruct (_ || _); [specialize (IH (if w >? 1 then Z.shiftr w 1 else w)
                       (if h >? 1 then Z.shiftr h 1 else h) (n + 1)); lia | lia].
Qed.

Lemma count_mips3d_loop_ge : forall fuel w h d n, n <= count_mips3d_loop fuel w h d n.
Proof.
  induction fuel as [|fuel IH]; intros w h d n; simpl; [lia|].
  destruct (_ || _); [specialize (IH (shrink w) (shrink h) (shrink d) (n + 1)); lia | lia].
Qed.

Lemma count_mips3d_loop_flat : forall fuel w h n,
  count_mips3d_loop fuel w h 1 n = count_mips_loop fuel w h n.
Proof.
  induction fuel as [|fuel IH]; intros w h n; [reflexivity|].
  simpl. rewrite orb_false_r. fold (shrink h) (shrink w).
  destruct (_ || _); [apply IH | reflexivity].
Qed.

Lemma count_mips_loop_fuel : forall f1 f2 w h n,
  1 <= w -> 1 <= h -> w + h <= Z.of_nat f1 + 2 -> w + h <= Z.of_nat f2 + 2 ->
  count_mips_loop f1 w h n = count_mips_loop f2 w h n.
Proof.
  intros f1 f2 w h n Hw Hh H1 H2.
  destruct (count_mips_loop_spec f1 w h n Hw Hh H1) as [k1 [E1 [K1 J1]]].
  destruct (count_mips_loop_spec f2 w h n Hw Hh H2) as [k2 [E2 [K2 J2]]].
  rewrite E1, E2. destruct (Nat.lt_trichotomy k1 k2) as [L | [L | L]].
  - exfalso. exact (J2 k1 L K1).
  - subst. reflexivity.
  - exfalso. exact (J1 k2 L K2).
Qed.

(** For positive width and height, [CountMips3D] with a depth of 1
    counts the same mip levels as [CountMips]. *)
Theorem CountMips3D_depth_one : forall w h, 1 <= w -> 1 <= h ->
  CountMips3D w h 1 = CountMips w h.
Proof.
  intros w h Hw Hh. unfold CountMips3D, CountMips.
  rewrite count_mips3d_loop_flat. apply count_mips_loop_fuel; lia.
Qed.

Lemma CountMips3D_depth_one_witness : CountMips3D 5 3 1 = CountMips 5 3.
Proof. exact (CountMips3D_depth_one 5 3 ltac:(lia) ltac:(lia)). Defined.

(** [CalculateMipLevels] and [CalculateMipLevels3D] reject a requested
    mip count exactly when it exceeds the full chain; an accepted count
    lies in [[1, full chain]] and is the requested one, or the full chain
    when 0 was requested. *)
Theorem CalculateMipLevels_result : forall w h d mip, 0 <= mip ->
  (CalculateMipLevels w h mip = None <-> CountMips w h < mip) /\
  (forall n, CalculateMipLevels w h mip = Some n ->
     1 <= n <= CountMips w h /\ (n = mip \/ mip = 0 /\ n = CountMips w h)) /\
  (CalculateMipLevels3D w h d mip = None <-> CountMips3D w h d < mip) /\
  (forall n, CalculateMipLevels3D w h d mip = Some n ->
     1 <= n <= CountMips3D w h d /\ (n = mip \/ mip = 0 /\ n = CountMips3D w h d)).
Proof.
  intros w h d mip Hm.
  pose proof (count_mips_loop_ge (Z.to_nat (w + h)) w h 1) as C2.
  pose proof (count_mips3d_loop_ge (Z.to_nat (w + h + d)) w h d 1) as C3.
  unfold CalculateMipLevels, CalculateMipLevels3D.
  fold (CountMips w h) in C2. fold (CountMips3D w h d) in C3.
  destruct (Z.gtb_spec mip 1);
    [destruct (Z.gtb_spec mip (CountMips w h)), (Z.gtb_spec mip (CountMips3D w h d))
    | destruct (Z.eqb_spec mip 0)].
  all: repeat split; intros; try discriminate; try lia.
  all: match goal with E : Some _ = Some _ |- _ => injection E as <- end; lia.
Qed.

Lemma CalculateMipLevels_result_witness :
  (CalculateMipLevels 5 3 4 = None <-> CountMips 5 3 < 4) /\
  (forall n, CalculateMipLevels 5 3 4 = Some n ->
     1 <= n <= CountMips 5 3 /\ (n = 4 \/ 4 = 0 /\ n = CountMips 5 3)) /\
  (CalculateMipLevels3D 5 3 2 4 = None <-> CountMips3D 5 3 2 < 4) /\
  (forall n, CalculateMipLevels3D 5 3 2 4 = Some n ->
     1 <= n <= CountMips3D 5 3 2 /\ (n = 4 \/ 4 = 0 /\ n = CountMips3D 5 3 2)).
Proof. exact (CalculateMipLevels_result 5 3 2 4 ltac:(lia)). Defined.

Lemma Initialize_cases : forall p alloc_ok mdata flags,
  (exists img, Initialize p alloc_ok mdata flags = (S_OK, Some img)) \/
  (exists hr, Initialize p alloc_ok mdata flags = (hr, None) /\
              (hr = E_INVALIDARG \/ hr = E_FAIL \/ hr = E_OUTOFMEMORY)).
Proof.
  intros p alloc_ok mdata flags. unfold Initialize.
  destruct (negb (IsValid (format mdata))); [right; eexists; split; [reflexivity | tauto]|].
  destruct (IsPalettized (format mdata)); [right; eexists; split; [reflexivity | tauto]|].
  match goal with |- context [match ?x with inl _ => _ | inr _ => _ end] =>
    remember x as mips eqn:Em end.
  assert (Hm : forall hr, mips = inl hr -> hr = E_INVALIDARG \/ hr = E_FAIL).
  { intros hr ->. symmetry in Em.
    repeat match type of Em with
    | context [if ?c then _ else _] => destruct c
    | context [match ?x with Some _ => _ | None => _ end] => destruct x
    end; try discriminate Em; injection Em as <-; tauto. }
  destruct mips as [hr|n]; [right; eexists; split; [reflexivity | destruct (Hm hr eq_refl); tauto]|].
  destruct (DetermineImageArray _ _ _) as [[ni ps]|];
    [|right; eexists; split; [reflexivity | tauto]].
  destruct (negb (alloc_ok _)); [right; eexists; split; [reflexivity | tauto]|].
  destruct (negb (alloc_ok _)); [right; eexists; split; [reflexivity | tauto]|].
  destruct (SetupImageArray _ _ _ _ _); [left; eexists; reflexivity|].
  right; eexists; split; [reflexivity | tauto].
Qed.

(** [Initialize] produces a [ScratchImage] exactly when the HRESULT it
    returns is not [FAILED]; a produced image always comes with [S_OK],
    and every failure returns [E_INVALIDARG], [E_FAIL] or
    [E_OUTOFMEMORY]. *)
Theorem Initialize_status : forall p alloc_ok mdata flags,
  let r := Initialize p alloc_ok mdata flags in
  (snd r = None <-> FAILED (fst r) = true) /\
  (snd r <> None -> fst r = S_OK) /\
  (snd r = None -> fst r = E_INVALIDARG \/ fst r = E_FAIL \/ fst r = E_OUTOFMEMORY).
Proof.
  intros p alloc_ok mdata flags r. subst r.
  destruct (Initialize_cases p alloc_ok mdata flags) as [[img E] | [hr [E Hr]]];
    rewrite E; cbn [fst snd].
  - split; [split; [discriminate | intros H; discriminate H] |].
    split; [intros _; reflexivity | discriminate].
  - split; [split; [intros _ | reflexivity] |].
    + destruct Hr as [-> | [-> | ->]]; reflexivity.
    + split; [intros H; contradiction H; reflexivity | intros _; exact Hr].
Qed.

Lemma CalculateMipLevels_some : forall w h d mip n,
  (CalculateMipLevels w h mip = Some n \/ CalculateMipLevels3D w h d mip = Some n) ->
  1 <= n /\ (mip <> 0 -> n = Z.max 1 mip).
Proof.
  intros w h d mip n H.
  pose proof (count_mips_loop_ge (Z.to_nat (w + h)) w h 1) as C2.
  pose proof (count_mips3d_loop_ge (Z.to_nat (w + h + d)) w h d 1) as C3.
  unfold CalculateMipLevels, CalculateMipLevels3D in H.
  fold (CountMips w h) in C2. fold (CountMips3D w h d) in C3.
  destruct (Z.gtb_spec mip 1);
    [destruct (Z.gtb_spec mip (CountMips w h)), (Z.gtb_spec mip (CountMips3D w h d))
    | destruct (Z.eqb_spec mip 0)].
  all: destruct H as [H | H]; try discriminate H; injection H as <-; lia.
Qed.

Lemma Initialize_ok : forall p alloc_ok mdata flags hr img,
  Initialize p alloc_ok mdata flags = (hr, Some img) ->
  hr = S_OK /\
  m_metadata img =
    {| width := width mdata; height := height mdata; depth := depth mdata;
       arraySize := arraySize mdata; mipLevels := mipLevels (m_metadata img);
       miscFlags := miscFlags mdata; miscFlags2 := miscFlags2 mdata;
       format := format mdata; dimension := dimension mdata |} /\
  IsValid (format mdata) = true /\ IsPalettized (format mdata) = false /\
  width mdata <> 0 /\ height mdata <> 0 /\ depth mdata <> 0 /\ arraySize mdata <> 0 /\
  1 <= mipLevels (m_metadata img) /\
  (mipLevels mdata <> 0 -> mipLevels (m_metadata img) = Z.max 1 (mipLevels mdata)) /\
  (dimension mdata = TEX_DIMENSION_TEXTURE2D -> IsCubemap mdata = true ->
   arraySize mdata mod 6 = 0).
Proof.
  intros p alloc_ok mdata flags hr img H. unfold Initialize in H.
  repeat match type of H with
  | context [if ?c then _ else _] =>
      let E := fresh "E" in destruct c eqn:E; cbn beta iota zeta in H
  | context [match ?x with Some _ => _ | None => _ end] =>
      let E := fresh "C" in destruct x eqn:E; cbn beta iota zeta in H
  | context [let (_, _) := ?q in _] => destruct q; cbn beta iota zeta in H
  end; try discriminate H.
  all: injection H as <- <-; cbn [m_metadata mipLevels].
  all: match goal with
       | C : CalculateMipLevels _ _ _ = Some ?n |- _ =>
           destruct (CalculateMipLevels_some _ _ 0 _ n (or_introl C)) as [N1 N2]
       | C : CalculateMipLevels3D _ _ _ _ = Some ?n |- _ =>
           destruct (CalculateMipLevels_some _ _ _ _ n (or_intror C)) as [N1 N2]
       end.
  all: repeat match goal with
    | E : (_ || _) = false |- _ => apply orb_false_iff in E as [? ?]
    | E : negb _ = false |- _ => apply negb_false_iff in E
    | E : negb _ = true |- _ => apply negb_true_iff in E
    | E : (_ && _) = false |- _ => apply andb_false_iff in E
    | E : (_ =? _) = true |- _ => apply Z.eqb_eq in E
    | E : (_ =? _) = false |- _ => apply Z.eqb_neq in E
    end.
  all: repeat (split; [first [reflexivity | assumption | lia] |]).
  all: intros D Cb; try (unfold TEX_DIMENSION_TEXTURE1D, TEX_DIMENSION_TEXTURE2D,
                              TEX_DIMENSION_TEXTURE3D in *; lia).
  all: match goal with
       | E : IsCubemap _ = false \/ _ |- _ => destruct E as [Ec | Ec]; [congruence | ]
       end.
  all: apply negb_false_iff, Z.eqb_eq in Ec; exact Ec.
Qed.

(** A successful [Initialize] stores the given metadata with only the mip
    count adjusted (to at least 1, and to the requested count when one was
    given); it has checked that the format is valid and not palettized,
    that no size is 0, and that a 2D cube map has a multiple of 6 faces. *)
Theorem Initialize_success : forall p alloc_ok mdata flags hr img,
  Initialize p alloc_ok mdata flags = (hr, Some img) ->
  hr = S_OK /\
  m_metadata img =
    {| width := width mdata; height := height mdata; depth := depth mdata;
       arraySize := arraySize mdata; mipLevels := mipLevels (m_metadata img);
       miscFlags := miscFlags mdata; miscFlags2 := miscFlags2 mdata;
       format := format mdata; dimension := dimension mdata |} /\
  IsValid (format mdata) = true /\ IsPalettized (format mdata) = false /\
  width mdata <> 0 /\ height mdata <> 0 /\ depth mdata <> 0 /\ arraySize mdata <> 0 /\
  1 <= mipLevels (m_metadata img) /\
  (mipLevels mdata <> 0 -> mipLevels (m_metadata img) = Z.max 1 (mipLevels mdata)) /\
  (dimension mdata = TEX_DIMENSION_TEXTURE2D -> IsCubemap mdata = true ->
   arraySize mdata mod 6 = 0).
Proof. exact Initialize_ok. Qed.

(** The planned image array tiles its buffer (used for [Initialize]). *)
Lemma image_array_tiles :
  forall p m cpFlags nImages pixelSize,
    valid_metadata m ->
    DetermineImageArray p m cpFlags = Some (nImages, pixelSize) ->
    exists imgs,
      SetupImageArray p pixelSize m cpFlags nImages = Some imgs /\
      Z.of_nat (length imgs) = nImages /\ tiles imgs 0 pixelSize.
Proof.
  intros p m cpFlags nImages pixelSize Hv H.
  destruct Hv as (Hw & Hh & Hd & Ha & Hm).
  pose proof (size_pow_ge32 p) as Hsb.
  assert (HA : Z.of_nat (Z.to_nat (arraySize m)) = arraySize m) by (apply Z2Nat.id; lia).
  assert (HM : Z.of_nat (Z.to_nat (mipLevels m)) = mipLevels m) by (apply Z2Nat.id; lia).
  assert (Hfin : forall (r : option (Z * Z)) t n,
             r = Some (t, n) ->
             match r with
             | None => None
             | Some (total, n) =>
                 match p with
                 | Win32 => if total >? UINT32_MAX then None else Some (n, total)
                 | Win64 => Some (n, total)
                 end
             end = Some (nImages, pixelSize) -> n = nImages /\ t = pixelSize).
  { intros r t n -> Hr. destruct p; [destruct (t >? UINT32_MAX) |];
      try discriminate Hr; injection Hr as <- <-; split; reflexivity. }
  unfold DetermineImageArray in H. unfold SetupImageArray.
  destruct ((dimension m =? TEX_DIMENSION_TEXTURE1D) ||
            (dimension m =? TEX_DIMENSION_TEXTURE2D)) eqn:E12.
  - destruct (plan_items p (format m) cpFlags (Z.to_nat (arraySize m)) (width m) (height m)
                (Z.to_nat (mipLevels m)) 0 0) as [[t n]|] eqn:Ep; [|discriminate H].
    destruct (Hfin _ t n eq_refl H) as [<- <-].
    destruct (items_ok p (format m) cpFlags t n (Z.to_nat (arraySize m)) (width m) (height m)
                (Z.to_nat (mipLevels m)) 0 0 t n Hw Hh
                ltac:(lia) ltac:(lia) ltac:(rewrite HA, HM; nia)
                ltac:(rewrite HA, HM; nia) Ep) as (Hn & _ & Hs).
    destruct (Hs (mkCursor 0 0 []) eq_refl eq_refl ltac:(lia) ltac:(lia))
      as (imgs & Hset & Htl & Hlen).
    replace ((arraySize m =? 0) || (mipLevels m =? 0)) with false
      by (symmetry; apply orb_false_iff; split; apply Z.eqb_neq; lia).
    rewrite Hset. exists imgs. cbn [option_map c_images app].
    split; [reflexivity | split; [lia | exact Htl]].
  - destruct (dimension m =? TEX_DIMENSION_TEXTURE3D) eqn:E3; [|discriminate H].
    destruct (plan_volume p (format m) cpFlags (Z.to_nat (mipLevels m))
                (width m) (height m) (depth m) 0 0) as [[t n]|] eqn:Ep; [|discriminate H].
    destruct (Hfin _ t n eq_refl H) as [<- <-].
    destruct (volume_ok p (format m) cpFlags t n (Z.to_nat (mipLevels m)) (width m) (height m)
                (depth m) 0 0 t n Hw Hh Hd
                ltac:(lia) ltac:(lia) ltac:(rewrite HM; nia)
                ltac:(rewrite HM; nia) Ep) as (Hn & _ & Hs).
    destruct (Hs (mkCursor 0 0 []) eq_refl eq_refl ltac:(lia) ltac:(lia))
      as (imgs & Hset & Htl & Hlen).
    replace ((mipLevels m =? 0) || (depth m =? 0)) with false
      by (symmetry; apply orb_false_iff; split; apply Z.eqb_neq; lia).
    rewrite Hset. exists imgs. cbn [option_map c_images app].
    split; [reflexivity | split; [lia | exact Htl]].
Qed.

Lemma Initialize_layout : forall p alloc_ok mdata flags hr img,
  Initialize p alloc_ok mdata flags = (hr, Some img) ->
  exists n, DetermineImageArray p (m_metadata img) flags = Some (n, m_size img) /\
            SetupImageArray p (m_size img) (m_metadata img) flags n = Some (m_image img).
Proof.
  intros p alloc_ok mdata flags hr img H. unfold Initialize in H.
  repeat match type of H with
  | context [if ?c then _ else _] =>
      let E := fresh "E" in destruct c eqn:E; cbn beta iota zeta in H
  | context [match ?x with Some _ => _ | None => _ end] =>
      let E := fresh "C" in destruct x eqn:E; cbn beta iota zeta in H
  | context [let (_, _) := ?q in _] => destruct q; cbn beta iota zeta in H
  end; try discriminate H.
  all: injection H as <- <-; cbn [m_metadata m_size m_image].
  all: eexists; split; eassumption.
Qed.

(** After a successful [Initialize] on metadata within the limits that
    [DecodeDDSHeader] enforces, the image descriptors tile the pixel
    buffer [[0, m_size)]. *)
Theorem Initialize_tiles : forall p alloc_ok mdata flags hr img,
  Initialize p alloc_ok mdata flags = (hr, Some img) ->
  0 <= width mdata <= 16384 -> 0 <= height mdata <= 16384 ->
  0 <= depth mdata <= 2048 -> 0 <= arraySize mdata <= 2048 ->
  1 <= mipLevels mdata <= 15 ->
  tiles (m_image img) 0 (m_size img).
Proof.
  intros p alloc_ok mdata flags hr img H Hw Hh Hd Ha Hm.
  destruct (Initialize_layout _ _ _ _ _ _ H) as [n [HD HS]].
  destruct (Initialize_ok _ _ _ _ _ _ H)
    as (_ & Emd & _ & _ & Nw & Nh & Nd & Na & M1 & M2 & _).
  assert (Hv : valid_metadata (m_metadata img)).
  { rewrite Emd. unfold valid_metadata; cbn [width height depth arraySize mipLevels].
    specialize (M2 ltac:(lia)). lia. }
  destruct (image_array_tiles p (m_metadata img) flags n (m_size img) Hv HD)
    as (imgs & HS' & _ & Ht).
  rewrite HS in HS'. injection HS' as <-. exact Ht.
Qed.

Lemma Initialize_tiles_witness :
  exists img,
    Initialize Win64 (fun _ => true) rgba_array_metadata CP_FLAGS_NONE = (S_OK, Some img) /\
    tiles (m_image img) 0 (m_size img).
Proof.
  eexists. split; [vm_compute; reflexivity |].
  apply (Initialize_tiles Win64 (fun _ => true) rgba_array_metadata CP_FLAGS_NONE S_OK);
    [vm_compute; reflexivity | cbn; lia ..].
Defined.

Lemma Initialize_success_witness :
  exists img,
    Initialize Win64 (fun _ => true) rgba_array_metadata CP_FLAGS_NONE = (S_OK, Some img) /\
    S_OK = S_OK /\
    m_metadata img =
      {| width := width rgba_array_metadata; height := height rgba_array_metadata;
         depth := depth rgba_array_metadata; arraySize := arraySize rgba_array_metadata;
         mipLevels := mipLevels (m_metadata img);
         miscFlags := miscFlags rgba_array_metadata;
         miscFlags2 := miscFlags2 rgba_array_metadata;
         format := format rgba_array_metadata; dimension := dimension rgba_array_metadata |} /\
    IsValid (format rgba_array_metadata) = true /\
    IsPalettized (format rgba_array_metadata) = false /\
    width rgba_array_metadata <> 0 /\ height rgba_array_metadata <> 0 /\
    depth rgba_array_metadata <> 0 /\ arraySize rgba_array_metadata <> 0 /\
    1 <= mipLevels (m_metadata img) /\
    (mipLevels rgba_array_metadata <> 0 ->
     mipLevels (m_metadata img) = Z.max 1 (mipLevels rgba_array_metadata)) /\
    (dimension rgba_array_metadata = TEX_DIMENSION_TEXTURE2D ->
     IsCubemap rgba_array_metadata = true -> arraySize rgba_array_metadata mod 6 = 0).
Proof.
  eexists. split; [vm_compute; reflexivity |].
  apply (Initialize_success Win64 (fun _ => true) rgba_array_metadata CP_FLAGS_NONE S_OK).
  vm_compute. reflexivity.
Defined.

(** [ComputePitch] and [ComputeScanlines] agree: for sizes within the
    decoder's limits, and without [CP_FLAGS_BAD_DXTN_TAILS], the slice
    pitch is the row pitch times the number of scanlines. *)
Theorem ComputePitch_scanlines : forall p fmt w h flags rp sp,
  0 <= w <= 16384 -> 0 <= h <= 16384 ->
  has_flag flags CP_FLAGS_BAD_DXTN_TAILS = false ->
  ComputePitch p fmt w h flags = PitchOk rp sp ->
  sp = rp * ComputeScanlines p fmt h.
Proof.
  intros p fmt w h flags rp sp Hw Hh Hf H. unfold ComputePitch in H.
  destruct (pitch_of_format fmt w h flags) as [[pitch slice]|] eqn:E; [|discriminate H].
  assert (rp = pitch /\ sp = slice) as [-> ->]
    by (destruct p; [destruct ((pitch >? UINT32_MAX) || (slice >? UINT32_MAX)) |];
        try discriminate H; injection H as <- <-; split; reflexivity).
  clear H. pose proof (size_pow_ge32 p) as Hp.
  pose proof (BitsPerPixel_range fmt) as Hb.
  unfold pitch_of_format in E. cbv zeta in E. rewrite Hf in E.
  unfold ComputeScanlines.
  repeat match goal with
  | |- context [if ?c then _ else _] => let C := fresh "C" in destruct c eqn:C
  end;
  repeat match type of E with
  | context [if ?c then _ else _] => let C := fresh "C" in destruct c eqn:C
  end; try discriminate E; injection E as <- <-.
  all: repeat match goal with
       | C : mem ?f _ = true |- _ =>
           is_var f; apply mem_In in C; simpl in C; repeat destruct C as [<- | C];
           [..| contradiction]
       | C : (?f =? _) = true |- _ => is_var f; apply Z.eqb_eq in C; subst f
       end.
  all: repeat match goal with
       | C : mem _ _ = _ |- _ => vm_compute in C; try discriminate C; clear C
       | C : (_ =? _) = _ |- _ => vm_compute in C; try discriminate C; clear C
       end.
  all: unfold add64, mul64, size_wrap in *.
  all: rewrite ?Z.shiftr_div_pow2 by lia; change (2 ^ 1) with 2; change (2 ^ 2) with 4.
  all: no_wrap.
  all: repeat match goal with
       | |- context [?x mod 2 ^ size_bits ?q] =>
           rewrite (Z.mod_small x (2 ^ size_bits q)) by (Z.div_mod_to_equations; nia)
       end.
  all: try reflexivity.
  all: try (match goal with
            | |- context [u64 (?a * ?b)] =>
                assert (0 <= b <= 49152) by (Z.div_mod_to_equations; lia);
                rewrite (u64_small_lit (a * b)) by nia; reflexivity
            end).
  all: ring.
Qed.

Lemma alpha8888_fields : forall t a, (a = 0x7f000000 \/ a = 0xff000000) ->
  field (Z.lor (Z.land t 0xFFFFFF) a mod 2 ^ 32) 0 24 = field t 0 24 /\
  field (Z.lor (Z.land t 0xFFFFFF) a mod 2 ^ 32) 24 8 = Z.shiftr a 24.
Proof.
  intros t a Ha.
  destruct Ha as [-> | ->]; split;
    [ apply field_bits; try lia; intros n Hn; bit_cases n 0 ltac:(bit_eval t)
    | change (Z.shiftr 2130706432 24) with (field 2130706432 24 8)
    | apply field_bits; try lia; intros n Hn; bit_cases n 0 ltac:(bit_eval t)
    | change (Z.shiftr 4278190080 24) with (field 4278190080 24 8) ].
  all: apply field_bits; try lia; intros n Hn; bit_cases n 0 ltac:(bit_eval t).
Qed.

Lemma alpha1010102_fields : forall t,
  field (Z.lor t 0xC0000000 mod 2 ^ 32) 0 30 = field t 0 30 /\
  field (Z.lor t 0xC0000000 mod 2 ^ 32) 30 2 = 3.
Proof.
  intros t. split.
  - apply field_bits; try lia; intros n Hn; bit_cases n 0 ltac:(bit_eval t).
  - change 3 with (Z.ones 2). apply field_all_ones; try lia.
    intros n Hn. rewrite Z.mod_pow2_bits_low by lia. rewrite Z.lor_spec.
    replace (Z.testbit 0xC0000000 (n + 30)) with true
      by (bit_cases n 0 ltac:(reflexivity)).
    apply orb_true_r.
Qed.

Lemma Zge_true : forall a b, b <= a -> (a >=? b) = true.
Proof. intros a b H. rewrite Z.geb_leb. apply Z.leb_le. exact H. Qed.

(** The RGBA8/BGRA8/AYUV family under [TEXP_SCANLINE_SETALPHA]: every
    whole pixel of the handled bytes keeps its low 24 bits and gets an
    alpha byte of 0x7f (signed formats) or 0xff; the bytes past the last
    whole pixel are untouched. *)
Theorem CopyScanline_8888_setalpha : forall dst outSize src inSize fmt tflags,
  has_flag tflags TEXP_SCANLINE_SETALPHA = true ->
  mem fmt copy_8888_formats = true ->
  4 <= inSize -> 4 <= outSize -> outSize <= Z.of_nat (length dst) ->
  (forall s, src = Some s -> inSize <= Z.of_nat (length s)) ->
  let r := CopyScanline dst outSize src inSize fmt tflags in
  let s0 := match src with Some s => s | None => dst end in
  let size := match src with None => outSize | Some _ => Z.min outSize inSize end in
  length r = length dst /\
  (forall k, 0 <= k -> 4 * k + 3 < size ->
     field (le32 r (4 * k)) 0 24 = field (le32 s0 (4 * k)) 0 24 /\
     field (le32 r (4 * k)) 24 8 =
       (if (fmt =? DXGI_FORMAT_R8G8B8A8_SNORM) || (fmt =? DXGI_FORMAT_R8G8B8A8_SINT)
        then 0x7f else 0xff)) /\
  (forall n, 4 * (size / 4) <= Z.of_nat n -> nth n r 0 = nth n dst 0).
Proof.
  intros dst outSize src inSize fmt tflags Hf Hm Hi Ho Hd Hs r s0 size.
  assert (Hx : mem fmt copy_r32g32b32a32_formats = false /\
               mem fmt copy_r16g16b16a16_formats = false /\
               mem fmt copy_10_10_10_2_formats = false).
  { apply mem_In in Hm. unfold copy_8888_formats in Hm. simpl in Hm.
    repeat destruct Hm as [<- | Hm]; [vm_compute; auto .. | contradiction]. }
  destruct Hx as (X1 & X2 & X3).
  subst r. unfold CopyScanline. rewrite Hf, X1, X2, X3, Hm, !Zge_true by lia.
  cbn [andb]. fold size.
  set (a := if (fmt =? DXGI_FORMAT_R8G8B8A8_SNORM) || (fmt =? DXGI_FORMAT_R8G8B8A8_SINT)
            then 0x7f000000 else 0xff000000).
  destruct (pixel_run_spec (fun t => Z.lor (Z.land t 0xFFFFFF) a) size src dst)
    as (L & P & F).
  - subst size. destruct src; lia.
  - intros s ->. specialize (Hs s eq_refl). subst size. lia.
  - split; [exact L | split; [| exact F]].
    intros k Hk Hks. rewrite (P k Hk Hks). fold s0.
    destruct (alpha8888_fields (le32 s0 (4 * k)) a) as [A1 A2];
      [subst a; destruct (_ || _); [left | right]; reflexivity |].
    rewrite A1, A2. split; [reflexivity |]. subst a.
    destruct (_ || _); reflexivity.
Qed.

(** The 10:10:10:2 family under [TEXP_SCANLINE_SETALPHA]: every whole
    pixel of the handled bytes keeps its low 30 bits and gets both alpha
    bits set; the bytes past the last whole pixel are untouched. *)
Theorem CopyScanline_1010102_setalpha : forall dst outSize src inSize fmt tflags,
  has_flag tflags TEXP_SCANLINE_SETALPHA = true ->
  mem fmt copy_10_10_10_2_formats = true ->
  4 <= inSize -> 4 <= outSize -> outSize <= Z.of_nat (length dst) ->
  (forall s, src = Some s -> inSize <= Z.of_nat (length s)) ->
  let r := CopyScanline dst outSize src inSize fmt tflags in
  let s0 := match src with Some s => s | None => dst end in
  let size := match src with None => outSize | Some _ => Z.min outSize inSize end in
  length r = length dst /\
  (forall k, 0 <= k -> 4 * k + 3 < size ->
     field (le32 r (4 * k)) 0 30 = field (le32 s0 (4 * k)) 0 30 /\
     field (le32 r (4 * k)) 30 2 = 3) /\
  (forall n, 4 * (size / 4) <= Z.of_nat n -> nth n r 0 = nth n dst 0).
Proof.
  intros dst outSize src inSize fmt tflags Hf Hm Hi Ho Hd Hs r s0 size.
  assert (Hx : mem fmt copy_r32g32b32a32_formats = false /\
               mem fmt copy_r16g16b16a16_formats = false).
  { apply mem_In in Hm. unfold copy_10_10_10_2_formats in Hm. simpl in Hm.
    repeat destruct Hm as [<- | Hm]; [vm_compute; auto .. | contradiction]. }
  destruct Hx as (X1 & X2).
  subst r. unfold CopyScanline. rewrite Hf, X1, X2, Hm, !Zge_true by lia.
  cbn [andb]. fold size.
  destruct (pixel_run_spec (fun t => Z.lor t 0xC0000000) size src dst)
    as (L & P & F).
  - subst size. destruct src; lia.
  - intros s ->. specialize (Hs s eq_refl). subst size. lia.
  - split; [exact L | split; [| exact F]].
    intros k Hk Hks. rewrite (P k Hk Hks). fold s0.
    exact (alpha1010102_fields (le32 s0 (4 * k))).
Qed.

(** [A8_UNORM] under [TEXP_SCANLINE_SETALPHA]: the first [outSize] bytes
    become 0xff and the rest are kept, whatever the source and its size. *)
Theorem CopyScanline_a8_setalpha : forall dst outSize src inSize tflags,
  has_flag tflags TEXP_SCANLINE_SETALPHA = true ->
  0 <= outSize <= Z.of_nat (length dst) ->
  let r := CopyScanline dst outSize src inSize DXGI_FORMAT_A8_UNORM tflags in
  length r = length dst /\
  (forall n, Z.of_nat n < outSize -> nth n r 0 = 0xff) /\
  (forall n, outSize <= Z.of_nat n -> nth n r 0 = nth n dst 0).
Proof.
  intros dst outSize src inSize tflags Hf Ho r. subst r.
  unfold CopyScanline. rewrite Hf. cbn -[memset]. unfold memset.
  rewrite length_app, repeat_length, length_skipn.
  split; [lia | split]; intros n Hn.
  - rewrite app_nth1 by (rewrite repeat_length; lia).
    rewrite nth_indep with (d' := 0xff) by (rewrite repeat_length; lia).
    apply nth_repeat.
  - rewrite app_nth2 by (rewrite repeat_length; lia). rewrite nth_skipn, repeat_length.
    f_equal. lia.
Qed.

(** Under [TEXP_SCANLINE_SETALPHA], a scanline shorter than one pixel of
    a format whose alpha is set is left as it was: nothing is copied. *)
Theorem CopyScanline_short_setalpha : forall dst outSize src inSize fmt tflags,
  has_flag tflags TEXP_SCANLINE_SETALPHA = true ->
  (mem fmt copy_r32g32b32a32_formats = true /\ inSize < 16) \/
  (mem fmt copy_r16g16b16a16_formats = true /\ inSize < 8) \/
  (mem fmt copy_10_10_10_2_formats = true /\ inSize < 4) \/
  (mem fmt copy_8888_formats = true /\ inSize < 4) \/
  ((fmt = DXGI_FORMAT_B5G5R5A1_UNORM \/ fmt = DXGI_FORMAT_B4G4R4A4_UNORM) /\ inSize < 2) ->
  CopyScanline dst outSize src inSize fmt tflags = dst.
Proof.
  intros dst outSize src inSize fmt tflags Hf H.
  assert (Hl : forall n, inSize < n -> (inSize >=? n) = false)
    by (intros n Hn; rewrite Z.geb_leb; apply Z.leb_gt; exact Hn).
  unfold CopyScanline. rewrite Hf.
  destruct H as [[Hm Hs] | [[Hm Hs] | [[Hm Hs] | [[Hm Hs] | [Hm Hs]]]]].
  all: try (apply mem_In in Hm; simpl in Hm;
            repeat destruct Hm as [<- | Hm]; [..| contradiction]).
  all: try (destruct Hm as [-> | ->]).
  all: cbn -[CopyScanline]; rewrite Hl by lia; reflexivity.
Qed.

Lemma length_store16 : forall b off v, length (store16 b off v) = length b.
Proof. intros. unfold store16. rewrite !length_set_byte. reflexivity. Qed.

Lemma nth_store16 : forall b off v n, 0 <= off -> off + 2 <= Z.of_nat (length b) ->
  nth n (store16 b off v) 0 =
  if Z.of_nat n =? off then Z.land v 255
  else if Z.of_nat n =? off + 1 then Z.land (Z.shiftr v 8) 255
  else nth n b 0.
Proof.
  intros b off v n Ho Hl. unfold store16.
  rewrite !nth_set_byte by lia. rewrite !length_set_byte.
  replace (Z.to_nat (off + 1) <? length b)%nat with true
    by (symmetry; apply Nat.ltb_lt; lia).
  replace (Z.to_nat off <? length b)%nat with true
    by (symmetry; apply Nat.ltb_lt; lia).
  rewrite !andb_true_r.
  destruct (Nat.eqb_spec n (Z.to_nat (off + 1))), (Nat.eqb_spec n (Z.to_nat off)),
    (Z.eqb_spec (Z.of_nat n) off), (Z.eqb_spec (Z.of_nat n) (off + 1)); lia || reflexivity.
Qed.

Lemma le16_store16_same : forall b off v, 0 <= off -> off + 2 <= Z.of_nat (length b) ->
  le16 (store16 b off v) off = v mod 2 ^ 16.
Proof.
  intros b off v Ho Hl. unfold le16, byte_at.
  rewrite !nth_store16 by lia. rewrite !Z2Nat.id by lia.
  rewrite Z.eqb_refl. replace (off + 1 =? off) with false by (symmetry; apply Z.eqb_neq; lia).
  rewrite Z.eqb_refl.
  change 255 with (Z.ones 8). rewrite !Z.land_ones, !Z.shiftr_div_pow2 by lia.
  change (2 ^ 8) with 256. rewrite !Z.mod_mod by lia.
  change (2 ^ 16) with (256 * 256). rewrite Z.rem_mul_r by lia. lia.
Qed.

Lemma nth_store16_other : forall b off v n, 0 <= off -> off + 2 <= Z.of_nat (length b) ->
  (Z.of_nat n < off \/ off + 2 <= Z.of_nat n) ->
  nth n (store16 b off v) 0 = nth n b 0.
Proof.
  intros b off v n Ho Hl Hn. rewrite nth_store16 by lia.
  replace (Z.of_nat n =? off) with false by (symmetry; apply Z.eqb_neq; lia).
  replace (Z.of_nat n =? off + 1) with false by (symmetry; apply Z.eqb_neq; lia).
  reflexivity.
Qed.

Lemma le16_ext : forall a b off,
  (forall i, 0 <= i < 2 -> nth (Z.to_nat (off + i)) a 0 = nth (Z.to_nat (off + i)) b 0) ->
  le16 a off = le16 b off.
Proof.
  intros a b off H. unfold le16, byte_at.
  pose proof (H 0 ltac:(lia)) as H0. rewrite Z.add_0_r in H0.
  rewrite H0, (H 1) by lia. reflexivity.
Qed.

Lemma pixel16_loop_spec : forall f size src fuel j d,
  0 <= j -> size / 2 - j <= Z.of_nat fuel -> size <= Z.of_nat (length d) ->
  (forall s, src = Some s -> size <= Z.of_nat (length s)) ->
  let r := pixel16_loop f fuel size (2 * j) src d in
  let s0 := match src with Some s => s | None => d end in
  length r = length d /\
  (forall k, j <= k -> 2 * k + 1 < size ->
     le16 r (2 * k) = f (le16 s0 (2 * k)) mod 2 ^ 16) /\
  (forall n, (Z.of_nat n < 2 * j \/ 2 * (size / 2) <= Z.of_nat n) -> nth n r 0 = nth n d 0).
Proof.
  intros f size src fuel. induction fuel as [|fuel IH]; intros j d Hj Hf Hd Hs r s0.
  - subst r. cbn [pixel16_loop]. split; [reflexivity | split; [| reflexivity]].
    intros k Hk Hks. exfalso.
    assert (k + 1 <= size / 2) by (apply Z.div_le_lower_bound; lia). lia.
  - subst r. cbn [pixel16_loop].
    destruct (Z.ltb_spec (2 * j) (size - 1)) as [Hlt | Hge].
    + set (t := le16 (match src with Some s => s | None => d end) (2 * j)).
      set (d' := store16 d (2 * j) (f t)).
      assert (Hlen' : length d' = length d) by apply length_store16.
      assert (Hq : j + 1 <= size / 2) by (apply Z.div_le_lower_bound; lia).
      replace (2 * j + 2) with (2 * (j + 1)) by lia.
      destruct (IH (j + 1) d') as [IHl [IHp IHf]]; [lia | lia | rewrite Hlen'; lia | exact Hs |].
      set (r := pixel16_loop f fuel size (2 * (j + 1)) src d') in *.
      assert (Hout : forall n, (Z.of_nat n < 2 * j \/ 2 * (j + 1) <= Z.of_nat n) ->
                               nth n d' 0 = nth n d 0).
      { intros n Hn. apply nth_store16_other; lia. }
      split; [congruence | split].
      * intros k Hk Hks.
        destruct (Z.eq_dec k j) as [-> | Hne].
        -- transitivity (le16 d' (2 * j)).
           ++ apply le16_ext. intros i Hi. apply IHf. rewrite Z2Nat.id; lia.
           ++ apply le16_store16_same; lia.
        -- rewrite IHp by lia. do 2 f_equal.
           subst s0. destruct src as [s|]; [reflexivity |].
           apply le16_ext. intros i Hi. apply Hout. rewrite Z2Nat.id; lia.
      * intros n Hn. rewrite IHf by lia. apply Hout. lia.
    + split; [reflexivity | split; [| reflexivity]].
      intros k Hk Hks. lia.
Qed.

Lemma pixel16_run_spec : forall f size src dst,
  0 <= size <= Z.of_nat (length dst) ->
  (forall s, src = Some s -> size <= Z.of_nat (length s)) ->
  let r := pixel16_loop f (Z.to_nat size) size 0 src dst in
  let s0 := match src with Some s => s | None => dst end in
  length r = length dst /\
  (forall k, 0 <= k -> 2 * k + 1 < size ->
     le16 r (2 * k) = f (le16 s0 (2 * k)) mod 2 ^ 16) /\
  (forall n, 2 * (size / 2) <= Z.of_nat n -> nth n r 0 = nth n dst 0).
Proof.
  intros f size src dst Hd Hs r s0.
  destruct (pixel16_loop_spec f size src (Z.to_nat size) 0 dst) as [H1 [H2 H3]];
    [lia | | lia | exact Hs |].
  { rewrite Z2Nat.id by lia. assert (size / 2 <= size) by (apply Z.div_le_upper_bound; lia).
    lia. }
  split; [exact H1 | split].
  - intros k Hk Hks. apply H2; lia.
  - intros n Hn. apply H3. lia.
Qed.

Lemma alpha16_fields : forall t m a, (m, a) = (0x8000, 1) \/ (m, a) = (0xF000, 4) ->
  field (Z.land (Z.lor t m) 0xFFFF mod 2 ^ 16) 0 (16 - a) = field t 0 (16 - a) /\
  field (Z.land (Z.lor t m) 0xFFFF mod 2 ^ 16) (16 - a) a = Z.ones a.
Proof.
  intros t m a H.
  destruct H as [H | H]; injection H as -> ->; cbn [Z.sub]; split.
  all: first [ apply field_all_ones | apply field_bits ]; try lia; intros n Hn.
  all: first
    [ bit_cases n 0 ltac:(bit_eval t)
    | bit_cases n 0 ltac:(rewrite Z.mod_pow2_bits_low by lia;
                          rewrite Z.land_spec, Z.lor_spec, orb_comm; reflexivity) ].
Qed.

(** [B5G5R5A1_UNORM] and [B4G4R4A4_UNORM] under
    [TEXP_SCANLINE_SETALPHA]: every whole 16-bit pixel of the handled bytes
    keeps its color bits and gets its alpha bits (1 and 4 of them) all
    set; the bytes past the last whole pixel are untouched. *)
Theorem CopyScanline_16bit_setalpha : forall dst outSize src inSize fmt tflags,
  has_flag tflags TEXP_SCANLINE_SETALPHA = true ->
  fmt = DXGI_FORMAT_B5G5R5A1_UNORM \/ fmt = DXGI_FORMAT_B4G4R4A4_UNORM ->
  2 <= inSize -> 2 <= outSize -> outSize <= Z.of_nat (length dst) ->
  (forall s, src = Some s -> inSize <= Z.of_nat (length s)) ->
  let r := CopyScanline dst outSize src inSize fmt tflags in
  let s0 := match src with Some s => s | None => dst end in
  let size := match src with None => outSize | Some _ => Z.min outSize inSize end in
  let abits := if fmt =? DXGI_FORMAT_B5G5R5A1_UNORM then 1 else 4 in
  length r = length dst /\
  (forall k, 0 <= k -> 2 * k + 1 < size ->
     field (le16 r (2 * k)) 0 (16 - abits) = field (le16 s0 (2 * k)) 0 (16 - abits) /\
     field (le16 r (2 * k)) (16 - abits) abits = Z.ones abits) /\
  (forall n, 2 * (size / 2) <= Z.of_nat n -> nth n r 0 = nth n dst 0).
Proof.
  intros dst outSize src inSize fmt tflags Hf Hfmt Hi Ho Hd Hs r s0 size abits.
  assert (Hsz : 0 <= size <= Z.of_nat (length dst)) by (subst size; destruct src; lia).
  assert (Hss : forall s, src = Some s -> size <= Z.of_nat (length s))
    by (intros s ->; specialize (Hs s eq_refl); subst size; lia).
  subst r abits. unfold CopyScanline. rewrite Hf.
  destruct Hfmt as [-> | ->]; cbn -[pixel16_loop Z.mul Z.sub field le16 Z.ones];
    rewrite !Zge_true by lia;
    cbn [andb]; fold size.
  - destruct (pixel16_run_spec (fun t => Z.land (Z.lor t 0x8000) 0xFFFF) size src dst Hsz Hss)
      as (L & P & F).
    split; [exact L | split; [| exact F]].
    intros k Hk Hks. rewrite (P k Hk Hks). fold s0.
    exact (alpha16_fields (le16 s0 (2 * k)) 0x8000 1 (or_introl eq_refl)).
  - destruct (pixel16_run_spec (fun t => Z.land (Z.lor t 0xF000) 0xFFFF) size src dst Hsz Hss)
      as (L & P & F).
    split; [exact L | split; [| exact F]].
    intros k Hk Hks. rewrite (P k Hk Hks). fold s0.
    exact (alpha16_fields (le16 s0 (2 * k)) 0xF000 4 (or_intror eq_refl)).
Qed.

Lemma ComputePitch_scanlines_witness :
  ComputePitch Win64 DXGI_FORMAT_NV12 6 5 CP_FLAGS_NONE = PitchOk 6 48 /\
  48 = 6 * ComputeScanlines Win64 DXGI_FORMAT_NV12 5.
Proof.
  assert (E : ComputePitch Win64 DXGI_FORMAT_NV12 6 5 CP_FLAGS_NONE = PitchOk 6 48)
    by (vm_compute; reflexivity).
  split; [exact E |].
  apply (ComputePitch_scanlines Win64 DXGI_FORMAT_NV12 6 5 CP_FLAGS_NONE);
    [lia | lia | reflexivity | exact E].
Defined.

Lemma CopyScanline_8888_setalpha_witness :
  field (le32 (CopyScanline [1; 2; 3; 4; 5; 6; 7; 8; 9] 9
                 (Some [11; 12; 13; 14; 15; 16; 17; 18]) 8
                 DXGI_FORMAT_R8G8B8A8_SNORM TEXP_SCANLINE_SETALPHA) 4) 24 8 = 0x7f.
Proof.
  destruct (CopyScanline_8888_setalpha [1; 2; 3; 4; 5; 6; 7; 8; 9] 9
              (Some [11; 12; 13; 14; 15; 16; 17; 18]) 8
              DXGI_FORMAT_R8G8B8A8_SNORM TEXP_SCANLINE_SETALPHA)
    as (_ & P & _); [reflexivity | reflexivity | lia | lia | cbn; lia |
                     intros s E; injection E as <-; cbn; lia |].
  exact (proj2 (P 1 ltac:(lia) ltac:(cbn; lia))).
Defined.

Lemma CopyScanline_1010102_setalpha_witness :
  field (le32 (CopyScanline [1; 2; 3; 4; 5; 6; 7; 8] 8 None 8
                 DXGI_FORMAT_R10G10B10A2_UNORM TEXP_SCANLINE_SETALPHA) 4) 30 2 = 3.
Proof.
  destruct (CopyScanline_1010102_setalpha [1; 2; 3; 4; 5; 6; 7; 8] 8 None 8
              DXGI_FORMAT_R10G10B10A2_UNORM TEXP_SCANLINE_SETALPHA)
    as (_ & P & _); [reflexivity | reflexivity | lia | lia | cbn; lia |
                     intros s E; discriminate E |].
  exact (proj2 (P 1 ltac:(lia) ltac:(cbn; lia))).
Defined.

Lemma CopyScanline_a8_setalpha_witness :
  nth 2 (CopyScanline [1; 2; 3; 4] 3 (Some [5; 6; 7]) 3 DXGI_FORMAT_A8_UNORM
           TEXP_SCANLINE_SETALPHA) 0 = 0xff /\
  nth 3 (CopyScanline [1; 2; 3; 4] 3 (Some [5; 6; 7]) 3 DXGI_FORMAT_A8_UNORM
           TEXP_SCANLINE_SETALPHA) 0 = 4.
Proof.
  destruct (CopyScanline_a8_setalpha [1; 2; 3; 4] 3 (Some [5; 6; 7]) 3
              TEXP_SCANLINE_SETALPHA)
    as (_ & P & F); [reflexivity | cbn; lia |].
  split; [apply P | apply F]; cbn; lia.
Defined.

Lemma CopyScanline_short_setalpha_witness :
  CopyScanline [1; 2; 3] 3 (Some [4; 5; 6]) 3 DXGI_FORMAT_R8G8B8A8_UNORM
    TEXP_SCANLINE_SETALPHA = [1; 2; 3].
Proof.
  apply CopyScanline_short_setalpha; [reflexivity |].
  right; right; right; left; split; [reflexivity | lia].
Defined.

Lemma CopyScanline_16bit_setalpha_witness :
  field (le16 (CopyScanline [1; 2; 3; 4] 4 None 4
                 DXGI_FORMAT_B4G4R4A4_UNORM TEXP_SCANLINE_SETALPHA) 2) 12 4 = Z.ones 4.
Proof.
  destruct (CopyScanline_16bit_setalpha [1; 2; 3; 4] 4 None 4
              DXGI_FORMAT_B4G4R4A4_UNORM TEXP_SCANLINE_SETALPHA)
    as (_ & P & _); [reflexivity | right; reflexivity | lia | lia | cbn; lia |
                     intros s E; discriminate E |].
  exact (proj2 (P 1 ltac:(lia) ltac:(cbn; lia))).
Defined.
Lemma strcmp_eq : forall a b, cstring_ok a -> cstring_ok b ->
  strcmp a b = 0 <-> a = b.
Proof.
  induction a as [|x a IH]; intros [|y b] Ha Hb; cbn.
  - split; reflexivity.
  - inversion Hb; subst. split; [lia | discriminate].
  - inversion Ha; subst. split; [lia | discriminate].
  - inversion Ha; inversion Hb; subst.
    destruct (Z.eqb_spec x y) as [-> | Hne].
    + rewrite IH by assumption. split; [intros ->; reflexivity | injection 1; auto].
    + split; [lia | injection 1; intros; contradiction].
Qed.

Lemma s_cmp_zero : forall a b, opt_cstring_ok a -> opt_cstring_ok b ->
  s_cmp a b = 0 <-> exists s, a = Some s /\ b = Some s.
Proof.
  intros [a|] [b|] Ha Hb; cbn in *.
  - rewrite strcmp_eq by assumption. split.
    + intros ->. eauto.
    + intros (s & E1 & E2). congruence.
  - split; [lia | intros (s & _ & E); discriminate E].
  - split; [lia | intros (s & E & _); discriminate E].
  - split; [lia | intros (s & E & _); discriminate E].
Qed.

Lemma capture_needs_reset_false_iff : forall cfg1 cfg2,
  opt_cstring_ok (cfg_class cfg1) -> opt_cstring_ok (cfg_class cfg2) ->
  opt_cstring_ok (cfg_title cfg1) -> opt_cstring_ok (cfg_title cfg2) ->
  opt_cstring_ok (cfg_executable cfg1) -> opt_cstring_ok (cfg_executable cfg2) ->
  capture_needs_reset cfg1 cfg2 = false <->
  cfg_mode cfg1 = cfg_mode cfg2 /\
  (cfg_mode cfg1 = CAPTURE_MODE_WINDOW ->
   (exists c, cfg_class cfg1 = Some c /\ cfg_class cfg2 = Some c) /\
   (exists t, cfg_title cfg1 = Some t /\ cfg_title cfg2 = Some t) /\
   (exists e, cfg_executable cfg1 = Some e /\ cfg_executable cfg2 = Some e) /\
   cfg_priority cfg1 = cfg_priority cfg2).
Proof.
  intros cfg1 cfg2 C1 C2 T1 T2 E1 E2. unfold capture_needs_reset.
  rewrite <- (s_cmp_zero _ _ C1 C2), <- (s_cmp_zero _ _ T1 T2),
    <- (s_cmp_zero _ _ E1 E2).
  destruct (Z.eqb_spec (cfg_mode cfg1) (cfg_mode cfg2)) as [Hm | Hm]; cbn [negb].
  2: { split; [discriminate | intros [H _]; contradiction]. }
  destruct (Z.eqb_spec (cfg_mode cfg1) CAPTURE_MODE_WINDOW) as [Hw | Hw]; cbn [andb].
  2: { split; [intros _; split; [exact Hm | intros H; contradiction] | reflexivity]. }
  destruct (Z.eqb_spec (s_cmp (cfg_class cfg1) (cfg_class cfg2)) 0),
    (Z.eqb_spec (s_cmp (cfg_title cfg1) (cfg_title cfg2)) 0),
    (Z.eqb_spec (s_cmp (cfg_executable cfg1) (cfg_executable cfg2)) 0),
    (Z.eqb_spec (cfg_priority cfg1) (cfg_priority cfg2)); cbn;
    (split; [intros H; first [discriminate H | split; [exact Hm | intros _; tauto]]
            | intros [_ H]; specialize (H Hw); first [reflexivity | tauto]]).
Qed.

(** [capture_needs_reset] reports no reset exactly when the modes agree
    and, in window mode, the class, title and executable are all non-NULL
    and equal and the priorities agree.  In particular, in window mode a
    NULL string forces a reset even against an identical configuration. *)
Theorem capture_needs_reset_false : forall cfg1 cfg2,
  opt_cstring_ok (cfg_class cfg1) -> opt_cstring_ok (cfg_class cfg2) ->
  opt_cstring_ok (cfg_title cfg1) -> opt_cstring_ok (cfg_title cfg2) ->
  opt_cstring_ok (cfg_executable cfg1) -> opt_cstring_ok (cfg_executable cfg2) ->
  capture_needs_reset cfg1 cfg2 = false <->
  cfg_mode cfg1 = cfg_mode cfg2 /\
  (cfg_mode cfg1 = CAPTURE_MODE_WINDOW ->
   (exists c, cfg_class cfg1 = Some c /\ cfg_class cfg2 = Some c) /\
   (exists t, cfg_title cfg1 = Some t /\ cfg_title cfg2 = Some t) /\
   (exists e, cfg_executable cfg1 = Some e /\ cfg_executable cfg2 = Some e) /\
   cfg_priority cfg1 = cfg_priority cfg2).
Proof. exact capture_needs_reset_false_iff. Qed.

(** A configuration compared with itself needs a reset exactly when it is
    in window mode with a NULL class, title or executable. *)
Theorem capture_needs_reset_self : forall cfg,
  opt_cstring_ok (cfg_class cfg) -> opt_cstring_ok (cfg_title cfg) ->
  opt_cstring_ok (cfg_executable cfg) ->
  capture_needs_reset cfg cfg = true <->
  cfg_mode cfg = CAPTURE_MODE_WINDOW /\
  (cfg_class cfg = None \/ cfg_title cfg = None \/ cfg_executable cfg = None).
Proof.
  intros cfg C T E.
  pose proof (capture_needs_reset_false_iff cfg cfg C C T T E E) as H.
  destruct (capture_needs_reset cfg cfg).
  - split; [| reflexivity]. intros _.
    destruct (Z.eq_dec (cfg_mode cfg) CAPTURE_MODE_WINDOW) as [Hw | Hw].
    + split; [exact Hw |].
      destruct (cfg_class cfg) as [c|]; [| left; reflexivity].
      destruct (cfg_title cfg) as [t|]; [| right; left; reflexivity].
      destruct (cfg_executable cfg) as [e|]; [| right; right; reflexivity].
      exfalso. assert (F : true = false); [| discriminate F].
      apply H. split; [reflexivity | intros _].
      split; [eauto | split; [eauto | split; [eauto | reflexivity]]].
    + exfalso. assert (F : true = false); [| discriminate F].
      apply H. split; [reflexivity | intros Hw'; contradiction].
  - split; [discriminate | intros [Hw Hn]].
    destruct (proj1 H eq_refl) as [_ H']. specialize (H' Hw).
    destruct H' as ((c & Hc & _) & (t & Ht & _) & (e & He & _) & _).
    destruct Hn as [N | [N | N]]; congruence.
Qed.

Lemma tolower_ok : forall s, cstring_ok s -> cstring_ok (map tolower s).
Proof.
  intros s H. induction H as [|c s Hc _ IH]; constructor; [| exact IH].
  unfold tolower. destruct ((65 <=? c) && (c <=? 90)) eqn:E; [| exact Hc].
  apply andb_true_iff in E. destruct E as [E1 E2].
  apply Z.leb_le in E1. apply Z.leb_le in E2. lia.
Qed.

Lemma blacklisted_exes_lower :
  Forall (fun v => cstring_ok (v ++ cstr ".exe") /\
                   map tolower (v ++ cstr ".exe") = v ++ cstr ".exe") blacklisted_exes.
Proof.
  cbn. repeat constructor; lia.
Qed.

(** [is_blacklisted_exe] holds exactly for a non-NULL name that, in lower
    case, is one of the listed executables followed by [".exe"]: the
    comparison ignores case, and NULL is never blacklisted. *)
Theorem is_blacklisted_exe_spec : forall exe, opt_cstring_ok exe ->
  is_blacklisted_exe exe = true <->
  exists e, exe = Some e /\
            In (map tolower e) (map (fun v => v ++ cstr ".exe") blacklisted_exes).
Proof.
  intros [e|] He; cbn [is_blacklisted_exe].
  2: { split; [discriminate | intros (e & E & _); discriminate E]. }
  cbn in He. rewrite existsb_exists. split.
  - intros (v & Hv & Hc). exists e. split; [reflexivity |].
    apply in_map_iff. exists v. split; [| exact Hv].
    apply Z.eqb_eq in Hc. unfold strcmpi in Hc.
    pose proof (proj1 (Forall_forall _ _) blacklisted_exes_lower v Hv) as [Ok Lo].
    apply strcmp_eq in Hc; [| apply tolower_ok; exact Ok | apply tolower_ok; exact He].
    congruence.
  - intros (e' & E & Hin). injection E as <-.
    apply in_map_iff in Hin. destruct Hin as (v & Hv & Hin).
    exists v. split; [exact Hin |]. apply Z.eqb_eq. unfold strcmpi.
    pose proof (proj1 (Forall_forall _ _) blacklisted_exes_lower v Hin) as [Ok Lo].
    apply strcmp_eq; [apply tolower_ok; exact Ok | apply tolower_ok; exact He |].
    congruence.
Qed.

Lemma is_blacklisted_exe_spec_witness :
  is_blacklisted_exe (Some (cstr "Steam.EXE")) = true /\
  exists e, Some (cstr "Steam.EXE") = Some e /\
            In (map tolower e) (map (fun v => v ++ cstr ".exe") blacklisted_exes).
Proof.
  split; [vm_compute; reflexivity |].
  apply (is_blacklisted_exe_spec (Some (cstr "Steam.EXE"))); [cbn; repeat constructor; lia |].
  vm_compute. reflexivity.
Defined.

(** Two window-mode configurations: identical but for a NULL class. *)

Lemma capture_needs_reset_false_witness :
  capture_needs_reset (window_cfg (Some (cstr "GameWnd"))) (window_cfg (Some (cstr "GameWnd")))
    = false.
Proof.
  apply (capture_needs_reset_false (window_cfg (Some (cstr "GameWnd")))
           (window_cfg (Some (cstr "GameWnd")))); [cbn; repeat constructor; lia .. |].
  split; [reflexivity | intros _].
  repeat split; eexists; split; reflexivity.
Defined.

Lemma capture_needs_reset_self_witness :
  capture_needs_reset (window_cfg None) (window_cfg None) = true.
Proof.
  apply (capture_needs_reset_self (window_cfg None)); cbn; [repeat constructor; lia .. |].
  split; [reflexivity | left; reflexivity].
Defined.


(** No two DXGI formats are converted to the same known OBS color format. *)
Theorem ConvertDXGITextureFormat_injective : forall f g,
  ConvertDXGITextureFormat f <> GS_UNKNOWN ->
  ConvertDXGITextureFormat f = ConvertDXGITextureFormat g -> f = g.
Proof.
  intros f g Hf E. unfold ConvertDXGITextureFormat in *.
  repeat match goal with
  | H : context [if (?x =? ?c) then _ else _] |- _ =>
      is_var x; destruct (Z.eqb_spec x c) as [-> | ?]
  end; try contradiction; try discriminate; reflexivity.
Qed.

Lemma create_levels_length : forall p base m imgs n l item level acc d,
  create_levels p base m imgs n l item level acc = Some d ->
  length d = (length acc + l)%nat.
Proof.
  intros p base m imgs n l. induction l as [|l IH]; intros item level acc d H; cbn in H.
  - injection H as <-. lia.
  - destruct (_ >=? n); [discriminate H |].
    destruct (negb _); [discriminate H |].
    destruct (_ =? 0); [discriminate H |].
    apply IH in H. rewrite length_app in H. cbn in H. lia.
Qed.

Lemma create_items_length : forall p base m imgs n i item acc d,
  create_items p base m imgs n i item acc = Some d ->
  length d = (length acc + i * Z.to_nat (mipLevels m))%nat.
Proof.
  intros p base m imgs n i. induction i as [|i IH]; intros item acc d H; cbn in H.
  - injection H as <-. lia.
  - destruct (create_levels _ _ _ _ _ _ _ _ _) as [d'|] eqn:E; [| discriminate H].
    apply create_levels_length in E. apply IH in H. lia.
Qed.

Lemma create_volume_length : forall p base m imgs n l level dp acc d,
  create_volume p base m imgs n l level dp acc = Some d ->
  length d = (length acc + l)%nat.
Proof.
  intros p base m imgs n l. induction l as [|l IH]; intros level dp acc d H; cbn in H.
  - injection H as <-. lia.
  - destruct (_ >=? n); [discriminate H |].
    destruct (negb _); [discriminate H |].
    destruct (_ =? 0); [discriminate H |].
    destruct (negb _); [discriminate H |].
    apply IH in H. rewrite length_app in H. cbn in H. lia.
Qed.

(** What [CreateTextureEx] creates: a cube map or a plain texture for 2D
    metadata (as [IsCubemap] says), a volume texture for 3D metadata with
    array size 1, never a 1D texture; always with the sizes and mip count
    of the metadata, the converted color format, which is a known one,
    and an [initData] array of exactly [mipLevels * arraySize] entries,
    the size it allocated. *)
Theorem CreateTextureEx_result : forall p alloc_ok base imgs n m c,
  0 <= width m -> 0 <= height m -> 0 <= depth m ->
  0 <= mipLevels m -> 0 <= arraySize m ->
  CreateTextureEx p alloc_ok base imgs n m = Some c ->
  let tf := ConvertDXGITextureFormat (format m) in
  tf <> GS_UNKNOWN /\
  1 <= mipLevels m <= UINT16_MAX /\ 1 <= arraySize m <= UINT16_MAX /\
  exists data,
    Z.of_nat (length data) = mipLevels m * arraySize m /\
    ((dimension m = TEX_DIMENSION_TEXTURE2D /\ IsCubemap m = true /\
      c = gs_cubetexture_create (width m) tf (mipLevels m) data 0) \/
     (dimension m = TEX_DIMENSION_TEXTURE2D /\ IsCubemap m = false /\
      c = gs_texture_create (width m) (height m) tf (mipLevels m) data 0) \/
     (dimension m = TEX_DIMENSION_TEXTURE3D /\ arraySize m = 1 /\
      c = gs_voltexture_create (width m) (height m) (depth m) tf (mipLevels m) data 0)).
Proof.
  intros p alloc_ok base imgs n m c Hw Hh Hd Hm Ha H tf.
  unfold CreateTextureEx in H.
  destruct imgs as [imgs|]; [| discriminate H].
  destruct (n =? 0); [discriminate H |].
  destruct (mipLevels m =? 0) eqn:E1; [discriminate H |].
  destruct (arraySize m =? 0) eqn:E2; [discriminate H |].
  cbn [orb] in H.
  destruct (width m >? UINT32_MAX) eqn:E3; [discriminate H |].
  destruct (height m >? UINT32_MAX) eqn:E4; [discriminate H |].
  destruct (mipLevels m >? UINT16_MAX) eqn:E5; [discriminate H |].
  destruct (arraySize m >? UINT16_MAX) eqn:E6; [discriminate H |].
  cbn [orb] in H.
  destruct (negb _); [discriminate H |].
  apply Z.eqb_neq in E1. apply Z.eqb_neq in E2.
  rewrite Z.gtb_ltb, Z.ltb_ge in E3, E4, E5, E6.
  unfold UINT32_MAX, UINT16_MAX in *.
  rewrite (Z.mod_small (width m)), (Z.mod_small (height m)), (Z.mod_small (mipLevels m))
    in H by lia.
  assert (Hdata : forall data,
            (if dimension m =? TEX_DIMENSION_TEXTURE3D then
               if depth m =? 0 then None
               else if depth m >? 65535 then None
               else if arraySize m >? 1 then None
               else create_volume p base m imgs n (Z.to_nat (mipLevels m)) 0 (depth m) []
             else create_items p base m imgs n (Z.to_nat (arraySize m)) 0 []) = Some data ->
            Z.of_nat (length data) = mipLevels m * arraySize m /\
            (dimension m = TEX_DIMENSION_TEXTURE3D ->
             arraySize m = 1 /\ depth m mod 2 ^ 32 = depth m)).
  { intros data Hd'.
    destruct (dimension m =? TEX_DIMENSION_TEXTURE3D) eqn:E7.
    - destruct (depth m =? 0); [discriminate Hd' |].
      destruct (depth m >? 65535) eqn:E8; [discriminate Hd' |].
      destruct (arraySize m >? 1) eqn:E9; [discriminate Hd' |].
      rewrite Z.gtb_ltb, Z.ltb_ge in E8, E9.
      apply create_volume_length in Hd'. cbn [length] in Hd'.
      assert (arraySize m = 1) by lia.
      split; [lia | intros _; split; [lia | apply Z.mod_small; lia]].
    - apply create_items_length in Hd'. cbn [length] in Hd'.
      split; [lia | intros E; apply Z.eqb_eq in E; congruence]. }
  unfold UINT16_MAX in H.
  destruct (if dimension m =? TEX_DIMENSION_TEXTURE3D then _ else _) as [data|]
    eqn:Ed in H; [| discriminate H].
  destruct (Hdata data Ed) as [Hlen H3].
  subst tf.
  destruct (ConvertDXGITextureFormat (format m)) eqn:Ec; [discriminate H | ..].
  all: split; [discriminate | split; [lia | split; [lia |]]].
  all: exists data; split; [exact Hlen |].
  all: destruct (Z.eqb_spec (dimension m) TEX_DIMENSION_TEXTURE1D); [discriminate H |].
  all: destruct (Z.eqb_spec (dimension m) TEX_DIMENSION_TEXTURE2D) as [E2d | N2d].
  all: try (destruct (IsCubemap m) eqn:Ecube; injection H as <-;
            [left | right; left]; repeat split; assumption).
  all: destruct (Z.eqb_spec (dimension m) TEX_DIMENSION_TEXTURE3D) as [E3d | N3d];
         [| discriminate H].
  all: destruct (H3 E3d) as [A1 Dm]; rewrite Dm in H; injection H as <-.
  all: right; right; repeat split; assumption.
Qed.

Lemma CreateTextureEx_cube : forall p alloc_ok base imgs n m s f l d fl,
  CreateTextureEx p alloc_ok base imgs n m = Some (gs_cubetexture_create s f l d fl) ->
  IsCubemap m = true.
Proof.
  intros p alloc_ok base imgs n m s f l d fl H. unfold CreateTextureEx in H.
  destruct imgs as [imgs|]; [| discriminate H]. cbv zeta in H.
  repeat match type of H with
  | context [if ?b then _ else _] =>
      let E := fresh "E" in destruct b eqn:E; try discriminate H
  | context [match ?x with Some _ => _ | None => _ end] =>
      destruct x; try discriminate H
  | context [match ConvertDXGITextureFormat ?g with GS_UNKNOWN => _ | _ => _ end] =>
      destruct (ConvertDXGITextureFormat g); try discriminate H
  end.
  all: first [assumption | reflexivity].
Qed.

(** [gs_create_texture_from_dds_file] makes a texture only when
    [LoadFromDDSFile] succeeded and wrote the metadata (not on its
    [true]-after-[Initialize]-failure path), and never a cube map: cube
    maps are loaded as plain 2D texture arrays. *)
Theorem gs_create_texture_from_dds_file_result :
  forall p alloc_ok base CopyImage_ok file mdata0 c,
    gs_create_texture_from_dds_file p alloc_ok base CopyImage_ok file mdata0 = Some c ->
    (exists m, LoadFromDDSFile p alloc_ok CopyImage_ok file = (true, Some m)) /\
    forall s f l d fl, c <> gs_cubetexture_create s f l d fl.
Proof.
  intros p alloc_ok base CopyImage_ok file mdata0 c H.
  unfold gs_create_texture_from_dds_file in H.
  destruct (LoadFromDDSFile p alloc_ok CopyImage_ok file) as [[|] [m|]];
    try discriminate H; try (cbn in H; discriminate H).
  split; [exists m; reflexivity |].
  intros s f l d fl ->. apply CreateTextureEx_cube in H.
  unfold IsCubemap, clear_cube in H. cbn [miscFlags] in H.
  rewrite has_flag_cleared_cube in H. discriminate H.
Qed.


Section SetupShape.
Variable p : platform.
Variable fmt cpFlags pixelSize nImages : Z.


Lemma setup_levels_shape : forall levels w h c c',
  1 <= w <= 16384 -> 1 <= h <= 16384 -> 0 <= c_pixels c ->
  setup_levels p fmt cpFlags pixelSize nImages levels w h c = Some c' ->
  0 <= c_pixels c' /\
  exists imgs, c_images c' = c_images c ++ imgs /\ length imgs = levels /\
               Forall (image_ok fmt) imgs.
Proof.
  induction levels as [|l IH]; intros w h c c' Hw Hh Hc H; cbn [setup_levels] in H.
  - injection H as <-. split; [lia |]. exists []. rewrite app_nil_r. auto.
  - destruct (c_index c >=? nImages); [discriminate H |].
    destruct (ComputePitch p fmt w h cpFlags) as [rp sp | e] eqn:Ecp; [| discriminate H].
    pose proof (ComputePitch_slice_bound p fmt w h cpFlags rp sp
                  ltac:(lia) ltac:(lia) Ecp) as Hsp.
    unfold setup_one in H.
    destruct (c_index c >=? nImages); [discriminate H |].
    destruct (c_pixels c + sp >? pixelSize); [discriminate H |].
    apply IH in H; [| apply shrink_range; lia | apply shrink_range; lia | cbn; lia].
    destruct H as [Hp' (imgs & E & L & F)]. cbn [c_images] in E.
    split; [exact Hp' |]. exists (mkImage w h fmt rp sp (c_pixels c) :: imgs).
    rewrite E, <- app_assoc.
    split; [reflexivity | split; [cbn; lia | constructor; [split; cbn; lia | exact F]]].
Qed.

Lemma setup_items_shape : forall items w h levels c c',
  1 <= w <= 16384 -> 1 <= h <= 16384 -> 0 <= c_pixels c ->
  setup_items p fmt cpFlags pixelSize nImages items w h levels c = Some c' ->
  exists imgs, c_images c' = c_images c ++ imgs /\ length imgs = (items * levels)%nat /\
               Forall (image_ok fmt) imgs.
Proof.
  induction items as [|i IH]; intros w h levels c c' Hw Hh Hc H; cbn [setup_items] in H.
  - injection H as <-. exists []. rewrite app_nil_r. auto.
  - destruct (setup_levels p fmt cpFlags pixelSize nImages levels w h c) as [c1|] eqn:E1;
      [| discriminate H].
    destruct (setup_levels_shape levels w h c c1 Hw Hh Hc E1) as [Hp1 (imgs1 & A1 & L1 & F1)].
    destruct (IH w h levels c1 c' Hw Hh Hp1 H) as (imgs2 & A2 & L2 & F2).
    exists (imgs1 ++ imgs2). rewrite A2, A1, app_assoc.
    split; [reflexivity | split; [rewrite length_app; lia | apply Forall_app; auto]].
Qed.
End SetupShape.


Lemma create_levels_run : forall p base m imgs n l item level acc,
  (dimension m =? TEX_DIMENSION_TEXTURE1D) || (dimension m =? TEX_DIMENSION_TEXTURE2D) = true ->
  0 <= item < arraySize m -> 0 <= level -> level + Z.of_nat l = mipLevels m ->
  arraySize m * mipLevels m = n -> Z.of_nat (length imgs) = n -> n < 2 ^ 32 ->
  0 < base -> Forall (fun i => img_format i = format m /\ 0 <= pixels i) imgs ->
  create_levels p base m imgs n l item level acc =
    Some (acc ++ map (fun k => base + pixels (nth k imgs image0))
                     (seq (Z.to_nat (item * mipLevels m + level)) l)).
Proof.
  intros p base m imgs n l. induction l as [|l IH];
    intros item level acc Hd Hi Hl Hls Hn Hlen Hn32 Hb F.
  - cbn. rewrite app_nil_r. reflexivity.
  - rewrite Nat2Z.inj_succ in Hls. cbn [create_levels].
    pose proof (size_pow_ge32 p) as Hp.
    assert (HI : ComputeIndex p m level item 0 = item * mipLevels m + level).
    { unfold ComputeIndex.
      replace (level >=? mipLevels m) with false
        by (symmetry; rewrite Z.geb_leb; apply Z.leb_gt; lia).
      rewrite Hd. cbn [Z.gtb Z.compare].
      replace (item >=? arraySize m) with false
        by (symmetry; rewrite Z.geb_leb; apply Z.leb_gt; lia).
      unfold size_wrap. apply Z.mod_small. nia. }
    rewrite HI.
    replace (item * mipLevels m + level >=? n) with false
      by (symmetry; rewrite Z.geb_leb; apply Z.leb_gt; nia).
    assert (Hin : In (image_at imgs (item * mipLevels m + level)) imgs)
      by (apply nth_In; nia).
    destruct (proj1 (Forall_forall _ _) F _ Hin) as [Hf Hpx].
    rewrite Hf, Z.eqb_refl. cbn [negb].
    unfold addr at 1.
    replace (base + pixels (image_at imgs (item * mipLevels m + level)) =? 0) with false
      by (symmetry; apply Z.eqb_neq; lia).
    rewrite IH by (try assumption; lia).
    assert (Hk : Z.to_nat (item * mipLevels m + (level + 1)) =
                 S (Z.to_nat (item * mipLevels m + level))) by nia.
    rewrite Hk, <- app_assoc. cbn [seq map app]. unfold addr, image_at. reflexivity.
Qed.

Lemma create_items_run : forall p base m imgs n i item acc,
  (dimension m =? TEX_DIMENSION_TEXTURE1D) || (dimension m =? TEX_DIMENSION_TEXTURE2D) = true ->
  0 <= item -> item + Z.of_nat i = arraySize m -> 0 <= mipLevels m ->
  arraySize m * mipLevels m = n -> Z.of_nat (length imgs) = n -> n < 2 ^ 32 ->
  0 < base -> Forall (fun i => img_format i = format m /\ 0 <= pixels i) imgs ->
  create_items p base m imgs n i item acc =
    Some (acc ++ map (fun k => base + pixels (nth k imgs image0))
                     (seq (Z.to_nat (item * mipLevels m)) (i * Z.to_nat (mipLevels m)))).
Proof.
  intros p base m imgs n i. induction i as [|i IH];
    intros item acc Hd Hi Hia Hm Hn Hlen Hn32 Hb F.
  - cbn. rewrite app_nil_r. reflexivity.
  - rewrite Nat2Z.inj_succ in Hia. cbn [create_items].
    rewrite (create_levels_run p base m imgs n (Z.to_nat (mipLevels m)) item 0 acc)
      by (try assumption; lia).
    rewrite IH by (try assumption; lia).
    rewrite <- app_assoc, <- map_app, Z.add_0_r. do 2 f_equal.
    replace (S i * Z.to_nat (mipLevels m))%nat
      with (Z.to_nat (mipLevels m) + i * Z.to_nat (mipLevels m))%nat by lia.
    rewrite seq_app.
    replace (Z.to_nat ((item + 1) * mipLevels m))
      with (Z.to_nat (item * mipLevels m) + Z.to_nat (mipLevels m))%nat
      by (rewrite <- Z2Nat.inj_add by nia; f_equal; ring).
    reflexivity.
Qed.

Lemma map_nth_seq_all : forall (g : Image -> Z) l,
  map (fun k => g (nth k l image0)) (seq 0 (length l)) = map g l.
Proof.
  intros g l. induction l as [|a l IH]; [reflexivity |].
  cbn [length seq map]. rewrite <- seq_shift, map_map.
  cbn [nth]. f_equal. exact IH.
Qed.

(** [CreateTextureEx] on the images that [Initialize] laid out for 2D
    metadata within the decoder's limits, with a format OBS knows: it
    creates a cube map or a plain texture with the image's sizes and mip
    count, and its [initData] is the pixel address of every image, in
    the order of the image array (item by item, each level by level). *)
Theorem CreateTextureEx_Initialize_2d :
  forall p alloc_ok base mdata flags hr img n ps,
    Initialize p alloc_ok mdata flags = (hr, Some img) ->
    DetermineImageArray p (m_metadata img) flags = Some (n, ps) ->
    dimension mdata = TEX_DIMENSION_TEXTURE2D ->
    ConvertDXGITextureFormat (format mdata) <> GS_UNKNOWN ->
    0 <= width mdata <= 16384 -> 0 <= height mdata <= 16384 ->
    0 <= depth mdata <= 2048 -> 0 <= arraySize mdata <= 2048 ->
    1 <= mipLevels mdata <= 15 -> 0 < base ->
    alloc_ok (mipLevels mdata * arraySize mdata * sizeof_ptr p) = true ->
    let data := map (fun i => base + pixels i) (m_image img) in
    let tf := ConvertDXGITextureFormat (format mdata) in
    CreateTextureEx p alloc_ok base (Some (m_image img)) n (m_metadata img) =
    Some (if IsCubemap mdata
          then gs_cubetexture_create (width mdata) tf (mipLevels mdata) data 0
          else gs_texture_create (width mdata) (height mdata) tf (mipLevels mdata) data 0).
Proof.
  intros p alloc_ok base mdata flags hr img n ps H HD Hdim Hf Hw Hh Hd Ha Hm Hb Hal data tf.
  destruct (Initialize_ok _ _ _ _ _ _ H)
    as (_ & Emd & _ & _ & Nw & Nh & Nd & Na & M1 & M2 & _).
  specialize (M2 ltac:(lia)). rewrite Z.max_r in M2 by lia.
  rewrite M2 in Emd.
  destruct (Initialize_layout _ _ _ _ _ _ H) as [n' [HD' HS]].
  rewrite HD in HD'. injection HD' as <- Hps.
  assert (Hv : valid_metadata (m_metadata img)).
  { rewrite Emd. unfold valid_metadata; cbn [width height depth arraySize mipLevels].
    lia. }
  destruct (image_array_tiles p (m_metadata img) flags n ps Hv HD) as (imgs & HS' & Hlen & _).
  subst ps. rewrite HS in HS'. injection HS' as <-.
  unfold SetupImageArray in HS. rewrite Emd in HS.
  cbn [dimension arraySize mipLevels format width height] in HS. rewrite Hdim in HS.
  replace ((TEX_DIMENSION_TEXTURE2D =? TEX_DIMENSION_TEXTURE1D) ||
           (TEX_DIMENSION_TEXTURE2D =? TEX_DIMENSION_TEXTURE2D)) with true in HS
    by reflexivity.
  replace ((arraySize mdata =? 0) || (mipLevels mdata =? 0)) with false in HS
    by (symmetry; apply orb_false_iff; split; apply Z.eqb_neq; lia).
  destruct (setup_items _ _ _ _ _ _ _ _ _ _) as [c'|] eqn:Es in HS; [| discriminate HS].
  cbn [option_map] in HS. injection HS as Hc.
  assert (Hw1 : 1 <= width mdata <= 16384) by lia.
  assert (Hh1 : 1 <= height mdata <= 16384) by lia.
  assert (Hc0 : 0 <= c_pixels (mkCursor 0 0 [])) by (cbn; lia).
  destruct (setup_items_shape _ _ _ _ _ _ _ _ _ _ _ Hw1 Hh1 Hc0 Es) as (imgs & A & L & F).
  cbn [c_images app] in A. rewrite Hc in A. subst imgs.
  assert (Hlen0 : Z.of_nat (length (m_image img)) = n) by exact Hlen.
  rewrite L in Hlen. rewrite Nat2Z.inj_mul, !Z2Nat.id in Hlen by lia.
  pose proof (size_pow_ge32 p) as Hp.
  unfold CreateTextureEx. rewrite Emd.
  cbn [width height depth arraySize mipLevels format dimension].
  replace (n =? 0) with false by (symmetry; apply Z.eqb_neq; nia).
  replace (mipLevels mdata =? 0) with false by (symmetry; apply Z.eqb_neq; lia).
  replace (arraySize mdata =? 0) with false by (symmetry; apply Z.eqb_neq; lia).
  unfold UINT32_MAX, UINT16_MAX.
  replace (width mdata >? 4294967295) with false
    by (symmetry; rewrite Z.gtb_ltb; apply Z.ltb_ge; lia).
  replace (height mdata >? 4294967295) with false
    by (symmetry; rewrite Z.gtb_ltb; apply Z.ltb_ge; lia).
  replace (mipLevels mdata >? 65535) with false
    by (symmetry; rewrite Z.gtb_ltb; apply Z.ltb_ge; lia).
  replace (arraySize mdata >? 65535) with false
    by (symmetry; rewrite Z.gtb_ltb; apply Z.ltb_ge; lia).
  rewrite Hal. cbn [orb negb]. rewrite Hdim.
  replace (TEX_DIMENSION_TEXTURE2D =? TEX_DIMENSION_TEXTURE3D) with false by reflexivity.
  rewrite (create_items_run p base _ (m_image img) n (Z.to_nat (arraySize mdata)) 0 [])
    by (cbn [dimension arraySize mipLevels format]; try rewrite Hdim; try reflexivity;
        try exact F; try exact Hlen0; nia).
  cbn [app dimension mipLevels]. rewrite Z.mul_0_l. cbn [Z.to_nat].
  rewrite <- L, (map_nth_seq_all (fun i => base + pixels i)). fold data.
  rewrite !Z.mod_small by lia.
  subst tf. destruct (ConvertDXGITextureFormat (format mdata)); [contradiction | ..].
  all: cbv [IsCubemap TEX_DIMENSION_TEXTURE2D TEX_DIMENSION_TEXTURE1D Z.eqb Pos.eqb]; destruct (has_flag _ _); reflexivity.
Qed.


Lemma ConvertDXGITextureFormat_injective_witness :
  ConvertDXGITextureFormat DXGI_FORMAT_B8G8R8A8_UNORM <> GS_UNKNOWN /\
  ConvertDXGITextureFormat DXGI_FORMAT_B8G8R8A8_UNORM =
    ConvertDXGITextureFormat DXGI_FORMAT_B8G8R8A8_UNORM /\
  DXGI_FORMAT_B8G8R8A8_UNORM = DXGI_FORMAT_B8G8R8A8_UNORM.
Proof.
  assert (H : ConvertDXGITextureFormat DXGI_FORMAT_B8G8R8A8_UNORM <> GS_UNKNOWN)
    by (vm_compute; discriminate).
  split; [exact H | split; [reflexivity |]].
  exact (ConvertDXGITextureFormat_injective _ _ H eq_refl).
Defined.

Lemma gs_create_texture_from_dds_file_result_witness :
  exists c,
    gs_create_texture_from_dds_file Win64 (fun _ => true) 4096 (fun _ _ _ => true)
      cube_payload_file rgba_array_metadata = Some c /\
    (exists m, LoadFromDDSFile Win64 (fun _ => true) (fun _ _ _ => true) cube_payload_file
                 = (true, Some m)) /\
    forall s f l d fl, c <> gs_cubetexture_create s f l d fl.
Proof.
  eexists. split; [vm_compute; reflexivity |].
  apply (gs_create_texture_from_dds_file_result Win64 (fun _ => true) 4096
           (fun _ _ _ => true) cube_payload_file rgba_array_metadata).
  vm_compute; reflexivity.
Defined.

Lemma CreateTextureEx_result_witness :
  exists c,
    CreateTextureEx Win64 (fun _ => true) 4096
      (Some rgba_array_images)
      6 rgba_array_metadata = Some c /\
    let m := rgba_array_metadata in
    let tf := ConvertDXGITextureFormat (format m) in
    tf <> GS_UNKNOWN /\
    1 <= mipLevels m <= UINT16_MAX /\ 1 <= arraySize m <= UINT16_MAX /\
    exists data,
      Z.of_nat (length data) = mipLevels m * arraySize m /\
      ((dimension m = TEX_DIMENSION_TEXTURE2D /\ IsCubemap m = true /\
        c = gs_cubetexture_create (width m) tf (mipLevels m) data 0) \/
       (dimension m = TEX_DIMENSION_TEXTURE2D /\ IsCubemap m = false /\
        c = gs_texture_create (width m) (height m) tf (mipLevels m) data 0) \/
       (dimension m = TEX_DIMENSION_TEXTURE3D /\ arraySize m = 1 /\
        c = gs_voltexture_create (width m) (height m) (depth m) tf (mipLevels m) data 0)).
Proof.
  eexists. split; [vm_compute; reflexivity |].
  refine (CreateTextureEx_result Win64 (fun _ => true) 4096 (Some rgba_array_images) 6 rgba_array_metadata _
            _ _ _ _ _ _); [vm_compute; discriminate .. | vm_compute; reflexivity].
Defined.

Lemma CreateTextureEx_Initialize_2d_witness :
  exists img n ps,
    Initialize Win64 (fun _ => true) rgba_array_metadata CP_FLAGS_NONE = (S_OK, Some img) /\
    DetermineImageArray Win64 (m_metadata img) CP_FLAGS_NONE = Some (n, ps) /\
    let mdata := rgba_array_metadata in
    let data := map (fun i => 4096 + pixels i) (m_image img) in
    let tf := ConvertDXGITextureFormat (format mdata) in
    CreateTextureEx Win64 (fun _ => true) 4096 (Some (m_image img)) n (m_metadata img) =
    Some (if IsCubemap mdata
          then gs_cubetexture_create (width mdata) tf (mipLevels mdata) data 0
          else gs_texture_create (width mdata) (height mdata) tf (mipLevels mdata) data 0).
Proof.
  do 3 eexists. split; [vm_compute; reflexivity |].
  split; [vm_compute; reflexivity |].
  eapply (CreateTextureEx_Initialize_2d Win64 (fun _ => true) 4096 rgba_array_metadata
           CP_FLAGS_NONE S_OK);
    [vm_compute; reflexivity | vm_compute; reflexivity | reflexivity |
     vm_compute; discriminate | cbn; lia .. | reflexivity].
Defined.

Lemma ib_mul : forall a b A B, 0 <= a <= A -> 0 <= b <= B -> 0 <= a * b <= A * B.
Proof. intros a b A B Ha Hb. split; [nia |]. apply Z.mul_le_mono_nonneg; lia. Qed.

Lemma ib_add : forall a b A B, 0 <= a <= A -> 0 <= b <= B -> 0 <= a + b <= A + B.
Proof. intros; lia. Qed.

Lemma ib_div : forall a c A, 0 <= a <= A -> 0 < c -> 0 <= a / c <= A / c.
Proof.
  intros a c A Ha Hc. split; [apply Z.div_pos; lia |].
  apply Z.div_le_mono; lia.
Qed.

Lemma ib_max : forall a A, 0 <= a <= A -> 0 <= Z.max 1 a <= Z.max 1 A.
Proof. intros; lia. Qed.

Lemma ib_const : forall c, 0 <= c -> 0 <= c <= c.
Proof. intros; lia. Qed.

(** Interval bounds [0 <= e <= B] for the expressions of the format
    switch, built from bounds on its variables. *)
Ltac ib :=
  lazymatch goal with
  | |- 0 <= ?a * ?b <= _ => eapply ib_mul; [ib | ib]
  | |- 0 <= ?a + ?b <= _ => eapply ib_add; [ib | ib]
  | |- 0 <= ?a / ?c <= _ => eapply ib_div; [ib | lia]
  | |- 0 <= Z.max 1 ?a <= _ => eapply ib_max; ib
  | |- 0 <= Z.pos _ <= _ => apply ib_const; lia
  | |- _ => eassumption
  end.

Ltac small :=
  match goal with
  | |- 0 <= ?x < ?N =>
      let B := fresh "B" in
      eassert (B : 0 <= x <= _) by ib;
      match type of B with
      | 0 <= _ <= ?U => let u := eval vm_compute in U in change U with u in B
      end; lia
  end.

Ltac drop_u64 :=
  repeat match goal with
  | |- context [u64 ?x] =>
      lazymatch x with
      | context [u64 _] => fail
      | _ => rewrite (u64_small x) by small
      end
  end.

(** For widths and heights below [2^28] no [uint64_t] operation of the
    format switch wraps: [pitch_of_format] computes the exact pitches. *)
Lemma pitch_of_format_no_wrap : forall fmt w h flags,
  0 <= w < 2 ^ 28 -> 0 <= h < 2 ^ 28 ->
  pitch_of_format fmt w h flags = pitch_of_format_exact fmt w h flags.
Proof.
  intros fmt w h flags Hw Hh.
  pose proof (BitsPerPixel_range fmt) as Hb.
  assert (Hw' : 0 <= w <= 268435455) by lia.
  assert (Hh' : 0 <= h <= 268435455) by lia.
  clear Hw Hh.
  unfold pitch_of_format, pitch_of_format_exact, mul64, add64.
  rewrite !Z.shiftr_div_pow2 by lia.
  change (2 ^ 1) with 2. change (2 ^ 2) with 4. change (2 ^ 64) with 18446744073709551616.
  repeat match goal with |- context [if ?c then _ else _] => destruct c end.
  all: drop_u64; reflexivity.
Qed.

(** C3: [ComputePitch] checks for overflow only on a 32-bit build, where
    every pitch it returns fits in 32 bits.  For widths and heights below
    [2^28] (no [uint64_t] step wraps) it fails with the overflow error
    exactly on a 32-bit build whose exact row or slice pitch exceeds
    [UINT32_MAX], and otherwise returns the exact pitches.  A 64-bit build
    never fails with the overflow error. *)
Theorem ComputePitch_overflow_check :
  forall p fmt w h flags,
    (p = Win64 -> ComputePitch p fmt w h flags <> PitchErr HRESULT_E_ARITHMETIC_OVERFLOW) /\
    (p = Win32 -> forall rp sp, ComputePitch p fmt w h flags = PitchOk rp sp ->
       rp <= UINT32_MAX /\ sp <= UINT32_MAX) /\
    (0 <= w < 2 ^ 28 -> 0 <= h < 2 ^ 28 ->
       (ComputePitch p fmt w h flags = PitchErr HRESULT_E_ARITHMETIC_OVERFLOW <->
          p = Win32 /\
          exists pitch slice, pitch_of_format_exact fmt w h flags = Some (pitch, slice) /\
            (UINT32_MAX < pitch \/ UINT32_MAX < slice)) /\
       (forall rp sp, ComputePitch p fmt w h flags = PitchOk rp sp ->
          pitch_of_format_exact fmt w h flags = Some (rp, sp))).
Proof.
  intros p fmt w h flags. unfold ComputePitch.
  split; [intros ->; destruct (pitch_of_format fmt w h flags) as [[? ?]|]; discriminate |].
  split.
  { intros -> rp sp.
    destruct (pitch_of_format fmt w h flags) as [[pi sl]|]; [| discriminate].
    destruct ((pi >? UINT32_MAX) || (sl >? UINT32_MAX)) eqn:E; intros H; [discriminate H |].
    injection H as <- <-. apply orb_false_iff in E as [E1 E2].
    rewrite Z.gtb_ltb, Z.ltb_ge in E1, E2. lia. }
  intros Hw Hh. rewrite (pitch_of_format_no_wrap fmt w h flags Hw Hh).
  destruct (pitch_of_format_exact fmt w h flags) as [[pitch slice]|] eqn:Hp.
  - destruct p.
    + destruct (pitch >? UINT32_MAX) eqn:E1; destruct (slice >? UINT32_MAX) eqn:E2;
        simpl; (split; [split |]).
      all: try (intros; reflexivity).
      all: try (intros _; split; [reflexivity | exists pitch, slice; split; [reflexivity | lia]]).
      all: try (intros rp sp H; discriminate H).
      all: try (intros H; discriminate H).
      all: try (intros [_ [pi [sl [H1 H2]]]]; injection H1 as <- <-; lia).
      intros rp sp H. injection H as <- <-. reflexivity.
    + split; [split; [intros H; discriminate H | intros [H _]; discriminate H] |].
      intros rp sp H. injection H as <- <-. reflexivity.
  - split; [split; [intros H; discriminate H | intros [_ [pi [sl [H _]]]]; discriminate H] |].
    intros rp sp H; discriminate H.
Qed.

Lemma ComputePitch_overflow_check_witness :
  ComputePitch Win32 DXGI_FORMAT_R32G32B32A32_FLOAT 16384 16384 CP_FLAGS_NONE
    = PitchErr HRESULT_E_ARITHMETIC_OVERFLOW /\
  pitch_of_format_exact DXGI_FORMAT_R32G32B32A32_FLOAT 16384 16384 CP_FLAGS_NONE
    = Some (262144, 4294967296).
Proof.
  destruct (ComputePitch_overflow_check Win32 DXGI_FORMAT_R32G32B32A32_FLOAT 16384 16384
              CP_FLAGS_NONE) as [_ [_ H]].
  destruct (H ltac:(lia) ltac:(lia)) as [[_ I] _].
  split; [| reflexivity].
  apply I. split; [reflexivity |].
  exists 262144, 4294967296. split; [reflexivity | right; unfold UINT32_MAX; lia].
Defined.
